(** * BoloCalc core: the Parameter engine and the Sensitivity engine

    A shallow embedding of [src/parameter.py], of the parts of
    [src/sensitivity.py] that split the element chain, cascade the
    transmissions and store the array-combined outputs, and of the
    parameter table of [src/channel.py], followed by the properties
    established about them.

    Conventions of the embedding.
    - A Python [float] is a binary64 value: [PrimFloat.float]; its
      comparisons are the IEEE ones ([nan] differs from itself).
    - An item read from a numpy array is a [numpy.float64]: the same
      binary64 value, whose [round] is numpy's ([np_round]: scale, round to
      the nearest integer, scale back) and not the builtin of a Python
      float.  What [float()], a unit conversion or a Distribution returns
      is taken as a Python float.
    - A Python [str] is a [string]; the text is ASCII (the configuration
      files are), bytes above 127 pass through the case functions unchanged.
    - An exception is a value of [exn]; a call that can raise returns a
      [result].
    - A numpy array or a Python list that is mutated in place lives in a
      store and is named by its location, so that two attributes bound to
      one object see each other's writes.
    - Builtins and collaborators whose code is not in the repository
      ([float()], [eval], [round], [numpy.log10], [numpy.random.normal],
      the unit table) are fields of [PyRuntime]; [Ref] gives one
      implementation of them for the closed examples. *)

From Stdlib Require Import ZArith List String Ascii Lia Bool.
From Stdlib Require Import Floats.
From stdpp Require Import gmap strings list.

Set Warnings "-inexact-float,-register-all".

(* ===================================================================== *)
(** * Python strings *)
(* ===================================================================== *)

Module PyStr.

Definition is_lower (c : ascii) : bool :=
  let n := nat_of_ascii c in (97 <=? n)%nat && (n <=? 122)%nat.

Definition is_upper (c : ascii) : bool :=
  let n := nat_of_ascii c in (65 <=? n)%nat && (n <=? 90)%nat.

Definition upper_char (c : ascii) : ascii :=
  if is_lower c then ascii_of_nat (nat_of_ascii c - 32) else c.

Definition lower_char (c : ascii) : ascii :=
  if is_upper c then ascii_of_nat (nat_of_ascii c + 32) else c.

Fixpoint map_chars (f : ascii -> ascii) (s : string) : string :=
  match s with
  | EmptyString => EmptyString
  | String c r => String (f c) (map_chars f r)
  end.

(** [s.upper()] and [s.lower()]. *)
Definition upper : string -> string := map_chars upper_char.
Definition lower : string -> string := map_chars lower_char.

(** [s.capitalize()]: first character upper case, the rest lower case. *)
Definition capitalize (s : string) : string :=
  match s with
  | EmptyString => EmptyString
  | String c r => String (upper_char c) (lower r)
  end.

(** The characters [str.strip()] removes: tab, line feed, vertical tab,
    form feed, carriage return, the four separators 28..31 and space. *)
Definition is_space (c : ascii) : bool :=
  let n := nat_of_ascii c in
  ((9 <=? n)%nat && (n <=? 13)%nat) || ((28 <=? n)%nat && (n <=? 32)%nat).

Fixpoint lstrip (s : string) : string :=
  match s with
  | EmptyString => EmptyString
  | String c r => if is_space c then lstrip r else s
  end.

Fixpoint rev_onto (s acc : string) : string :=
  match s with
  | EmptyString => acc
  | String c r => rev_onto r (String c acc)
  end.

Definition rev (s : string) : string := rev_onto s EmptyString.

Definition rstrip (s : string) : string := rev (lstrip (rev s)).

(** [s.strip()]. *)
Definition strip (s : string) : string := rstrip (lstrip s).

(** [sub in s]. *)
Fixpoint contains (sub s : string) : bool :=
  String.prefix sub s ||
  match s with
  | EmptyString => false
  | String _ r => contains sub r
  end.

(** [s.split(d)] for a non-empty delimiter [d]: [skip] counts the
    characters of a delimiter occurrence still to be dropped, [cur] is the
    current piece, reversed. *)
Fixpoint split_from (d s : string) (skip : nat) (cur : string) : list string :=
  match s with
  | EmptyString => [rev cur]
  | String c r =>
      match skip with
      | S k => split_from d r k cur
      | O =>
          if String.prefix d s
          then rev cur :: split_from d r (String.length d - 1) EmptyString
          else split_from d r 0 (String c cur)
      end
  end.

Definition split (d s : string) : list string := split_from d s 0 EmptyString.

(** [s[i]] for [0 <= i]: the one-character string at that position. *)
Definition char_at (s : string) (i : nat) : option string :=
  match String.get i s with
  | Some c => Some (String c EmptyString)
  | None => None
  end.

End PyStr.

(* ===================================================================== *)
(** * Exceptions and results *)
(* ===================================================================== *)

(** The exceptions the modelled code can raise. [Fatal] is what
    [log.err] does; [Unmodelled] marks a Python behaviour the embedding
    does not follow (the text names it). *)
Inductive exn : Type :=
| ValueError
| TypeError
| IndexError
| KeyError (key : string)
| OverflowError
| AttributeError (attr : string)
| NameError (name : string)
| SyntaxError
| Fatal (msg : string)
| Unmodelled (what : string).

Inductive result (A : Type) : Type :=
| Ok (a : A)
| Raise (e : exn).

Arguments Ok {A} a.
Arguments Raise {A} e.

Definition bind {A B : Type} (r : result A) (k : A -> result B) : result B :=
  match r with
  | Ok a => k a
  | Raise e => Raise e
  end.

Declare Scope py_scope.
Delimit Scope py_scope with py.
Notation "x <- c ;; k" := (bind c (fun x => k))
  (at level 100, c at next level, right associativity) : py_scope.
Notation "c ;;; k" := (bind c (fun _ => k))
  (at level 100, right associativity) : py_scope.

(** Modelled from the spec: the logging collaborator is not in the
    repository; every detected fault is fatal and aborts, so [log.err]
    never returns. *)
Definition log_err {A : Type} (msg : string) : result A := Raise (Fatal msg).

(** Python indexing [l[i]] of a sequence: a negative index counts from the
    end, an index outside the sequence raises IndexError. *)
Definition py_index (len : nat) (i : Z) : option nat :=
  let n := Z.of_nat len in
  if (0 <=? i)%Z && (i <? n)%Z then Some (Z.to_nat i)
  else if (i <? 0)%Z && (- n <=? i)%Z then Some (Z.to_nat (n + i))
  else None.

Definition py_getitem {A : Type} (l : list A) (i : Z) : result A :=
  match py_index (length l) i with
  | Some k => match l !! k with Some x => Ok x | None => Raise IndexError end
  | None => Raise IndexError
  end.

Definition py_setitem {A : Type} (l : list A) (i : Z) (x : A) : result (list A) :=
  match py_index (length l) i with
  | Some k => Ok (<[k:=x]> l)
  | None => Raise IndexError
  end.

(* ===================================================================== *)
(** * Values, objects and collaborators *)
(* ===================================================================== *)

(** Modelled from the spec: the Unit collaborator ([src/unit.py]) is not in
    the repository; its contract is [to_SI(value)], which converts a number
    (an array element by element) from the declared unit to SI. *)
Record Unit : Type := mkUnit {
  unit_name : string;
  to_SI : float -> float
}.

(** Modelled from the spec: the Distribution collaborator
    ([src/distribution.py]) is not in the repository; its contract is
    [mean()], [median()], [std()] and [sample(n)], which gives [n] draws, or
    a single value when [n] is 1.  [dist_draw n i] is the [i]-th of the [n]
    draws of one call. *)
Record Distribution : Type := mkDistribution {
  dist_mean : float;
  dist_median : float;
  dist_std : float;
  dist_draw : nat -> nat -> float
}.

(** The Python values a Parameter handles.  [VSeq] is a list value that
    nothing mutates (what [eval] hands back); [VRef] names a mutable object
    of the store. *)
Inductive pyval : Type :=
| VNone
| VBool (b : bool)
| VInt (z : Z)
| VFloat (f : float)
| VStr (s : string)
| VSeq (items : list pyval)
| VRef (l : nat)
| VDist (d : Distribution).

(** Mutable objects: a numpy array of floats, or a Python list. *)
Inductive obj : Type :=
| OArr (a : list float)
| OList (items : list pyval).

(** The type object passed as [inp_type]. *)
Inductive ptype : Type := TBool | TInt | TFloat | TStr | TList | TOther.

(** What the caller passes as [inp]: a plain value (a string, a
    Distribution, ...), the pair [(param_str, dist_dict)] of an optic, or a
    tuple of another length. *)
Inductive pinput : Type :=
| InVal (v : pyval)
| InPair (param_str : pyval) (dist_dict : option (gmap string Distribution))
| InTuple (len : nat).

(** The builtins and library functions the code calls. *)
Class PyRuntime : Type := mkPyRuntime {
  (** [float(s)] on a string; [None] is ValueError. *)
  float_of_str : string -> option float;
  (** [int(s)] on a string; [None] is ValueError. *)
  int_of_str : string -> option Z;
  (** [np.array(eval(s)).astype(float)], a one-dimensional array; [None]
      is any exception on the way. *)
  eval_float_array : string -> option (list float);
  (** [eval(s)]. *)
  py_eval : string -> result pyval;
  (** [eval(s, {'PDF': 'PDF'})]. *)
  py_eval_pdf : string -> result pyval;
  (** [np.log10(x)]. *)
  np_log10 : float -> float;
  (** [round(x, ndigits)]. *)
  py_round : float -> Z -> result float;
  (** [np.random.normal(avg, std, n)[i]]: the [i]-th of the [n] variates
      the process-wide generator gives to this call. *)
  np_random_normal : float -> float -> nat -> nat -> float;
  (** [un.Unit(name)]. *)
  un_Unit : string -> Unit
}.

(* --------------------------------------------------------------------- *)
(** ** Conversions between integers and floats *)

(** The integer value of a finite float, rounded toward zero. *)
Definition trunc_float (x : float) : result Z :=
  match Prim2SF x with
  | S754_zero _ => Ok 0%Z
  | S754_infinity _ => Raise OverflowError
  | S754_nan => Raise ValueError
  | S754_finite s m e =>
      let v := if (0 <=? e)%Z then (Z.pos m * 2 ^ e)%Z
               else (Z.pos m / 2 ^ (- e))%Z in
      Ok (if s then (- v)%Z else v)
  end.

(** [int(x)] on a float. *)
Definition int_of_float (x : float) : result Z := trunc_float x.

(** The float nearest to the rational [n / d] (ties to even), negated when
    [neg] is set. *)
Definition float_of_ratio (neg : bool) (n d : positive) : float :=
  SF2Prim (SFdiv prec emax (S754_finite neg n 0) (S754_finite false d 0)).

(** [float(z)] on an integer: the nearest float, an OverflowError when
    there is none. *)
Definition float_of_int (z : Z) : result float :=
  match z with
  | Z0 => Ok 0%float
  | Zpos p | Zneg p =>
      if (Z.pos p <? 2 ^ 1024)%Z
      then
        let f := float_of_ratio (z <? 0)%Z p 1 in
        if is_infinity f then Raise OverflowError else Ok f
      else Raise OverflowError
  end.

(** [np.floor(x)]. *)
Definition np_floor (x : float) : float :=
  match Prim2SF x with
  | S754_finite s m e =>
      if (0 <=? e)%Z then x
      else
        let q := (Z.pos m / 2 ^ (- e))%Z in
        let exact := (Z.pos m mod 2 ^ (- e) =? 0)%Z in
        let a := if s && negb exact then (q + 1)%Z else q in
        match a with
        | Zpos p => float_of_ratio s p 1
        | _ => if s then (-0)%float else 0%float
        end
  | _ => x
  end.

(** The integer nearest to [num / den], ties to the even one. *)
Definition round_half_even (num den : Z) : Z :=
  let q := (num / den)%Z in
  let r2 := (2 * (num mod den))%Z in
  if (r2 <? den)%Z then q
  else if (den <? r2)%Z then (q + 1)%Z
  else if Z.even q then q else (q + 1)%Z.

(** [np.rint(x)]: the integer nearest to [x], the even one of two, as a
    float of the sign of [x]. *)
Definition np_rint (x : float) : float :=
  match Prim2SF x with
  | S754_finite s m e =>
      if (0 <=? e)%Z then x
      else
        match round_half_even (Z.pos m) (2 ^ (- e)) with
        | Zpos p => float_of_ratio s p 1
        | _ => if s then (-0)%float else 0%float
        end
  | _ => x
  end.

(** The factor numpy's [round] scales by: [10.**n], from 1 by repeated
    multiplication by ten (exact up to [10.**22]). *)
Fixpoint power_of_ten (n : nat) : float :=
  match n with
  | O => 1%float
  | S k => (power_of_ten k * 10)%float
  end.

(** [round(x, ndigits)] on a [numpy.float64]: numpy scales, rounds to the
    nearest integer and scales back, where the builtin [round] of a Python
    float rounds the exact decimal value. *)
Definition np_round (x : float) (ndigits : Z) : float :=
  if (ndigits =? 0)%Z then np_rint x
  else if (0 <? ndigits)%Z
  then let f := power_of_ten (Z.to_nat ndigits) in (np_rint (x * f) / f)%float
  else let f := power_of_ten (Z.to_nat (- ndigits)) in (np_rint (x / f) * f)%float.

(* --------------------------------------------------------------------- *)
(** ** The Parameter object *)

(** The descriptor a caller may pass as [std_param]. *)
Record StandardParam : Type := mkStandardParam {
  sp_name : pyval;
  sp_unit : Unit;
  sp_min : option float;
  sp_max : option float;
  sp_type : ptype
}.

(** The attributes of an instance of class [Parameter] ([Param] here, the
    class name being a reserved word), with the store holding the arrays and
    lists its attributes refer to.  [_mult_bands] is [None] until a
    constructor path assigns it. *)
Record Param : Type := mkParam {
  name : pyval;
  unit : Unit;
  _min : option float;
  _max : option float;
  _type : ptype;
  _band_ids : option (list string);
  _val : pyval;
  _avg : pyval;
  _med : pyval;
  _std : pyval;
  _mult_bands : option bool;
  store : list obj
}.

Definition set_val (v : pyval) (p : Param) : Param :=
  mkParam (name p) (unit p) (_min p) (_max p) (_type p) (_band_ids p)
    v (_avg p) (_med p) (_std p) (_mult_bands p) (store p).
Definition set_avg (v : pyval) (p : Param) : Param :=
  mkParam (name p) (unit p) (_min p) (_max p) (_type p) (_band_ids p)
    (_val p) v (_med p) (_std p) (_mult_bands p) (store p).
Definition set_med (v : pyval) (p : Param) : Param :=
  mkParam (name p) (unit p) (_min p) (_max p) (_type p) (_band_ids p)
    (_val p) (_avg p) v (_std p) (_mult_bands p) (store p).
Definition set_std (v : pyval) (p : Param) : Param :=
  mkParam (name p) (unit p) (_min p) (_max p) (_type p) (_band_ids p)
    (_val p) (_avg p) (_med p) v (_mult_bands p) (store p).
Definition set_mult_bands (b : bool) (p : Param) : Param :=
  mkParam (name p) (unit p) (_min p) (_max p) (_type p) (_band_ids p)
    (_val p) (_avg p) (_med p) (_std p) (Some b) (store p).
Definition set_store (h : list obj) (p : Param) : Param :=
  mkParam (name p) (unit p) (_min p) (_max p) (_type p) (_band_ids p)
    (_val p) (_avg p) (_med p) (_std p) (_mult_bands p) h.

(** A new object: it goes at the end of the store. *)
Definition alloc (o : obj) (p : Param) : pyval * Param :=
  (VRef (length (store p)), set_store (store p ++ [o]) p).

(** The allowed parameter string values when the input type is float. *)
Definition _float_str_vals : list string := ["NA"; "BAND"]%string.

(** The spread delimiter. *)
Definition _spread_delim : string := "+/-"%string.

Definition in_strs (s : string) (l : list string) : bool :=
  existsb (String.eqb s) l.

Definition is_none (v : pyval) : bool :=
  match v with VNone => true | _ => false end.

(* ===================================================================== *)
(** * class Parameter ([src/parameter.py]) *)
(* ===================================================================== *)

Section ParameterModel.

Context {rt : PyRuntime}.
Open Scope py_scope.
Import PyStr.

(* ------------------------------------------------------------------- *)
(** ** Builtins on values *)

(** [float(v)]. *)
Definition py_float (v : pyval) : result float :=
  match v with
  | VFloat f => Ok f
  | VInt z => float_of_int z
  | VBool b => Ok (if b then 1%float else 0%float)
  | VStr s =>
      match float_of_str s with
      | Some f => Ok f
      | None => Raise ValueError
      end
  | VRef _ => Raise (Unmodelled "float() of an array or a list")
  | _ => Raise TypeError
  end.

(** [int(v)]. *)
Definition py_int (v : pyval) : result Z :=
  match v with
  | VInt z => Ok z
  | VBool b => Ok (if b then 1%Z else 0%Z)
  | VFloat f => int_of_float f
  | VStr s =>
      match int_of_str s with
      | Some z => Ok z
      | None => Raise ValueError
      end
  | VRef _ => Raise (Unmodelled "int() of an array or a list")
  | _ => Raise TypeError
  end.

(** [str(v)], where the embedding follows it. *)
Definition py_str (v : pyval) : result string :=
  match v with
  | VStr s => Ok s
  | VNone => Ok "None"%string
  | VBool b => Ok (if b then "True" else "False")%string
  | _ => Raise (Unmodelled "str() of a number, a sequence or an object")
  end.

(** [str(v).upper() in self._float_str_vals].  The text of a number, of
    None, of a boolean, of a sequence or of an object is never NA or
    BAND, so only a string can pass. *)
Definition is_float_str_val (v : pyval) : bool :=
  match v with
  | VStr s => in_strs (upper s) _float_str_vals
  | _ => false
  end.

(** ['PDF' in str(v).upper()]; the text of a number, of None or of a
    boolean has no such part. *)
Definition mentions_PDF (v : pyval) : result bool :=
  match v with
  | VStr s => Ok (contains "PDF" (upper s))
  | VNone | VBool _ | VInt _ | VFloat _ => Ok false
  | _ => Raise (Unmodelled "str() of a sequence or an object")
  end.

(** [v.upper()]: only a string has the method. *)
Definition upper_method (v : pyval) : result string :=
  match v with
  | VStr s => Ok (upper s)
  | _ => Raise (AttributeError "upper")
  end.

(** [seq[i]]. *)
Definition subscript (self : Param) (v : pyval) (i : Z) : result pyval :=
  match v with
  | VRef l =>
      match store self !! l with
      | Some (OArr a) => x <- py_getitem a i ;; Ok (VFloat x)
      | Some (OList items) => py_getitem items i
      | None => Raise (Unmodelled "dangling reference")
      end
  | VSeq items => py_getitem items i
  | VStr s =>
      match py_index (String.length s) i with
      | Some k =>
          match char_at s k with
          | Some c => Ok (VStr c)
          | None => Raise IndexError
          end
      | None => Raise IndexError
      end
  | _ => Raise TypeError
  end.

(** The float numpy stores for [arr[i] = x]. *)
Definition as_array_item (x : pyval) : result float :=
  match x with
  | VFloat f => Ok f
  | VStr s =>
      match float_of_str s with
      | Some f => Ok f
      | None => Raise ValueError
      end
  | _ => Raise (Unmodelled "array item that is neither float nor str")
  end.

(** [seq[i] = x]: the object named by [v] is updated in the store, every
    attribute bound to it sees the new item. *)
Definition setitem (self : Param) (v : pyval) (i : Z) (x : pyval) : result Param :=
  match v with
  | VRef l =>
      match store self !! l with
      | Some (OArr a) =>
          f <- as_array_item x ;;
          a' <- py_setitem a i f ;;
          Ok (set_store (<[l := OArr a']> (store self)) self)
      | Some (OList items) =>
          items' <- py_setitem items i x ;;
          Ok (set_store (<[l := OList items']> (store self)) self)
      | None => Raise (Unmodelled "dangling reference")
      end
  | VSeq _ => Raise (Unmodelled "item assignment to an evaluated list")
  | _ => Raise TypeError
  end.

(** [lst.append(x)]. *)
Definition append (self : Param) (v : pyval) (x : pyval) : result Param :=
  match v with
  | VRef l =>
      match store self !! l with
      | Some (OList items) =>
          Ok (set_store (<[l := OList (items ++ [x])]> (store self)) self)
      | Some (OArr _) => Raise (AttributeError "append")
      | None => Raise (Unmodelled "dangling reference")
      end
  | _ => Raise (AttributeError "append")
  end.

(** [self._mult_bands], an AttributeError when no path assigned it. *)
Definition get_mult_bands (self : Param) : result bool :=
  match _mult_bands self with
  | Some b => Ok b
  | None => Raise (AttributeError "_mult_bands")
  end.

(** [self.unit.to_SI(arr)] on an array. *)
Definition to_SI_array (u : Unit) (a : list float) : list float :=
  map (to_SI u) a.

(* ------------------------------------------------------------------- *)
(** ** Public methods *)

(** [Parameter.fetch]. *)
Definition fetch (self : Param) (band_id : Z) : result (pyval * pyval * pyval) :=
  if negb (is_none (_val self)) && is_none (_avg self)
  then Ok (_val self, _val self, VStr "NA")
  else
    mb <- get_mult_bands self ;;
    if mb
    then
      a <- subscript self (_avg self) (band_id - 1) ;;
      m <- subscript self (_med self) (band_id - 1) ;;
      s <- subscript self (_std self) (band_id - 1) ;;
      Ok (a, m, s)
    else Ok (_avg self, _med self, _std self).

(** [Parameter.get_val]. *)
Definition get_val (self : Param) : pyval := _val self.

(** [Parameter.get_avg], [get_med], [get_std]. *)
Definition get_avg (self : Param) (band_id : Z) : result pyval :=
  t <- fetch self band_id ;; Ok (fst (fst t)).
Definition get_med (self : Param) (band_id : Z) : result pyval :=
  t <- fetch self band_id ;; Ok (snd (fst t)).
Definition get_std (self : Param) (band_id : Z) : result pyval :=
  t <- fetch self band_id ;; Ok (snd t).

(** [Parameter._is_empty]. *)
Definition _is_empty (self : Param) (band_id : Z) : result bool :=
  mb <- get_mult_bands self ;;
  if mb
  then
    x <- subscript self (_avg self) (band_id - 1) ;;
    Ok (is_float_str_val x)
  else Ok (is_float_str_val (_avg self)).

(** [Parameter._sig_figs] on a Python value: [round] is the builtin of a
    Python float. *)
Definition _sig_figs (inp : pyval) (sig : Z) : result float :=
  match inp with
  | VFloat x =>
      if (x =? 0)%float then Ok x
      else
        e <- int_of_float (np_floor (np_log10 (abs x))) ;;
        py_round x (sig - e - 1)
  | VInt _ | VBool _ => Raise (Unmodelled "_sig_figs of an integer")
  | VRef _ => Raise (Unmodelled "_sig_figs of an array or a list")
  | _ => Raise TypeError
  end.

(** [Parameter._sig_figs] on a [numpy.float64]: the same lines, where
    [round] is numpy's. *)
Definition _sig_figs_float64 (x : float) (sig : Z) : result float :=
  if (x =? 0)%float then Ok x
  else
    e <- int_of_float (np_floor (np_log10 (abs x))) ;;
    Ok (np_round x (sig - e - 1)).

(** [isinstance(v, np.ndarray)]. *)
Definition is_ndarray (self : Param) (v : pyval) : bool :=
  match v with
  | VRef l =>
      match store self !! l with
      | Some (OArr _) => true
      | _ => false
      end
  | _ => false
  end.

(** [self._sig_figs(seq[i], sig)], [x] being the item read from [seq]: the
    item of a numpy array is a [numpy.float64]; the item of a list is the
    object the list holds. *)
Definition _sig_figs_item (self : Param) (seq x : pyval) (sig : Z) : result float :=
  match x with
  | VFloat f =>
      if is_ndarray self seq then _sig_figs_float64 f sig else _sig_figs x sig
  | _ => _sig_figs x sig
  end.

(** [a != b] on floats. *)
Definition float_ne (a b : float) : bool := negb (a =? b)%float.

(** The float branch of [change] once the slot is known to hold a value:
    compare at 5 significant figures, commit what differs. *)
Definition change_float_slot (self : Param) (mb : bool)
    (avg_new : float) (new_std : option float) (band_id : Z) : result (bool * Param) :=
  if mb
  then
    a <- _sig_figs (VFloat avg_new) 5 ;;
    cur <- subscript self (_avg self) (band_id - 1) ;;
    b <- _sig_figs_item self (_avg self) cur 5 ;;
    r1 <- (if float_ne a b
           then self' <- setitem self (_avg self) (band_id - 1) (VFloat avg_new) ;;
                Ok (true, self')
           else Ok (false, self)) ;;
    match new_std with
    | Some s =>
        let std_new := to_SI (unit self) s in
        c <- _sig_figs (VFloat std_new) 5 ;;
        cur_s <- subscript (snd r1) (_std (snd r1)) (band_id - 1) ;;
        d <- _sig_figs_item (snd r1) (_std (snd r1)) cur_s 5 ;;
        if float_ne c d
        then self'' <- setitem (snd r1) (_std (snd r1)) (band_id - 1) (VFloat std_new) ;;
             Ok (true, self'')
        else Ok r1
    | None => Ok r1
    end
  else
    a <- _sig_figs (VFloat avg_new) 5 ;;
    b <- _sig_figs (_avg self) 5 ;;
    let r1 := if float_ne a b
              then (true, set_avg (VFloat avg_new) self)
              else (false, self) in
    match new_std with
    | Some s =>
        let std_new := to_SI (unit self) s in
        c <- _sig_figs (VFloat std_new) 5 ;;
        d <- _sig_figs (_std (snd r1)) 5 ;;
        if float_ne c d
        then Ok (true, set_std (VFloat std_new) (snd r1))
        else Ok r1
    | None => Ok r1
    end.

(** [Parameter.change]: the new parameter state and the returned flag. *)
Definition change (self : Param) (new_avg : pyval) (new_std : option float)
    (band_id : Z) : result (bool * Param) :=
  match new_avg with
  | VStr avg_new =>
      mb <- get_mult_bands self ;;
      if mb
      then
        cur <- subscript self (_avg self) (band_id - 1) ;;
        cur_up <- upper_method cur ;;
        if negb (String.eqb cur_up (upper avg_new))
        then self' <- setitem self (_avg self) (band_id - 1) (VStr avg_new) ;;
             Ok (true, self')
        else Ok (false, self)
      else
        cur_up <- upper_method (_avg self) ;;
        if negb (String.eqb cur_up (upper avg_new))
        then Ok (true, set_avg (VStr avg_new) self)
        else Ok (false, self)
  | VFloat x =>
      let avg_new := to_SI (unit self) x in
      e <- _is_empty self band_id ;;
      if e
      then
        mb <- get_mult_bands self ;;
        if mb
        then self' <- setitem self (_avg self) (band_id - 1) (VFloat avg_new) ;;
             Ok (true, self')
        else Ok (true, set_avg (VFloat avg_new) self)
      else
        mb <- get_mult_bands self ;;
        change_float_slot self mb avg_new new_std band_id
  | _ => log_err "Could not change parameter"
  end.

(** [std is "NA" or np.any(std <= 0.)].  The identity test holds of one
    object, the constant 'NA' that [fetch] hands out for a parameter
    without average ([literal]); a text NA that [_float] computed is
    another object, and its comparison with a float is a TypeError. *)
Definition std_is_NA_or_not_positive (self : Param) (literal : bool) (std : pyval)
    : result bool :=
  if literal then Ok true
  else
  match std with
  | VStr _ => Raise TypeError
  | VFloat f => Ok (f <=? 0)%float
  | VInt z => Ok (z <=? 0)%Z
  | VBool b => Ok (negb b)
  | VRef l =>
      match store self !! l with
      | Some (OArr a) => Ok (existsb (fun x => (x <=? 0)%float) a)
      | Some (OList _) => Raise TypeError
      | None => Raise (Unmodelled "dangling reference")
      end
  | _ => Raise TypeError
  end.

(** The location or scale handed to [np.random.normal]. *)
Definition normal_arg (v : pyval) : result float :=
  match v with
  | VFloat f => Ok f
  | VInt z => float_of_int z
  | _ => Raise (Unmodelled "np.random.normal with a non-scalar argument")
  end.

(** [np.random.normal(avg, std, nsample)]. *)
Definition normal_array (avg std : float) (nsample : Z) : result (list float) :=
  if (nsample <? 0)%Z then Raise ValueError
  else
    let n := Z.to_nat nsample in
    Ok (map (np_random_normal avg std n) (seq 0 n)).

(** What [samp] is bound to: one float, or an array. *)
Inductive drawn : Type :=
| Scalar (x : float)
| Array (a : list float).

(** The truth value Python takes of an elementwise comparison of [samp]
    with a scalar bound: an array of more than one element has none. *)
Definition truth_of_compare (cmp : float -> float -> bool) (samp : drawn)
    (bound : float) : result bool :=
  match samp with
  | Scalar x => Ok (cmp x bound)
  | Array [] => Ok false
  | Array [x] => Ok (cmp x bound)
  | Array _ => Raise ValueError
  end.

(** [min is not None and samp < min], and the same for [max]. *)
Definition below_min (samp : drawn) (min : option float) : result bool :=
  match min with
  | Some m => truth_of_compare PrimFloat.ltb samp m
  | None => Ok false
  end.

Definition above_max (samp : drawn) (max : option float) : result bool :=
  match max with
  | Some m => truth_of_compare (fun x b => PrimFloat.ltb b x) samp m
  | None => Ok false
  end.

(** A sampled value as the caller receives it; an array is a new object. *)
Definition return_drawn (self : Param) (samp : drawn) : pyval * Param :=
  match samp with
  | Scalar x => (VFloat x, self)
  | Array a => alloc (OArr a) self
  end.

(** Modelled from the spec: [Distribution.sample(n)] gives [n] draws, or
    a single value when [n] is 1. *)
Definition dist_sample (d : Distribution) (nsample : Z) : result drawn :=
  if (nsample =? 1)%Z then Ok (Scalar (dist_draw d 1 0))
  else if (nsample <? 0)%Z then Raise ValueError
  else
    let n := Z.to_nat nsample in
    Ok (Array (map (dist_draw d n) (seq 0 n))).

(** [if min is None: min = self._min], and the same for [max]. *)
Definition passed_or_stored (passed stored : option float) : option float :=
  match passed with
  | Some m => Some m
  | None => stored
  end.

(** [Parameter.sample]. *)
Definition sample (self : Param) (band_id : Z) (nsample : Z)
    (min max : option float) (null : bool) : result (pyval * Param) :=
  let min := passed_or_stored min (_min self) in
  let max := passed_or_stored max (_max self) in
  e <- _is_empty self 1 ;;
  if e
  then
    s <- py_str (_avg self) ;;
    Ok (VStr (upper (strip s)), self)
  else
    match _val self with
    | VDist d =>
        samp <- dist_sample d nsample ;;
        Ok (return_drawn self samp)
    | _ =>
        let literal := negb (is_none (_val self)) && is_none (_avg self) in
        vals <- fetch self band_id ;;
        let avg := fst (fst vals) in
        let std := snd vals in
        c <- std_is_NA_or_not_positive self literal std ;;
        if c then Ok (avg, self)
        else
          let avg := if null then VFloat 0%float else avg in
          loc <- normal_arg avg ;;
          scale <- normal_arg std ;;
          arr <- normal_array loc scale nsample ;;
          samp <- (if (nsample =? 1)%Z
                   then x <- py_getitem arr 0 ;; Ok (Scalar x)
                   else Ok (Array arr)) ;;
          lo <- below_min samp min ;;
          if lo
          then Ok (VFloat (default 0%float min), self)
          else
            hi <- above_max samp max ;;
            if hi
            then Ok (VFloat (default 0%float max), self)
            else Ok (return_drawn self samp)
    end.

(* ------------------------------------------------------------------- *)
(** ** Helper methods: storing the input *)

(** [Parameter._float]. *)
Definition _float (self : Param) (val : pyval) : result (pyval * Param) :=
  match val with
  | VNone => Ok (VNone, set_mult_bands false self)
  | _ =>
      match py_float val with
      | Ok float_val =>
          Ok (VFloat (to_SI (unit self) float_val), set_mult_bands false self)
      | Raise ValueError =>
          match val with
          | VStr s =>
              match eval_float_array s with
              | Some arr_val =>
                  Ok (alloc (OArr (to_SI_array (unit self) arr_val))
                        (set_mult_bands true self))
              | None =>
                  let ret := upper (strip s) in
                  if in_strs ret _float_str_vals
                  then Ok (VStr ret, set_mult_bands false self)
                  else log_err "cannot be type casted to float"
              end
          | _ => Raise ValueError
          end
      | Raise e => Raise e
      end
  end.

(** [len(v)], a TypeError when [v] has no length. *)
Definition py_len (self : Param) (v : pyval) : result nat :=
  match v with
  | VStr s => Ok (String.length s)
  | VSeq items => Ok (length items)
  | VRef l =>
      match store self !! l with
      | Some (OArr a) => Ok (length a)
      | Some (OList items) => Ok (length items)
      | None => Raise (Unmodelled "dangling reference")
      end
  | _ => Raise TypeError
  end.

(** [Parameter._zero]: [np.zeros(len(val))], or the float zero when that
    raises. *)
Definition _zero (self : Param) (val : pyval) : pyval * Param :=
  match py_len self val with
  | Ok n => alloc (OArr (repeat 0%float n)) self
  | Raise _ => (VFloat 0%float, self)
  end.

(** [Parameter._store_bool]. *)
Definition _store_bool (self : Param) (inp : pinput) : result Param :=
  let self := set_mult_bands false self in
  match inp with
  | InVal (VStr s) =>
      let val := strip (capitalize (lower s)) in
      if negb (String.eqb val "True") && negb (String.eqb val "False")
      then log_err "Failed to parse boolean input"
      else
        let b := String.eqb val "True" in
        Ok (set_std VNone (set_med VNone (set_avg VNone (set_val (VBool b) self))))
  | _ => Raise (AttributeError "lower")
  end.

(** [int(inp)] on the input. *)
Definition int_of_input (inp : pinput) : result Z :=
  match inp with
  | InVal v => py_int v
  | _ => Raise TypeError
  end.

(** [Parameter._store_int]. *)
Definition _store_int (self : Param) (inp : pinput) : result Param :=
  let self := set_mult_bands false self in
  let self := set_val VNone self in
  match int_of_input inp with
  | Ok z =>
      let self := set_avg (VInt z) self in
      let self := set_med (_avg self) self in
      Ok (set_std (VFloat 0%float) self)
  | Raise ValueError => log_err "cannot be type casted to int"
  | Raise e => Raise e
  end.

(** [Parameter._store_float_str]. *)
Definition _store_float_str (self : Param) (inp : string) : result Param :=
  if contains _spread_delim inp
  then
    let self := set_val VNone self in
    let vals := split _spread_delim inp in
    v0 <- py_getitem vals 0 ;;
    r <- _float self (VStr v0) ;;
    let self := set_avg (fst r) (snd r) in
    let self := set_med (_avg self) self in
    v1 <- py_getitem vals 1 ;;
    r <- _float self (VStr v1) ;;
    Ok (set_std (fst r) (snd r))
  else
    let self := set_val VNone self in
    r <- _float self (VStr inp) ;;
    let self := set_avg (fst r) (snd r) in
    let self := set_med (_avg self) self in
    let r := _zero self (_avg self) in
    Ok (set_std (fst r) (snd r)).

(** [Parameter._store_float_dist]. *)
Definition _store_float_dist (self : Param) (inp : Distribution) : result Param :=
  let self := set_mult_bands false self in
  let self := set_val (VDist inp) self in
  r <- _float self (VFloat (dist_mean inp)) ;;
  let self := set_avg (fst r) (snd r) in
  r <- _float self (VFloat (dist_median inp)) ;;
  let self := set_med (fst r) (snd r) in
  r <- _float self (VFloat (dist_std inp)) ;;
  Ok (set_std (fst r) (snd r)).

(** [dist_dict[key]]. *)
Definition dict_getitem (d : gmap string Distribution) (key : string) : result Distribution :=
  match d !! key with
  | Some x => Ok x
  | None => Raise (KeyError key)
  end.

(** One turn of the loop of [_store_float_tuple] over the mean values:
    [i] is the index, [mv] the mean value, [std_val] the evaluated std
    list or None, and [lv], [la], [lm], [ls] the four lists being built. *)
Definition store_band_entry (dist_dict : gmap string Distribution)
    (std_val : pyval) (lv la lm ls : pyval)
    (self : Param) (i : nat) (mv : pyval) : result Param :=
  sv <- (if negb (is_none std_val)
         then subscript self std_val (Z.of_nat i)
         else Ok (VFloat 0%float)) ;;
  pdf <- mentions_PDF mv ;;
  if pdf
  then
    ids <- match _band_ids self with
           | Some ids => Ok ids
           | None => log_err "'PDF' found but no band_ids passed"
           end ;;
    bid <- py_getitem ids (Z.of_nat i) ;;
    let band_id := upper bid in
    dist <- match dict_getitem dist_dict band_id with
            | Ok d => Ok d
            | Raise (KeyError _) => log_err "Could not find Distribution"
            | Raise e => Raise e
            end ;;
    self <- append self lv (VDist dist) ;;
    self <- append self la (VFloat (dist_mean dist)) ;;
    self <- append self lm (VFloat (dist_median dist)) ;;
    append self ls (VFloat (dist_std dist))
  else
    self <- append self lv VNone ;;
    a <- py_float mv ;;
    self <- append self la (VFloat a) ;;
    m <- py_float mv ;;
    self <- append self lm (VFloat m) ;;
    s <- py_float sv ;;
    append self ls (VFloat s).

(** [for i, mv in enumerate(mean_val): ...]. *)
Fixpoint store_band_entries (dist_dict : gmap string Distribution)
    (std_val : pyval) (lv la lm ls : pyval)
    (self : Param) (i : nat) (mean_val : list pyval) : result Param :=
  match mean_val with
  | [] => Ok self
  | mv :: rest =>
      self <- store_band_entry dist_dict std_val lv la lm ls self i mv ;;
      store_band_entries dist_dict std_val lv la lm ls self (S i) rest
  end.

(** [isinstance(v, list)]. *)
Definition is_list (v : pyval) : bool :=
  match v with VSeq _ => true | _ => false end.

(** [Parameter._store_float_tuple] on the pair [(param_str, dist_dict)]. *)
Definition _store_float_pair (self : Param) (param_str : pyval)
    (dist_dict : option (gmap string Distribution)) : result Param :=
  match dist_dict with
  | None =>
      match param_str with
      | VStr s => _store_float_str self s
      | _ => Raise TypeError
      end
  | Some dist_dict =>
      s <- match param_str with
           | VStr s => Ok s
           | _ => Raise TypeError
           end ;;
      mean_std <-
        (if contains _spread_delim s
         then
           let vals := split _spread_delim s in
           v0 <- py_getitem vals 0 ;;
           mean_val <- py_eval_pdf v0 ;;
           v1 <- py_getitem vals 1 ;;
           std_val <- py_eval_pdf v1 ;;
           Ok (mean_val, std_val)
         else
           mean_val <- py_eval_pdf s ;;
           Ok (mean_val, VNone)) ;;
      let mean_val := fst mean_std in
      let std_val := snd mean_std in
      match mean_val with
      | VSeq means =>
          let self := set_mult_bands true self in
          (if negb (is_none std_val) && negb (is_list std_val)
           then log_err "mean values a list but std values not a list"
           else Ok tt) ;;;
          (if negb (is_none std_val)
           then n <- py_len self std_val ;;
                if negb (length means =? n)%nat
                then log_err "mean and std value lists not the same length"
                else Ok tt
           else Ok tt) ;;;
          let r := alloc (OList []) self in
          let self := set_val (fst r) (snd r) in
          let r := alloc (OList []) self in
          let self := set_avg (fst r) (snd r) in
          let r := alloc (OList []) self in
          let self := set_med (fst r) (snd r) in
          let r := alloc (OList []) self in
          let self := set_std (fst r) (snd r) in
          store_band_entries dist_dict std_val
            (_val self) (_avg self) (_med self) (_std self) self 0 means
      | VStr m =>
          let self := set_mult_bands false self in
          if contains "PDF" (upper m)
          then
            (* the handler formats its message with [band_id], a local
               that only the loop over the bands assigns: an
               UnboundLocalError, which is a NameError *)
            dist <- match dict_getitem dist_dict "ALL" with
                    | Ok d => Ok d
                    | Raise (KeyError _) => Raise (NameError "band_id")
                    | Raise e => Raise e
                    end ;;
            let self := set_val (VDist dist) self in
            let self := set_avg (VFloat (dist_mean dist)) self in
            let self := set_med (VFloat (dist_median dist)) self in
            Ok (set_std (VFloat (dist_std dist)) self)
          else
            (* the message has two fields and is given the name alone:
               the formatting raises before [log.err] is called *)
            Raise TypeError
      | VFloat _ | VInt _ | VBool _ =>
          let self := set_val VNone self in
          let self := set_avg mean_val self in
          let self := set_med mean_val self in
          if negb (is_none std_val)
          then
            match std_val with
            | VFloat _ => Ok (set_std std_val self)
            | _ => log_err "Std value is not a float or int"
            end
          else Ok (set_std (VFloat 0%float) self)
      | _ => log_err "Could characterize mean value"
      end
  end.

(** [Parameter._store_float_tuple]. *)
Definition _store_float_tuple (self : Param) (inp : pinput) : result Param :=
  match inp with
  | InPair param_str dist_dict => _store_float_pair self param_str dist_dict
  | InTuple 2 => Raise (Unmodelled "a pair is passed as InPair")
  | InTuple _ => log_err "More or less than two elements in float_tuple"
  | InVal _ => Raise TypeError
  end.

(** [Parameter._store_float]. *)
Definition _store_float (self : Param) (inp : pinput) : result Param :=
  match inp with
  | InVal (VStr s) => _store_float_str self s
  | InVal (VDist d) => _store_float_dist self d
  | InPair _ _ | InTuple _ => _store_float_tuple self inp
  | InVal _ => log_err "Input value not a string, src.Distribution, or tuple"
  end.

(** [Parameter._store_list]. *)
Definition _store_list (self : Param) (inp : pinput) : result Param :=
  let self := set_mult_bands false self in
  match inp with
  | InVal (VStr s) =>
      v <- py_eval s ;;
      let self := set_val v self in
      let self := set_std VNone (set_med VNone (set_avg VNone self)) in
      if negb (is_list (_val self))
      then log_err "cannot be type casted to list"
      else Ok self
  | _ => Raise TypeError
  end.

(** [Parameter._store_str]. *)
Definition _store_str (self : Param) (inp : pinput) : result Param :=
  let self := set_mult_bands false self in
  match inp with
  | InVal v =>
      s <- py_str v ;;
      Ok (set_std VNone (set_med VNone (set_avg VNone (set_val (VStr s) self))))
  | _ => Raise (Unmodelled "str() of a sequence or an object")
  end.

(** [Parameter._store_param]. *)
Definition _store_param (self : Param) (inp : pinput) : result Param :=
  match _type self with
  | TBool => _store_bool self inp
  | TInt => _store_int self inp
  | TFloat => _store_float self inp
  | TStr => _store_str self inp
  | TList => _store_list self inp
  | TOther => log_err "not one of allowed data types"
  end.

(** [np.any(np.array(avg) < bound)], or [>] when [above] is set. *)
Definition any_beyond (self : Param) (above : bool) (avg : pyval) (bound : float)
    : result bool :=
  let beyond x := if above then (bound <? x)%float else (x <? bound)%float in
  match avg with
  | VFloat f => Ok (beyond f)
  | VInt z => f <- float_of_int z ;; Ok (beyond f)
  | VBool b => Ok (beyond (if b then 1%float else 0%float))
  | VRef l =>
      match store self !! l with
      | Some (OArr a) => Ok (existsb beyond a)
      | Some (OList items) =>
          fs <- fold_right
                  (fun v acc =>
                     fs <- acc ;;
                     match v with
                     | VFloat f => Ok (f :: fs)
                     | _ => Raise (Unmodelled "range check of a list with non-floats")
                     end)
                  (Ok []) items ;;
          Ok (existsb beyond fs)
      | None => Raise (Unmodelled "dangling reference")
      end
  | _ => Raise (Unmodelled "range check of an evaluated list or an object")
  end.

(** [Parameter._check_range]. *)
Definition _check_range (self : Param) : result bool :=
  match _avg self with
  | VNone | VStr _ => Ok true
  | avg =>
      lo <- match _min self with
            | Some m => any_beyond self false avg m
            | None => Ok false
            end ;;
      if lo then log_err "lower than the mininum allowed value"
      else
        hi <- match _max self with
              | Some m => any_beyond self true avg m
              | None => Ok false
              end ;;
        if hi then log_err "greater than the maximum allowed value"
        else Ok true
  end.

(** The arguments of [Parameter.__init__] after [log]. *)
Record init_args : Type := mkInitArgs {
  arg_inp : pinput;
  arg_std_param : option StandardParam;
  arg_name : pyval;
  arg_unit : option Unit;
  arg_min : pyval;
  arg_max : pyval;
  arg_inp_type : ptype;
  arg_band_ids : option (list string)
}.

(** [float(x)] when [x] is not None. *)
Definition float_unless_none (x : pyval) : result (option float) :=
  match x with
  | VNone => Ok None
  | _ => f <- py_float x ;; Ok (Some f)
  end.

(** [Parameter.__init__]: the constructed parameter, or the exception. *)
Definition __init__ (a : init_args) : result Param :=
  self <-
    match arg_std_param a with
    | Some sp =>
        Ok (mkParam (sp_name sp) (sp_unit sp) (sp_min sp) (sp_max sp) (sp_type sp)
              (arg_band_ids a) VNone VNone VNone VNone None [])
    | None =>
        let u := match arg_unit a with
                 | Some u => u
                 | None => un_Unit "NA"
                 end in
        lo <- float_unless_none (arg_min a) ;;
        hi <- float_unless_none (arg_max a) ;;
        Ok (mkParam (arg_name a) u lo hi (arg_inp_type a)
              (arg_band_ids a) VNone VNone VNone VNone None [])
    end ;;
  self <- _store_param self (arg_inp a) ;;
  _check_range self ;;;
  Ok self.

End ParameterModel.

(* ===================================================================== *)
(** * A reference runtime *)
(* ===================================================================== *)

(** One implementation of [PyRuntime], used by the closed examples.  It
    follows CPython and numpy on the literals of the configuration grammar:
    decimal numerals with an optional sign, fraction and exponent and with
    single underscores between digits, [inf] and [nan], and lists and tuples
    of numerals, quoted strings and names, a name being neither a keyword
    nor a builtin.  Hexadecimal, octal and binary numerals, parenthesised
    and arithmetic expressions, nested displays and arrays of no dimension
    are outside it and are reported as unparseable. *)
Module Ref.

Import PyStr.

Definition digit_of (c : ascii) : option Z :=
  let n := nat_of_ascii c in
  if (48 <=? n)%nat && (n <=? 57)%nat then Some (Z.of_nat (n - 48)) else None.

Definition starts_with_digit (s : string) : bool :=
  match s with
  | String c _ => match digit_of c with Some _ => true | None => false end
  | EmptyString => false
  end.

(** The longest run of digits at the head of [s], a single underscore
    between two digits being skipped: the number read so far, how many
    digits were read, and what follows. *)
Fixpoint read_digits (s : string) (acc : Z) (cnt : nat) : Z * nat * string :=
  match s with
  | EmptyString => (acc, cnt, s)
  | String c r =>
      match digit_of c with
      | Some d => read_digits r (10 * acc + d)%Z (S cnt)
      | None =>
          if Ascii.eqb c "_" && (0 <? cnt)%nat && starts_with_digit r
          then read_digits r acc cnt
          else (acc, cnt, s)
      end
  end.

(** An optional sign: whether it is a minus, and what follows. *)
Definition read_sign (s : string) : bool * string :=
  match s with
  | String "-"%char r => (true, r)
  | String "+"%char r => (false, r)
  | _ => (false, s)
  end.

(** The float nearest to [(-1)^neg * mant * 10^e10]. *)
Definition float_of_decimal (neg : bool) (mant : Z) (e10 : Z) : float :=
  match mant with
  | Zpos m =>
      if (400 <? e10)%Z then (if neg then neg_infinity else infinity)
      else if (e10 <? -800)%Z then (if neg then (-0)%float else 0%float)
      else if (0 <=? e10)%Z
      then float_of_ratio neg (m * Z.to_pos (10 ^ e10))%positive 1
      else float_of_ratio neg m (Z.to_pos (10 ^ (- e10)))
  | _ => if neg then (-0)%float else 0%float
  end.

(** An optional exponent part: its value, or [None] when what is left is
    not an exponent running to the end of the text. *)
Definition read_exponent (s : string) : option Z :=
  match s with
  | EmptyString => Some 0%Z
  | String c r =>
      if (Ascii.eqb c "e" || Ascii.eqb c "E")%bool
      then
        let (eneg, r1) := read_sign r in
        match read_digits r1 0%Z 0 with
        | (v, S _, EmptyString) => Some (if eneg then (- v)%Z else v)
        | _ => None
        end
      else None
  end.

(** A numeral without sign: digits, an optional fraction, an optional
    exponent; mantissa and decimal exponent. *)
Definition read_number (s : string) : option (Z * Z) :=
  match read_digits s 0%Z 0 with
  | (m1, n1, rest1) =>
      match rest1 with
      | String "."%char r =>
          match read_digits r m1 0 with
          | (m2, n2, rest2) =>
              if (n1 + n2 =? 0)%nat then None
              else
                match read_exponent rest2 with
                | Some e => Some (m2, (e - Z.of_nat n2)%Z)
                | None => None
                end
          end
      | _ =>
          if (n1 =? 0)%nat then None
          else
            match read_exponent rest1 with
            | Some e => Some (m1, e)
            | None => None
            end
      end
  end.

(** [float(s)]. *)
Definition float_of_str (s : string) : option float :=
  let (neg, body) := read_sign (strip s) in
  let low := lower body in
  if (String.eqb low "inf" || String.eqb low "infinity")%bool
  then Some (if neg then neg_infinity else infinity)
  else if String.eqb low "nan" then Some nan
  else
    match read_number body with
    | Some (m, e) => Some (float_of_decimal neg m e)
    | None => None
    end.

(** [int(s)]. *)
Definition int_of_str (s : string) : option Z :=
  let (neg, body) := read_sign (strip s) in
  match read_digits body 0%Z 0 with
  | (v, S _, EmptyString) => Some (if neg then (- v)%Z else v)
  | _ => None
  end.

(** The text between the first and the last character. *)
Definition inner (s : string) : string :=
  match s with
  | EmptyString => EmptyString
  | String _ r => rev (match rev r with
                       | EmptyString => EmptyString
                       | String _ q => q
                       end)
  end.

Definition starts_with (c : ascii) (s : string) : bool :=
  match s with
  | String c' _ => Ascii.eqb c c'
  | EmptyString => false
  end.

Definition ends_with (c : ascii) (s : string) : bool := starts_with c (rev s).

Definition dquote : ascii := ascii_of_nat 34.

(** The parts of [s] between its commas, a comma within quotes being part
    of the string; [part] is what was read of the part at hand, last
    character first. *)
Fixpoint split_commas (s : string) (quote : option ascii) (part : string) : list string :=
  match s with
  | EmptyString => [rev part]
  | String c r =>
      match quote with
      | Some q =>
          split_commas r (if Ascii.eqb c q then None else quote) (String c part)
      | None =>
          if Ascii.eqb c ","
          then rev part :: split_commas r None EmptyString
          else split_commas r
                 (if Ascii.eqb c "'" || Ascii.eqb c dquote then Some c else None)
                 (String c part)
      end
  end.

(** The text of a string literal without escapes and without a quote of
    its own kind inside, or nothing. *)
Definition string_literal (t : string) : option string :=
  if (2 <=? String.length t)%nat &&
     ((starts_with "'" t && ends_with "'" t && negb (contains "'" (inner t))) ||
      (starts_with dquote t && ends_with dquote t
       && negb (contains (String dquote EmptyString) (inner t))))
     && negb (contains (String (ascii_of_nat 92) EmptyString) t)
  then Some (inner t)
  else None.

Definition is_name_char (c : ascii) : bool :=
  is_lower c || is_upper c || Ascii.eqb c "_" ||
  match digit_of c with Some _ => true | None => false end.

Fixpoint all_chars (f : ascii -> bool) (s : string) : bool :=
  match s with
  | EmptyString => true
  | String c r => f c && all_chars f r
  end.

(** An item of a list, or a whole expression: a numeral, a quoted string,
    a name.  [names] is what the evaluation scope binds.  An integer
    literal other than zero does not open with the digit 0, which [int]
    would read. *)
Definition eval_atom (names : string -> option pyval) (s : string) : result pyval :=
  let t := strip s in
  match int_of_str t with
  | Some z =>
      if starts_with "0" (snd (read_sign t)) && negb (z =? 0)%Z
      then Raise SyntaxError
      else Ok (VInt z)
  | None =>
      let low := lower (snd (read_sign t)) in
      if (String.eqb low "inf" || String.eqb low "infinity" || String.eqb low "nan")%bool
      then Raise (NameError t)
      else
        match float_of_str t with
        | Some f => Ok (VFloat f)
        | None =>
            match string_literal t with
            | Some text => Ok (VStr text)
            | None =>
            if String.eqb t "True" then Ok (VBool true)
            else if String.eqb t "False" then Ok (VBool false)
            else if String.eqb t "None" then Ok VNone
            else if negb (String.eqb t EmptyString) && all_chars is_name_char t
                    && negb (starts_with_digit t)
            then match names t with
                 | Some v => Ok v
                 | None => Raise (NameError t)
                 end
            else Raise (Unmodelled "expression outside the literal grammar")
            end
        end
  end.

Fixpoint eval_atoms (names : string -> option pyval) (l : list string) : result (list pyval) :=
  match l with
  | [] => Ok []
  | s :: r =>
      match eval_atom names s with
      | Ok v =>
          match eval_atoms names r with
          | Ok vs => Ok (v :: vs)
          | Raise e => Raise e
          end
      | Raise e => Raise e
      end
  end.

(** The items between the commas of a display; a comma may follow the
    last item. *)
Definition display_items (body : string) : list string :=
  let parts := split_commas body None EmptyString in
  match List.rev parts with
  | last :: (_ :: _) as before =>
      if String.eqb (strip last) EmptyString then List.rev before else parts
  | _ => parts
  end.

Definition eval_items (names : string -> option pyval) (body : string)
    : result (list pyval) :=
  if String.eqb (strip body) EmptyString then Ok []
  else eval_atoms names (display_items body).

(** The items of the tuple that [t] displays, if it displays one: items
    and commas, with or without parentheses. *)
Definition tuple_body (t : string) : option string :=
  if starts_with "(" t && ends_with ")" t
  then
    let body := inner t in
    if (1 <? length (split_commas body None EmptyString))%nat
       || String.eqb (strip body) EmptyString
    then Some body else None
  else if (1 <? length (split_commas t None EmptyString))%nat then Some t else None.

(** What an expression evaluates to: a tuple is kept apart from the
    values a Parameter stores. *)
Inductive evaluated : Type :=
| Single (v : pyval)
| Tuple (items : list pyval).

Definition eval_value (names : string -> option pyval) (s : string) : result evaluated :=
  let t := strip s in
  if starts_with "[" t && ends_with "]" t
  then
    match eval_items names (inner t) with
    | Ok vs => Ok (Single (VSeq vs))
    | Raise e => Raise e
    end
  else
    match tuple_body t with
    | Some body =>
        match eval_items names body with
        | Ok vs => Ok (Tuple vs)
        | Raise e => Raise e
        end
    | None =>
        match eval_atom names t with
        | Ok v => Ok (Single v)
        | Raise e => Raise e
        end
    end.

(** [eval(s)] with the given names in scope. *)
Definition eval_in (names : string -> option pyval) (s : string) : result pyval :=
  match eval_value names s with
  | Ok (Single v) => Ok v
  | Ok (Tuple _) => Raise (Unmodelled "a tuple")
  | Raise e => Raise e
  end.

(** No name of the scope of [_float] or [_store_list] is a parameter
    literal. *)
Definition no_names (_ : string) : option pyval := None.

(** The scope [{'PDF': 'PDF'}]. *)
Definition pdf_names (s : string) : option pyval :=
  if String.eqb s "PDF" then Some (VStr "PDF") else None.

Definition py_eval (s : string) : result pyval := eval_in no_names s.
Definition py_eval_pdf (s : string) : result pyval := eval_in pdf_names s.

Definition number_to_float (v : pyval) : option float :=
  match v with
  | VFloat f => Some f
  | VInt z => match float_of_int z with Ok f => Some f | Raise _ => None end
  | VBool b => Some (if b then 1%float else 0%float)
  | _ => None
  end.

Fixpoint numbers_to_floats (l : list pyval) : option (list float) :=
  match l with
  | [] => Some []
  | v :: r =>
      match number_to_float v, numbers_to_floats r with
      | Some f, Some fs => Some (f :: fs)
      | _, _ => None
      end
  end.

(** [np.array(eval(s)).astype(float)] for a flat list or tuple of
    numbers. *)
Definition eval_float_array (s : string) : option (list float) :=
  match eval_value no_names s with
  | Ok (Single (VSeq items)) | Ok (Tuple items) => numbers_to_floats items
  | _ => None
  end.

(** [|x| * 10^ndigits] for [|x| = m * 2^e], as a fraction. *)
Definition scaled (m : positive) (e ndigits : Z) : Z * Z :=
  let num := (Z.pos m * (if (0 <=? e)%Z then 2 ^ e else 1)
                      * (if (0 <=? ndigits)%Z then 10 ^ ndigits else 1))%Z in
  let den := ((if (0 <=? e)%Z then 1 else 2 ^ (- e))
              * (if (0 <=? ndigits)%Z then 1 else 10 ^ (- ndigits)))%Z in
  (num, den).

(** [round(x, ndigits)] as CPython computes it: the exact value of [x] is
    rounded to [ndigits] decimals, ties to even, and the float nearest to
    that decimal is returned. *)
Definition py_round (x : float) (ndigits : Z) : result float :=
  match Prim2SF x with
  | S754_finite s m e =>
      if (323 <? ndigits)%Z then Ok x
      else if (ndigits <? -308)%Z then Ok (0 * x)%float
      else
        let (num, den) := scaled m e ndigits in
        let y := float_of_decimal s (round_half_even num den) (- ndigits) in
        if is_infinity y then Raise OverflowError else Ok y
  | _ => Ok x
  end.

(** How many times [num] can be divided by ten before it drops below
    [den]. *)
Fixpoint decades_above (fuel : nat) (num den : Z) : Z :=
  match fuel with
  | O => 0%Z
  | S f => if (num <? 10 * den)%Z then 0%Z
           else (1 + decades_above f num (10 * den))%Z
  end.

(** How many times [num] must be multiplied by ten to reach [den]. *)
Fixpoint decades_below (fuel : nat) (num den : Z) : Z :=
  match fuel with
  | O => 0%Z
  | S f => if (den <=? num)%Z then 0%Z
           else (1 + decades_below f (10 * num) den)%Z
  end.

(** The decimal logarithm rounded down to an integer, as a float.
    [_sig_figs] floors the logarithm at once; the rounded-down value has
    the same floor as numpy's, except for an argument within a unit in the
    last place below a power of ten. *)
Definition np_log10 (x : float) : float :=
  match Prim2SF x with
  | S754_zero _ => neg_infinity
  | S754_infinity false => infinity
  | S754_finite false m e =>
      let (num, den) := scaled m e 0 in
      let k := if (den <=? num)%Z then decades_above 400 num den
               else (- decades_below 400 num den)%Z in
      match float_of_int k with
      | Ok f => f
      | Raise _ => nan
      end
  | _ => nan
  end.

(** A fixed table of standard normal variates stands for the process-wide
    generator. *)
Definition variates : list float := [-1.25; 0.5; 2; -0.75]%float.

Definition np_random_normal (avg std : float) (n i : nat) : float :=
  (avg + std * nth (i mod 4) variates 0)%float.

(** [un.Unit(name)]: the unit "NA" has factor 1, as the constructor of
    Parameter notes. *)
Definition un_Unit (name : string) : Unit := mkUnit name (fun x => x * 1)%float.

Definition runtime : PyRuntime :=
  mkPyRuntime float_of_str int_of_str eval_float_array py_eval py_eval_pdf
    np_log10 py_round np_random_normal un_Unit.

End Ref.

(* ===================================================================== *)
(** * class Sensitivity ([src/sensitivity.py]) *)
(* ===================================================================== *)

(** What the Sensitivity engine reads from a channel: the parameters it
    asks the channel, its camera, its telescope and the simulation for, and
    the element tensors indexed [observation][detector][element], every
    element carrying a spectrum over [freqs]. *)
Record Channel : Type := mkChannel {
  site : string;        (* ch.cam.tel.param("site") *)
  infg : bool;          (* ch.cam.tel.exp.sim.param("infg") *)
  net_mgn : float;      (* ch.cam.tel.param("net_mgn") *)
  opt_coup : float;     (* ch.cam.param("opt_coup") *)
  param_ndet : Z;       (* ch.param("ndet") *)
  param_yield : float;  (* ch.param("yield") *)
  elem : list (list (list string));
  emis : list (list (list (list float)));
  tran : list (list (list (list float)));
  temp : list (list (list (list float)));
  freqs : list float;
  band_mask : list float
}.

(** [Sensitivity._num_sky_elem]. *)
Definition _num_sky_elem (ch : Channel) : nat :=
  if String.eqb (PyStr.upper (site ch)) "SPACE"
  then (if infg ch then 3 else 1)
  else (if infg ch then 4 else 2).

(** [[1. for f in freqs]] and [[0. for f in freqs]]. *)
Definition ones (freqs : list float) : list float := map (fun _ => 1%float) freqs.
Definition zeros (freqs : list float) : list float := map (fun _ => 0%float) freqs.

(** [x * y] on two arrays of one shape. *)
Definition mul_arrays (x y : list float) : list float := zip_with PrimFloat.mul x y.

(** [Sensitivity._buffer_tran]: a row of ones is inserted at index
    [len(tran)]. *)
Definition _buffer_tran (tran : list (list float)) (freqs : list float) : list (list float) :=
  tran ++ [ones freqs].

(** [np.vstack([rows, last])]: the rows must be as wide as [last]. *)
Definition np_vstack (rows : list (list float)) (last : list float) : result (list (list float)) :=
  if forallb (fun r => (length r =? length last)%nat) rows
  then Ok (rows ++ [last])
  else Raise ValueError.

(** [ft.reduce(lambda x, y: x*y, rows)]: a TypeError on no row. *)
Definition reduce_mul (rows : list (list float)) : result (list float) :=
  match rows with
  | [] => Raise TypeError
  | r :: rs => Ok (fold_left mul_arrays rs r)
  end.

(** [l[a:b]] for [0 <= a] and [0 <= b]. *)
Definition slice {A : Type} (l : list A) (a b : nat) : list A :=
  firstn (b - a) (skipn a l).

(** Monadic map over a list, left to right. *)
Fixpoint map_result {A B : Type} (f : A -> result B) (l : list A) : result (list B) :=
  match l with
  | [] => Ok []
  | a :: r =>
      match f a with
      | Ok b =>
          match map_result f r with
          | Ok bs => Ok (b :: bs)
          | Raise e => Raise e
          end
      | Raise e => Raise e
      end
  end.

(** [_opt_pow], efficiency towards the detector of element [k]:
    [ft.reduce(lambda x, y: x*y, eff_arr[k+1:])]. *)
Definition eff_towards_det (eff_arr : list (list float)) (k : nat) : result (list float) :=
  reduce_mul (skipn (k + 1) eff_arr).

(** [_opt_pow], efficiencies towards the sky of element [k]: one row per
    element [m <= k]. *)
Definition eff_towards_sky (eff_arr : list (list float)) (freqs : list float) (k : nat)
    : result (list (list float)) :=
  match k with
  | 0 => Ok [zeros freqs]
  | 1 => Ok [ones freqs; zeros freqs]
  | _ =>
      bind (map_result
              (fun m => if (m <? k - 2)%nat
                        then reduce_mul (slice eff_arr (m + 1) k)
                        else py_getitem eff_arr (Z.of_nat (m + 1)))
              (seq 0 (k - 1)))
        (fun rows => Ok (rows ++ [ones freqs; zeros freqs]))
  end.

(** The two efficiencies of element [k] of a chain with transmissions
    [tran_ij], as [_opt_pow] computes them from the buffered array. *)
Definition cum_eff_det (tran_ij : list (list float)) (freqs : list float) (k : nat)
    : result (list float) :=
  bind (np_vstack tran_ij (ones freqs)) (fun eff_arr => eff_towards_det eff_arr k).

Definition cum_eff_sky (tran_ij : list (list float)) (freqs : list float) (k : nat)
    : result (list (list float)) :=
  bind (np_vstack tran_ij (ones freqs)) (fun eff_arr => eff_towards_sky eff_arr freqs k).

(** The attributes of a Sensitivity object are looked up by name at run
    time; a name never assigned raises AttributeError. *)
Inductive sval : Type :=
| SInt (z : Z)
| SBool (b : bool)
| SArr2 (a : list (list float)).

Definition getattr (self : gmap string sval) (a : string) : result sval :=
  match self !! a with
  | Some v => Ok v
  | None => Raise (AttributeError a)
  end.

Definition get_array (self : gmap string sval) (a : string) : result (list (list float)) :=
  bind (getattr self a) (fun v =>
  match v with
  | SArr2 x => Ok x
  | _ => Raise TypeError
  end).

(** [range(self.<a>)]. *)
Definition range_of (self : gmap string sval) (a : string) : result (list Z) :=
  bind (getattr self a) (fun v =>
  match v with
  | SInt n => Ok (map Z.of_nat (seq 0 (Z.to_nat n)))
  | SBool b => Ok (if b then [0%Z] else [])
  | _ => Raise TypeError
  end).

(** A name of a comprehension is looked up among the loop variables bound
    around it; the methods bind no other integer, and the module has no
    global of these names, so a name not bound by a loop raises
    NameError. *)
Definition load_name (env : gmap string Z) (x : string) : result Z :=
  match env !! x with
  | Some v => Ok v
  | None => Raise (NameError x)
  end.

(** [[body for var in vals]]: [var] is bound, in turn, to every value. *)
Fixpoint comprehension {A : Type} (var : string) (vals : list Z)
    (env : gmap string Z) (body : gmap string Z -> result A) : result (list A) :=
  match vals with
  | [] => Ok []
  | v :: r =>
      match body (<[var := v]> env) with
      | Ok x =>
          match comprehension var r env body with
          | Ok xs => Ok (x :: xs)
          | Raise e => Raise e
          end
      | Raise e => Raise e
      end
  end.

(** [arr[i][j]] on a two-dimensional array. *)
Definition item2 {A : Type} (arr : list (list A)) (i j : Z) : result A :=
  bind (py_getitem arr i) (fun row => py_getitem row j).

(** The product of the rows, of one row at least, frequency by
    frequency. *)
Definition np_prod_axis0 (rows : list (list float)) : list float :=
  match rows with
  | [] => []
  | r :: rs => fold_left mul_arrays rs r
  end.

(** [np.prod(rows, axis=0)] on rows over the frequencies [freqs]: the
    product of no row is 1 at every frequency. *)
Definition np_prod_rows (freqs : list float) (rows : list (list float)) : list float :=
  match rows with
  | [] => ones freqs
  | _ :: _ => np_prod_axis0 rows
  end.

Section SensitivityModel.

Open Scope py_scope.

(** The Noise and Physics collaborators and the numpy reductions: their
    code is not in the repository. *)
Variable noise_NET_from_NEP : float -> list float -> list float -> float -> float.
Variable noise_NET_arr : float -> Z -> float -> float.
Variable phys_bb_pow_spec : list float -> list float -> list float -> list float.
Variable phys_rj_temp : float -> float -> float -> float.
Variable np_trapz : list float -> list float -> float.
Variable np_sum : list float -> float.
Variable phys_Trj_over_Tb : list float -> float -> list float.
Variable phys_Tcmb : float.

(** Methods of the class the embedding does not follow: they rest on the
    collaborators only, and assign the optical power and the NEP arrays. *)
Variable _calc_photon_NEP : gmap string sval -> Channel -> result (gmap string sval).
Variable _calc_bolo_NEP : gmap string sval -> Channel -> result (gmap string sval).
Variable _calc_read_NEP : gmap string sval -> Channel -> result (gmap string sval).
Variable _calc_tot_NEP : gmap string sval -> Channel -> result (gmap string sval).

(** [freqs[-1] - freqs[0]]. *)
Definition bandwidth (freqs : list float) : result float :=
  hi <- py_getitem freqs (-1) ;;
  lo <- py_getitem freqs 0 ;;
  Ok (hi - lo)%float.

(** [Sensitivity._Trj_over_Tcmb]: the mean of the conversion spectrum over
    the band; [freqs[-1]] raises IndexError on an empty frequency grid. *)
Definition _Trj_over_Tcmb (freqs : list float) : result float :=
  let factor_spec := phys_Trj_over_Tb freqs phys_Tcmb in
  bw <- bandwidth freqs ;;
  Ok (np_trapz factor_spec freqs / bw)%float.

(** [Sensitivity._eff]. *)
Definition _eff (tran : list (list float)) (freqs : list float) : result float :=
  let tran := _buffer_tran tran freqs in
  bw <- bandwidth freqs ;;
  Ok (np_trapz (np_prod_rows freqs tran) freqs / bw)%float.

(** [Sensitivity._popt]. *)
Definition _popt (elem : list string) (emis tran temp : list (list float))
    (freqs : list float) : result float :=
  let tran := _buffer_tran tran freqs in
  pows <- map_result
            (fun i =>
               t <- py_getitem temp (Z.of_nat i) ;;
               e <- py_getitem emis (Z.of_nat i) ;;
               Ok (np_trapz
                     (phys_bb_pow_spec freqs t
                        (mul_arrays e (np_prod_rows freqs (skipn (i + 1) tran))))
                     freqs))
            (seq 0 (length elem)) ;;
  Ok (np_sum pows).

(** [Sensitivity._rj_temp]. *)
Definition _rj_temp (elem : list string) (emis tran temp : list (list float))
    (freqs : list float) (eff : float) : result float :=
  opt_pow <- _popt elem emis tran temp freqs ;;
  bw <- bandwidth freqs ;;
  Ok (phys_rj_temp opt_pow bw eff).

(** [[[body for j in range(self._ndet)] for i in range(self._nobs)]]. *)
Definition per_obs_per_det {A : Type} (self : gmap string sval)
    (body : gmap string Z -> result A) : result (list (list A)) :=
  obs <- range_of self "_nobs" ;;
  comprehension "i" obs ∅ (fun env =>
    dets <- range_of self "_ndet" ;;
    comprehension "j" dets env body).

(** [Sensitivity._calc_popt]. *)
Definition _calc_popt (self : gmap string sval) (ch : Channel) : result (gmap string sval) :=
  arr <- per_obs_per_det self (fun env =>
           i <- load_name env "i" ;; j <- load_name env "j" ;;
           el <- item2 (elem ch) i j ;;
           em <- item2 (emis ch) i j ;;
           tr <- item2 (tran ch) i j ;;
           te <- item2 (temp ch) i j ;;
           _popt el em tr te (freqs ch)) ;;
  Ok (<["_popt_arr" := SArr2 arr]> self).

(** [Sensitivity._calc_rj_temp]: the chain is cut after [n_sky_elem]
    elements; what follows the cut feeds the telescope temperature, what
    precedes it the sky temperature. *)
Definition _calc_rj_temp (self : gmap string sval) (ch : Channel) : result (gmap string sval) :=
  let n_sky_elem := _num_sky_elem ch in
  tel_eff <- per_obs_per_det self (fun env =>
           i <- load_name env "i" ;; j <- load_name env "j" ;;
           tr <- item2 (tran ch) i j ;;
           _eff (skipn n_sky_elem tr) (freqs ch)) ;;
  let self := <["_tel_eff_arr" := SArr2 tel_eff]> self in
  tel_rj <- per_obs_per_det self (fun env =>
           i <- load_name env "i" ;; j <- load_name env "j" ;;
           el <- item2 (elem ch) i j ;;
           em <- item2 (emis ch) i j ;;
           tr <- item2 (tran ch) i j ;;
           te <- item2 (temp ch) i j ;;
           effs <- get_array self "_tel_eff_arr" ;;
           eff <- item2 effs i j ;;
           _rj_temp (skipn n_sky_elem el) (skipn n_sky_elem em)
             (skipn n_sky_elem tr) (skipn n_sky_elem te) (freqs ch) eff) ;;
  let self := <["_tel_rj_temp" := SArr2 tel_rj]> self in
  sky_rj <- per_obs_per_det self (fun env =>
           i <- load_name env "i" ;; j <- load_name env "j" ;;
           el <- item2 (elem ch) i j ;;
           em <- item2 (emis ch) i j ;;
           tr <- item2 (tran ch) i j ;;
           te <- item2 (temp ch) i j ;;
           effs <- get_array self "_tel_eff_arr" ;;
           eff <- item2 effs i j ;;
           _rj_temp (firstn n_sky_elem el) (firstn n_sky_elem em)
             tr (firstn n_sky_elem te) (freqs ch) eff) ;;
  Ok (<["_sky_rj_temp" := SArr2 sky_rj]> self).

(** The array [[[NET_from_NEP(nep[i][j], ...) ...]]] * net_mgn of
    [_calc_NET], from the NEP array stored under [nep]. *)
Definition NET_of (self : gmap string sval) (ch : Channel) (nep : string)
    : result (list (list float)) :=
  arr <- per_obs_per_det self (fun env =>
           neps <- get_array self nep ;;
           i <- load_name env "i" ;; j <- load_name env "j" ;;
           x <- item2 neps i j ;;
           tr <- item2 (tran ch) i j ;;
           Ok (noise_NET_from_NEP x (freqs ch) (np_prod_rows (freqs ch) tr)
                 (opt_coup ch))) ;;
  Ok (map (map (fun x => x * net_mgn ch)%float) arr).

(** [Sensitivity._calc_NET]. *)
Definition _calc_NET (self : gmap string sval) (ch : Channel) : result (gmap string sval) :=
  net <- NET_of self ch "_NEP" ;;
  let self := <["_NET" := SArr2 net]> self in
  net_corr <- NET_of self ch "_NEP_corr" ;;
  Ok (<["_NET_corr" := SArr2 net_corr]> self).

(** The array [[[_Trj_over_Tcmb(freqs) * net[i][j] ...]]] of
    [_calc_NET_RJ]. *)
Definition NET_RJ_of (self : gmap string sval) (ch : Channel) (net : string)
    : result (list (list float)) :=
  per_obs_per_det self (fun env =>
    t <- _Trj_over_Tcmb (freqs ch) ;;
    nets <- get_array self net ;;
    i <- load_name env "i" ;; j <- load_name env "j" ;;
    x <- item2 nets i j ;;
    Ok (t * x)%float).

(** [Sensitivity._calc_NET_RJ]. *)
Definition _calc_NET_RJ (self : gmap string sval) (ch : Channel) : result (gmap string sval) :=
  a <- NET_RJ_of self ch "_NET" ;;
  let self := <["_NET_RJ" := SArr2 a]> self in
  b <- NET_RJ_of self ch "_NET_corr" ;;
  Ok (<["_NET_corr_RJ" := SArr2 b]> self).

(** The array [[[NET_arr(net[i][j], ndet, yield) ...]]] of the two array
    combinations, from the NET array stored under [net]. *)
Definition NET_arr_of (self : gmap string sval) (ch : Channel) (net : string)
    : result (list (list float)) :=
  per_obs_per_det self (fun env =>
    nets <- get_array self net ;;
    i <- load_name env "i" ;; j <- load_name env "j" ;;
    x <- item2 nets i j ;;
    Ok (noise_NET_arr x (param_ndet ch) (param_yield ch))).

(** [Sensitivity._calc_NET_arr]. *)
Definition _calc_NET_arr (self : gmap string sval) (ch : Channel) : result (gmap string sval) :=
  a <- NET_arr_of self ch "_NET_corr" ;;
  Ok (<["_NET_arr" := SArr2 a]> self).

(** [Sensitivity._calc_NET_arr_RJ]. *)
Definition _calc_NET_arr_RJ (self : gmap string sval) (ch : Channel) : result (gmap string sval) :=
  a <- NET_arr_of self ch "_NET_corr_RJ" ;;
  Ok (<["_NET_arr" := SArr2 a]> self).

(** [Sensitivity._calc_corr_deg]: both comprehensions bind [i]. *)
Definition _calc_corr_deg (self : gmap string sval) (ch : Channel) : result (gmap string sval) :=
  obs <- range_of self "_nobs" ;;
  arr <- comprehension "i" obs ∅ (fun env =>
           dets <- range_of self "_ndet" ;;
           comprehension "i" dets env (fun env =>
             corr <- get_array self "_NET_corr" ;;
             i <- load_name env "i" ;;
             row <- py_getitem corr i ;;
             j <- load_name env "j" ;;
             x <- py_getitem row j ;;
             net <- get_array self "_NET" ;;
             i1 <- load_name env "i" ;;
             row' <- py_getitem net i1 ;;
             i2 <- load_name env "i" ;;
             y <- py_getitem row' i2 ;;
             Ok (x / y)%float)) ;;
  Ok (<["_corr_deg" := SArr2 arr]> self).

(** The array of the two map depths: [tel] is bound nowhere, and an
    integer, had a loop bound it, has no [param]. *)
Definition map_depth_of (self : gmap string sval) (net_arr : string)
    : result (list (list float)) :=
  obs <- range_of self "_nobs" ;;
  comprehension "j" obs ∅ (fun env =>
    dets <- range_of self "_ndet" ;;
    comprehension "i" dets env (fun env =>
      _ <- get_array self net_arr ;;
      _ <- load_name env "tel" ;;
      Raise (AttributeError "param"))).

(** [Sensitivity._calc_map_depth]. *)
Definition _calc_map_depth (self : gmap string sval) (ch : Channel) : result (gmap string sval) :=
  a <- map_depth_of self "_NET_arr" ;;
  Ok (<["_map_depth" := SArr2 a]> self).

(** [Sensitivity._calc_map_depth_RJ]. *)
Definition _calc_map_depth_RJ (self : gmap string sval) (ch : Channel) : result (gmap string sval) :=
  a <- map_depth_of self "_NET_arr_RJ" ;;
  Ok (<["_map_depth_RJ" := SArr2 a]> self).

(** [self.<a>.flatten().tolist()]. *)
Definition flat (self : gmap string sval) (a : string) : result (list float) :=
  x <- get_array self a ;; Ok (concat x).

(** [Sensitivity._sensitivity]: the list of the fifteen outputs. *)
Definition _sensitivity (self : gmap string sval) (ch : Channel) : result (list (list float)) :=
  self <- _calc_popt self ch ;;
  self <- _calc_rj_temp self ch ;;
  self <- _calc_photon_NEP self ch ;;
  self <- _calc_bolo_NEP self ch ;;
  self <- _calc_read_NEP self ch ;;
  self <- _calc_tot_NEP self ch ;;
  self <- _calc_NET self ch ;;
  self <- _calc_NET_RJ self ch ;;
  self <- _calc_NET_arr self ch ;;
  self <- _calc_NET_arr_RJ self ch ;;
  self <- _calc_corr_deg self ch ;;
  self <- _calc_map_depth self ch ;;
  self <- _calc_map_depth_RJ self ch ;;
  outs <- map_result (flat self)
            ["_tel_eff_arr"; "_popt_arr"; "_tel_rj_temp"; "_sky_rj_temp";
             "_NEP_ph_arr"; "_NEP_bolo_arr"; "_NEP_read_arr"; "_NEP";
             "_NET"; "_NET_RJ"; "_NET_arr"; "_NET_arr_RJ"; "_corr_deg"]%string ;;
  _ <- get_array self "_map_depth" ;;
  Raise (AttributeError "lolist").

(** What the first loop of [_opt_pow] over the elements of one detector
    appends for element [k]: the efficiency towards the detector, the
    efficiencies towards the sky and the power spectrum of the element. *)
Definition opt_pow_element (ch : Channel) (i j : Z) (k : nat)
    : result (list float * list (list float) * list float) :=
  tr <- item2 (tran ch) i j ;;
  eff_arr <- np_vstack tr (ones (freqs ch)) ;;
  cum_det <- eff_towards_det eff_arr k ;;
  cum_sky <- eff_towards_sky eff_arr (freqs ch) k ;;
  tes <- item2 (temp ch) i j ;;
  te <- py_getitem tes (Z.of_nat k) ;;
  ems <- item2 (emis ch) i j ;;
  em <- py_getitem ems (Z.of_nat k) ;;
  Ok (cum_det, cum_sky, phys_bb_pow_spec (freqs ch) te em).

(** [sum(l)]. *)
Definition py_sum (l : list float) : float := fold_left PrimFloat.add l 0%float.

(** What the second loop of [_opt_pow] stores for element [k]: the power
    from the sky side, the power on the detector side and the band-averaged
    efficiency towards the detector. *)
Definition opt_pow_integrals (ch : Channel)
    (cascade : list (list float * list (list float) * list float)) (k : nat)
    : result (float * float * float) :=
  let eff_det_side_2 := map (fun t => fst (fst t)) cascade in
  let eff_sky_side_2 := map (fun t => snd (fst t)) cascade in
  let pows := map snd cascade in
  pk <- py_getitem pows (Z.of_nat k) ;;
  ek <- py_getitem eff_det_side_2 (Z.of_nat k) ;;
  let pow_out := np_trapz (mul_arrays (mul_arrays pk ek) (band_mask ch)) (freqs ch) in
  bw <- bandwidth (freqs ch) ;;
  let eff := (np_trapz (mul_arrays ek (band_mask ch)) (freqs ch) / bw)%float in
  terms <- map_result
             (fun m =>
                pm <- py_getitem pows (Z.of_nat m) ;;
                sk <- py_getitem eff_sky_side_2 (Z.of_nat k) ;;
                skm <- py_getitem sk (Z.of_nat m) ;;
                Ok (np_trapz (mul_arrays (mul_arrays pm skm) (band_mask ch)) (freqs ch)))
             (seq 0 (k + 1)) ;;
  Ok (py_sum terms, pow_out, eff).

(** The body of [_opt_pow] for detector [j] of observation [i]. *)
Definition opt_pow_detector (ch : Channel) (i j : Z) : result (list (float * float * float)) :=
  el <- item2 (elem ch) i j ;;
  let ks := seq 0 (length el) in
  cascade <- map_result (opt_pow_element ch i j) ks ;;
  map_result (opt_pow_integrals ch cascade) ks.

(** [np.transpose(np.reshape(a, (shape[0] * shape[1], shape[2])))] for a
    nested list of shape [(n0, n1, n2)]. *)
Definition reshape_transpose (a : list (list (list float))) : result (list (list float)) :=
  match a with
  | [] => Raise IndexError
  | [] :: _ => Raise IndexError
  | (r :: _) :: _ =>
      let n1 := length (hd [] a) in
      let n2 := length r in
      if forallb (fun o => (length o =? n1)%nat &&
                           forallb (fun d => (length d =? n2)%nat) o) a
      then
        let rows := concat a in
        Ok (map (fun c => map (fun row => nth c row 0%float) rows) (seq 0 n2))
      else Raise (Unmodelled "ragged nested list")
  end.

(** [Sensitivity._opt_table] on the three stored nested lists. *)
Definition _opt_table (pow_sky_side pow_det_side eff_det_side : list (list (list float)))
    : result (list (list (list float))) :=
  a <- reshape_transpose pow_sky_side ;;
  b <- reshape_transpose pow_det_side ;;
  c <- reshape_transpose eff_det_side ;;
  Ok [a; b; c].

(** [Sensitivity._opt_pow]. *)
Definition _opt_pow (ch : Channel) : result (list (list (list float))) :=
  sides <- map_result
             (fun i =>
                row <- py_getitem (elem ch) (Z.of_nat i) ;;
                map_result (fun j => opt_pow_detector ch (Z.of_nat i) (Z.of_nat j))
                  (seq 0 (length row)))
             (seq 0 (length (elem ch))) ;;
  let pick (f : float * float * float -> float) := map (map (map f)) sides in
  _opt_table (pick (fun t => fst (fst t))) (pick (fun t => snd (fst t))) (pick snd).

End SensitivityModel.

(** Modelled from the spec: the Noise collaborator is not in the
    repository; its array combination is the standard [1/sqrt(N * yield)]
    one. *)
Definition spec_NET_arr (net : float) (ndet : Z) (yield : float) : float :=
  match float_of_int ndet with
  | Ok n => (net / sqrt (n * yield))%float
  | Raise _ => nan
  end.

(* ===================================================================== *)
(** * class Channel ([src/channel.py]): the parameter table *)
(* ===================================================================== *)

Module Chan.

Import PyStr.

(** [s.replace(" ", "")]: every space goes. *)
Fixpoint remove_blanks (s : string) : string :=
  match s with
  | EmptyString => EmptyString
  | String c r =>
      if Ascii.eqb c " " then remove_blanks r else String c (remove_blanks r)
  end.

(** [name.replace(" ", "").strip().upper()]. *)
Definition cap_name (name : string) : string :=
  upper (strip (remove_blanks name)).

(** A Python dict holding the Parameter objects, in insertion order. *)
Fixpoint dict_lookup {V : Type} (d : list (string * V)) (k : string) : option V :=
  match d with
  | [] => None
  | (k', v) :: r => if String.eqb k' k then Some v else dict_lookup r k
  end.

(** [k in d.keys()]. *)
Definition dict_has {V : Type} (d : list (string * V)) (k : string) : bool :=
  match dict_lookup d k with
  | Some _ => true
  | None => false
  end.

(** [d[k]]. *)
Definition dict_get {V : Type} (d : list (string * V)) (k : string) : result V :=
  match dict_lookup d k with
  | Some v => Ok v
  | None => Raise (KeyError k)
  end.

(** [d[k] = v]: the entry is replaced where it stands, a new key goes last. *)
Fixpoint dict_set {V : Type} (d : list (string * V)) (k : string) (v : V)
    : list (string * V) :=
  match d with
  | [] => [(k, v)]
  | (k', v') :: r =>
      if String.eqb k' k then (k', v) :: r else (k', v') :: dict_set r k v
  end.

(** The attributes of a Channel object that its parameter methods read and
    write.  [_nexp] is the integer [sim.param("nexp")]; [cam_param] is
    [self.cam.param]; the two dicts of Parameter objects keep the order of
    insertion, which is the order the names dicts are filled in;
    [_param_vals] is assigned by [_store_param_vals] only, so it is [None]
    until the channel has been evaluated. *)
Record Channel : Type := mkChannel {
  _inp_dict : gmap string pinput;
  _std_params : gmap string StandardParam;
  _nexp : Z;
  cam_param : string -> result pyval;
  _param_dict : list (string * Param);
  det_dict : list (string * Param);
  _param_names : gmap string string;
  _det_param_names : gmap string string;
  _param_vals : option (gmap string pyval)
}.

Definition set_param_dict (d : list (string * Param)) (c : Channel) : Channel :=
  mkChannel (_inp_dict c) (_std_params c) (_nexp c) (cam_param c)
    d (det_dict c) (_param_names c) (_det_param_names c) (_param_vals c).
Definition set_det_dict (d : list (string * Param)) (c : Channel) : Channel :=
  mkChannel (_inp_dict c) (_std_params c) (_nexp c) (cam_param c)
    (_param_dict c) d (_param_names c) (_det_param_names c) (_param_vals c).
Definition set_names (pn dn : gmap string string) (c : Channel) : Channel :=
  mkChannel (_inp_dict c) (_std_params c) (_nexp c) (cam_param c)
    (_param_dict c) (det_dict c) pn dn (_param_vals c).
Definition set_param_vals (v : gmap string pyval) (c : Channel) : Channel :=
  mkChannel (_inp_dict c) (_std_params c) (_nexp c) (cam_param c)
    (_param_dict c) (det_dict c) (_param_names c) (_det_param_names c) (Some v).

(** The labels of the two dict displays of [_store_param_dict], in the order
    they are written. *)
Definition channel_labels : list (string * string) :=
  [("det_per_waf", "Num Det per Wafer"); ("waf_per_ot", "Num Waf per OT");
   ("ot", "Num OT"); ("yield", "Yield"); ("pix_sz", "Pixel Size");
   ("wf", "Waist Factor")]%string.

Definition detector_labels : list (string * string) :=
  [("bc", "Band Center"); ("fbw", "Fractional BW"); ("det_eff", "Det Eff");
   ("psat", "Psat"); ("psat_fact", "Psat Factor"); ("n", "Carrier Index");
   ("tc", "Tc"); ("tc_frac", "Tc Fraction"); ("nei", "SQUID NEI");
   ("bolo_r", "Bolo Resistance"); ("read_frac", "Read Noise Frac")]%string.

(** [self._param_vals], an AttributeError before the channel is
    evaluated. *)
Definition get_param_vals (self : Channel) : result (gmap string pyval) :=
  match _param_vals self with
  | Some v => Ok v
  | None => Raise (AttributeError "_param_vals")
  end.

(** Modelled from the spec: the Camera collaborator is not in the
    repository; [Channel._cam_param] hands the name to [self.cam.param],
    which returns a value or raises. *)
Definition _cam_param (self : Channel) (param : string) : result pyval :=
  cam_param self param.

(** [Channel.param]. *)
Definition param (self : Channel) (param : string) : result pyval :=
  bind (get_param_vals self) (fun vals =>
  match vals !! param with
  | Some v => Ok v
  | None => _cam_param self param
  end).

(** [Channel.set_param]. *)
Definition set_param (self : Channel) (param : string) (new_val : pyval)
    : result Channel :=
  bind (get_param_vals self) (fun vals =>
  Ok (set_param_vals (<[param := new_val]> vals) self)).

(** The band number as an index. *)
Definition band_of (v : pyval) : result Z :=
  match v with
  | VInt z => Ok z
  | VBool b => Ok (if b then 1%Z else 0%Z)
  | _ => Raise (Unmodelled "a band_id that is no integer")
  end.

(** The names dict of [_store_param_dict]:
    [{param.name: pid for pid, param in d.items()}].  A later parameter of
    the same name takes the entry; a name that is no string is never equal
    to a label, which is a string, and is left out; a list is no key. *)
Definition names_of (d : list (string * Param)) : result (gmap string string) :=
  fold_left
    (fun acc kp =>
       bind acc (fun m =>
       match name (snd kp) with
       | VStr s => Ok (<[s := fst kp]> m)
       | VSeq _ | VRef _ => Raise TypeError
       | _ => Ok m
       end))
    d (Ok ∅).

Section ChannelModel.

Context {rt : PyRuntime}.
Open Scope py_scope.

(** [Channel._store_param]. *)
Definition _store_param (self : Channel) (name : string) : result Param :=
  let cap_name := cap_name name in
  match _std_params self !! cap_name with
  | Some sp =>
      inp <- match _inp_dict self !! cap_name with
             | Some inp => Ok inp
             | None => Raise (KeyError cap_name)
             end ;;
      __init__ (mkInitArgs inp (Some sp) VNone None VNone VNone TFloat None)
  | None => log_err "not recognized"
  end.

(** One dict display of [_store_param_dict]: the values are built in the
    order written. *)
Definition store_labels (self : Channel) (labels : list (string * string))
    : result (list (string * Param)) :=
  map_result (fun kl => p <- _store_param self (snd kl) ;; Ok (fst kl, p)) labels.

(** [pr.Parameter(self._log, "NA", name=label)]. *)
Definition not_available (label : string) : result Param :=
  __init__ (mkInitArgs (InVal (VStr "NA")) None (VStr label) None VNone VNone
              TFloat None).

(** A parameter added later to the input format: stored when the label, as
    written, is a key of the input dict, not available otherwise. *)
Definition store_newer (self : Channel) (d : list (string * Param))
    (key label : string) : result (list (string * Param)) :=
  match _inp_dict self !! label with
  | Some _ => p <- _store_param self label ;; Ok (dict_set d key p)
  | None => p <- not_available label ;; Ok (dict_set d key p)
  end.

(** [Channel._store_param_dict]. *)
Definition _store_param_dict (self : Channel) : result Channel :=
  pd <- store_labels self channel_labels ;;
  let self := set_param_dict pd self in
  dd <- store_labels self detector_labels ;;
  dd <- store_newer self dd "flink" "Flink" ;;
  dd <- store_newer self dd "g" "G" ;;
  dd <- store_newer self dd "sfact" "Responsivity Factor" ;;
  let self := set_det_dict dd self in
  pn <- names_of (_param_dict self) ;;
  dn <- names_of (det_dict self) ;;
  Ok (set_names pn dn self).

(** [d[pid].change(new_val)] on the Parameter of a dict; the changed
    Parameter is the one the dict holds. *)
Definition change_in (d : list (string * Param)) (pid : string) (new_val : pyval)
    : result (bool * list (string * Param)) :=
  p <- dict_get d pid ;;
  r <- change p new_val None 1 ;;
  Ok (fst r, dict_set d pid (snd r)).

(** [Channel.change_param].  The log line is formatted first, from
    [self.param("ch_name")]; [log.log] records it and returns.  The
    label is a string, and the new value goes to [change] with its default
    [new_std] and [band_id]. *)
Definition change_param (self : Channel) (param : string) (new_val : pyval)
    : result (bool * Channel) :=
  _ <- Chan.param self "ch_name" ;;
  if negb (dict_has (_param_dict self) param) && negb (dict_has (det_dict self) param)
  then
    match _param_names self !! param with
    | Some pid =>
        r <- change_in (_param_dict self) pid new_val ;;
        Ok (fst r, set_param_dict (snd r) self)
    | None =>
        match _det_param_names self !! param with
        | Some pid =>
            r <- change_in (det_dict self) pid new_val ;;
            Ok (fst r, set_det_dict (snd r) self)
        | None => log_err "not understood by Channel.change_param()"
        end
    end
  else if dict_has (_param_dict self) param
  then
    r <- change_in (_param_dict self) param new_val ;;
    Ok (fst r, set_param_dict (snd r) self)
  else if dict_has (det_dict self) param
  then
    r <- change_in (det_dict self) param new_val ;;
    Ok (fst r, set_det_dict (snd r) self)
  else log_err "not understood by Channel.change_param()".

(** [Channel.get_param]. *)
Definition get_param (self : Channel) (param : string) : result pyval :=
  p <- dict_get (_param_dict self) param ;;
  get_med p 1.

(** [Channel._param_samp]: the value and the Parameter after the call. *)
Definition _param_samp (self : Channel) (p : Param) : result (pyval * Param) :=
  b <- Chan.param self "band_id" ;;
  band_id <- band_of b ;;
  if (_nexp self =? 1)%Z
  then v <- get_avg p band_id ;; Ok (v, p)
  else sample p band_id 1 None None false.

End ChannelModel.

End Chan.

(* ===================================================================== *)
(** * Inputs of the closed examples *)
(* ===================================================================== *)

(** [Parameter(log, s, name="p", inp_type=t)]. *)
Definition literal_args (t : ptype) (s : string) : init_args :=
  mkInitArgs (InVal (VStr s)) None (VStr "p") None VNone VNone t None.

(** [Parameter(log, (s, {}), name="p")]: an optic with an empty
    distribution dictionary. *)
Definition optic_args (s : string) : init_args :=
  mkInitArgs (InPair (VStr s) (Some ∅)) None (VStr "p") None VNone VNone TFloat None.

(** The parameter that [Parameter(log, "100 +/- 10", name="p")] builds on
    the reference runtime, and the same after [change(1000.0, 20.0)]. *)
Definition gaussian_100_10 : Param :=
  mkParam (VStr "p") (Ref.un_Unit "NA") None None TFloat None
    VNone (VFloat 100) (VFloat 100) (VFloat 10) (Some false) [].

Definition gaussian_1000_20 : Param :=
  mkParam (VStr "p") (Ref.un_Unit "NA") None None TFloat None
    VNone (VFloat 1000) (VFloat 100) (VFloat 20) (Some false) [].

(** A channel without elements at the given site. *)
Definition bare_channel (site : string) (infg : bool) : Channel :=
  mkChannel site infg 1 1 1 1 [] [] [] [] [] [].

(** One observation, one detector, with the correlated NET and its RJ
    variant already stored. *)
Definition one_by_one : gmap string sval :=
  <["_nobs" := SInt 1]> (<["_ndet" := SInt 1]>
  (<["_NET" := SArr2 [[4%float]]]> (<["_NET_corr" := SArr2 [[8%float]]]>
  (<["_NET_corr_RJ" := SArr2 [[2%float]]]> ∅)))).

(** A chain of three elements with transmissions 0.9, 0.8 and 1.0 over a
    grid of two frequencies. *)
Definition toy_freqs : list float := [90e9; 150e9]%float.
Definition toy_tran : list (list float) :=
  [[0.9; 0.9]; [0.8; 0.8]; [1; 1]]%float.

(* ===================================================================== *)
(** * The properties as the specification words them *)
(* ===================================================================== *)

(** Following the spec (cascade efficiency): the efficiency toward the
    detector of element [k] is the product of the transmissions of all
    elements strictly downstream of [k], indices [k+1..L], inclusive of the
    synthetic terminal of transmission 1 appended at index [L]; here at
    frequency number [f], the factors taken from [k+1] up to [L]. *)
Definition downstream_product (chain : list (list float)) (freqs : list float)
    (k f : nat) : float :=
  let with_terminal := chain ++ [map (fun _ => 1%float) freqs] in
  let transmission idx := nth f (nth idx with_terminal []) 1%float in
  match seq (k + 1) (length with_terminal - (k + 1)) with
  | [] => 1%float
  | first :: others =>
      fold_left (fun acc idx => (acc * transmission idx)%float) others
        (transmission first)
  end.

(** Following the spec (change): a float Parameter keeps an average and
    a standard deviation per band; [stored] is the value a slot holds for
    band [band_id], [commit] writes a new value there, and
    [commit_if_differs] commits the new value only when it differs from the
    stored one at 5-significant-figure precision, and tells whether it
    did. *)
Inductive slot : Type := AvgSlot | StdSlot.

Definition slot_attr (sl : slot) (p : Param) : pyval :=
  match sl with
  | AvgSlot => _avg p
  | StdSlot => _std p
  end.

Definition stored (sl : slot) (mult_bands : bool) (band_id : Z) (p : Param)
    : result pyval :=
  if mult_bands then subscript p (slot_attr sl p) (band_id - 1)
  else Ok (slot_attr sl p).

Definition commit `{PyRuntime} (sl : slot) (mult_bands : bool) (band_id : Z)
    (p : Param) (x : float) : result Param :=
  if mult_bands then setitem p (slot_attr sl p) (band_id - 1) (VFloat x)
  else Ok (match sl with
           | AvgSlot => set_avg (VFloat x) p
           | StdSlot => set_std (VFloat x) p
           end).

(** The stored value at 5 significant figures: the item of a band is
    rounded as an item of its sequence is. *)
Definition stored_sig_figs `{PyRuntime} (sl : slot) (mult_bands : bool)
    (p : Param) (cur : pyval) : result float :=
  if mult_bands then _sig_figs_item p (slot_attr sl p) cur 5
  else _sig_figs cur 5.

Definition commit_if_differs `{PyRuntime} (sl : slot) (mult_bands : bool)
    (band_id : Z) (p : Param) (x : float) : result (bool * Param) :=
  bind (_sig_figs (VFloat x) 5) (fun a =>
  bind (stored sl mult_bands band_id p) (fun cur =>
  bind (stored_sig_figs sl mult_bands p cur) (fun b =>
  if float_ne a b
  then bind (commit sl mult_bands band_id p x) (fun p' => Ok (true, p'))
  else Ok (false, p)))).

(** The slot keeps Python floats: its values are not the items of a numpy
    array. *)
Definition python_floats (sl : slot) (p : Param) : Prop :=
  is_ndarray p (slot_attr sl p) = false.

(** The average and the standard deviation are kept in two objects. *)
Definition slots_apart (p : Param) : Prop :=
  forall l, _avg p = VRef l -> _std p <> VRef l.

Definition other (sl : slot) : slot :=
  match sl with
  | AvgSlot => StdSlot
  | StdSlot => AvgSlot
  end.

(** The parameters a program can hold: built by the constructor, then
    changed or sampled any number of times. *)
Inductive reachable `{PyRuntime} : Param -> Prop :=
| reachable_init (a : init_args) (p : Param) :
    __init__ a = Ok p -> reachable p
| reachable_change (p p' : Param) (new_avg : pyval) (new_std : option float)
    (band_id : Z) (b : bool) :
    reachable p -> change p new_avg new_std band_id = Ok (b, p') -> reachable p'
| reachable_sample (p p' : Param) (band_id nsample : Z) (min max : option float)
    (null : bool) (v : pyval) :
    reachable p -> sample p band_id nsample min max null = Ok (v, p') -> reachable p'.

(** The kind a call of the constructor declares. *)
Definition declared_kind (a : init_args) : ptype :=
  match arg_std_param a with
  | Some sp => sp_type sp
  | None => arg_inp_type a
  end.

(* ===================================================================== *)
(** * Predicates and inputs of the further properties *)
(* ===================================================================== *)

(** [x] is not below the minimum and not above the maximum, where the
    parameter has one. *)
Definition within (lo hi : option float) (x : float) : Prop :=
  (forall m, lo = Some m -> (x <? m)%float = false)
  /\ (forall M, hi = Some M -> (M <? x)%float = false).

(** The unit a call of the constructor gives the parameter. *)
Definition init_unit `{PyRuntime} (a : init_args) : Unit :=
  match arg_std_param a with
  | Some sp => sp_unit sp
  | None => match arg_unit a with Some u => u | None => un_Unit "NA" end
  end.

Definition is_float (v : pyval) : Prop := exists f, v = VFloat f.

(** A two-dimensional array of [n] rows of [m] items. *)
Definition rectangular {A : Type} (n m : Z) (arr : list (list A)) : Prop :=
  length arr = Z.to_nat n /\ Forall (fun row => length row = Z.to_nat m) arr.

(** A nested list of shape [(n0, n1, n2)]. *)
Definition cuboid (n0 n1 n2 : nat) (a : list (list (list float))) : Prop :=
  length a = n0
  /\ Forall (fun o => length o = n1 /\ Forall (fun d => length d = n2) o) a.

(** Every display name of a names dict stands for a key of the dict of
    Parameter objects. *)
Definition names_resolve (names : gmap string string) (d : list (string * Param))
    : Prop :=
  forall nm pid, names !! nm = Some pid -> Chan.dict_has d pid = true.

Definition registered (c : Chan.Channel) : Prop :=
  names_resolve (Chan._param_names c) (Chan._param_dict c)
  /\ names_resolve (Chan._det_param_names c) (Chan.det_dict c).

(** [Parameter(log, s, name="p", min=0., max=10.)], and the parameter it
    builds from "5" on the reference runtime. *)
Definition bounded_literal (s : string) : init_args :=
  mkInitArgs (InVal (VStr s)) None (VStr "p") None (VFloat 0) (VFloat 10) TFloat None.

Definition bounded_5 : Param :=
  mkParam (VStr "p") (Ref.un_Unit "NA") (Some 0%float) (Some 10%float) TFloat None
    VNone (VFloat 5) (VFloat 5) (VFloat 0) (Some false) [].

(** The parameter that [Parameter(log, "[1,2] +/- [0.1,0.2]", name="p")]
    builds on the reference runtime. *)
Definition two_bands : Param :=
  mkParam (VStr "p") (Ref.un_Unit "NA") None None TFloat None
    VNone (VRef 0) (VRef 0) (VRef 1) (Some true)
    [OArr [1; 2]%float; OArr [0.1; 0.2]%float].

(** A distribution of mean and median 2 and of spread 0.5 whose draws are
    all 3, and [Parameter(log, dist, name="p", unit=Unit("k"))] for a unit
    of factor 1000. *)
Definition steady_dist : Distribution :=
  mkDistribution 2 2 0.5 (fun _ _ => 3%float).

Definition kilo : Unit := mkUnit "k" (fun x => x * 1000)%float.

Definition dist_args : init_args :=
  mkInitArgs (InVal (VDist steady_dist)) None (VStr "p") (Some kilo) VNone VNone
    TFloat None.

(** One observation of one detector behind the toy chain, and a
    Sensitivity object holding its two NEP arrays. *)
Definition one_detector : Channel :=
  mkChannel "Atacama" false 2 1 1 1 [[["sky"; "lens"; "bolo"]%string]]
    [[toy_tran]] [[toy_tran]] [[toy_tran]] toy_freqs [1; 1]%float.

Definition nep_state : gmap string sval :=
  <["_nobs" := SInt 1]> (<["_ndet" := SInt 1]>
  (<["_NEP" := SArr2 [[3%float]]]> (<["_NEP_corr" := SArr2 [[5%float]]]> ∅))).

(** An evaluated channel holding the parameter "p" under the key "ot". *)
Definition toy_chan : Chan.Channel :=
  Chan.mkChannel ∅ ∅ 2 (fun x => Raise (KeyError x))
    [("ot"%string, gaussian_100_10)] [] {["p"%string := "ot"%string]} ∅
    (Some (<["ch_name" := VStr "cam1"]> (<["band_id" := VInt 1]> ∅))).

(** A channel about to store its parameters: the input dict gives "1" for
    every label of the two dict displays, under the capital key. *)
Definition toy_labels : list (string * string) :=
  Chan.channel_labels ++ Chan.detector_labels.

Definition toy_inp_dict : gmap string pinput :=
  list_to_map
    (map (fun kl => (Chan.cap_name (snd kl), InVal (VStr "1"))) toy_labels).

Definition toy_std_params : gmap string StandardParam :=
  list_to_map
    (map (fun kl => (Chan.cap_name (snd kl),
                     mkStandardParam (VStr (snd kl)) (Ref.un_Unit "NA") None None TFloat))
       toy_labels).

Definition unbuilt_chan : Chan.Channel :=
  Chan.mkChannel toy_inp_dict toy_std_params 1 (fun x => Raise (KeyError x))
    [] [] ∅ ∅ None.

(* ===================================================================== *)
(** * Properties of the Sensitivity engine *)
(* ===================================================================== *)

Section SensitivityFacts.

(** ** The sky/telescope boundary *)

(** C1, as the code has it: the count of leading sky-side elements is 1
    for a space site and 2 for any other (ground) site, and two more of
    each, 3 and 4, exactly when the internal foreground layering is
    enabled; [_calc_rj_temp] cuts every chain at that count, the sky slice
    and the telescope slice making up the chain. *)
Theorem C1_num_sky_elem_by_site (ch : Channel) :
  _num_sky_elem ch =
    ((if String.eqb (PyStr.upper (site ch)) "SPACE" then 1 else 2)
     + (if infg ch then 2 else 0))%nat
  /\ (forall (A : Type) (chain : list A),
        firstn (_num_sky_elem ch) chain ++ skipn (_num_sky_elem ch) chain = chain
        /\ length (firstn (_num_sky_elem ch) chain)
           = Nat.min (_num_sky_elem ch) (length chain)).
Proof.
  split.
  - unfold _num_sky_elem.
    destruct (String.eqb _ _), (infg ch); reflexivity.
  - intros A chain. split.
    + apply firstn_skipn.
    + apply length_firstn.
Qed.

(** C1, as the spec words it (1 or 2 on the ground, 3 or 4 in space, the
    larger with layering), fails: an Atacama channel without layering has
    two sky-side elements, not one. *)
Lemma C1_ground_without_layering_counts_two :
  ~ (let ch := bare_channel "Atacama" false in
     (String.eqb (PyStr.upper (site ch)) "SPACE" = false ->
        _num_sky_elem ch = if infg ch then 2%nat else 1%nat)
     /\ (String.eqb (PyStr.upper (site ch)) "SPACE" = true ->
        _num_sky_elem ch = if infg ch then 4%nat else 3%nat)).
Proof.
  intros [Hground _].
  specialize (Hground eq_refl).
  vm_compute in Hground. discriminate Hground.
Qed.

(** ** The cascade of transmissions *)

Lemma skipn_as_seq {A : Type} (d : A) (l : list A) (a : nat) :
  skipn a l = map (fun idx => nth idx l d) (seq a (length l - a)).
Proof.
  revert a. induction l as [|x l IH]; intros a.
  - destruct a; reflexivity.
  - destruct a as [|a].
    + simpl skipn. rewrite Nat.sub_0_r. simpl length. simpl seq. simpl map.
      f_equal. specialize (IH 0%nat). simpl skipn in IH. rewrite Nat.sub_0_r in IH.
      rewrite IH at 1. rewrite <- seq_shift, map_map. reflexivity.
    + simpl skipn. simpl length. rewrite Nat.sub_succ.
      rewrite IH. rewrite <- seq_shift, map_map. reflexivity.
Qed.

Lemma length_mul_arrays (x y : list float) :
  length y = length x -> length (mul_arrays x y) = length x.
Proof.
  intros H. unfold mul_arrays. rewrite length_zip_with. lia.
Qed.

Lemma fold_mul_arrays_length (rs : list (list float)) (r : list float) :
  Forall (fun row => length row = length r) rs ->
  length (fold_left mul_arrays rs r) = length r.
Proof.
  revert r. induction rs as [|y rs IH]; intros r Hall; simpl.
  - reflexivity.
  - inversion Hall as [|? ? Hy Hrs]; subst.
    rewrite IH.
    + apply length_mul_arrays; assumption.
    + rewrite length_mul_arrays by assumption. assumption.
Qed.

Lemma lookup_nth_lt {A : Type} (d : A) (l : list A) (i : nat) :
  (i < length l)%nat -> l !! i = Some (nth i l d).
Proof.
  intros Hi. destruct (nth_lookup_or_length l i d) as [H|H]; [exact H | lia].
Qed.

Lemma fold_mul_arrays_lookup (rs : list (list float)) (r : list float) (f : nat) :
  Forall (fun row => length row = length r) rs ->
  (f < length r)%nat ->
  fold_left mul_arrays rs r !! f =
    Some (fold_left (fun acc row => (acc * nth f row 1)%float) rs (nth f r 1%float)).
Proof.
  revert r. induction rs as [|y rs IH]; intros r Hall Hf; simpl.
  - apply lookup_nth_lt; assumption.
  - inversion Hall as [|? ? Hy Hrs]; subst.
    rewrite IH.
    + f_equal. f_equal.
      apply nth_lookup_Some.
      unfold mul_arrays. rewrite lookup_zip_with.
      rewrite (lookup_nth_lt 1%float r f) by assumption.
      rewrite (lookup_nth_lt 1%float y f) by lia.
      reflexivity.
    + rewrite length_mul_arrays by assumption. assumption.
    + rewrite length_mul_arrays by assumption. assumption.
Qed.

Lemma fold_left_over_map {A B C : Type} (g : A -> B) (h : C -> B -> C)
    (l : list A) (c : C) :
  fold_left h (map g l) c = fold_left (fun acc x => h acc (g x)) l c.
Proof.
  revert c. induction l as [|x l IH]; intros c; simpl; [reflexivity | apply IH].
Qed.

Lemma np_vstack_buffers (chain : list (list float)) (freqs : list float) :
  Forall (fun row => length row = length freqs) chain ->
  np_vstack chain (ones freqs) = Ok (_buffer_tran chain freqs).
Proof.
  intros Hall. unfold np_vstack, _buffer_tran.
  assert (Hb : forallb (fun r => (length r =? length (ones freqs))%nat) chain = true).
  { apply forallb_forall. intros r Hr.
    rewrite Forall_forall in Hall. unfold ones. rewrite length_map.
    apply Nat.eqb_eq. apply Hall. apply list_elem_of_In. exact Hr. }
  rewrite Hb. reflexivity.
Qed.

Lemma buffered_rows_width (chain : list (list float)) (freqs : list float) :
  Forall (fun row => length row = length freqs) chain ->
  Forall (fun row => length row = length freqs) (_buffer_tran chain freqs).
Proof.
  intros Hall. unfold _buffer_tran. apply Forall_app. split; [exact Hall |].
  constructor; [| constructor]. unfold ones. apply length_map.
Qed.

(** The efficiency toward the detector, frequency by frequency. *)
Lemma cum_eff_det_is_downstream_product
    (chain : list (list float)) (freqs : list float) (k : nat) :
  (k < length chain)%nat ->
  Forall (fun row => length row = length freqs) chain ->
  exists eff,
    cum_eff_det chain freqs k = Ok eff /\
    length eff = length freqs /\
    forall f, (f < length freqs)%nat ->
      eff !! f = Some (downstream_product chain freqs k f).
Proof.
  intros Hk Hall.
  unfold cum_eff_det. rewrite np_vstack_buffers by assumption. simpl bind.
  unfold eff_towards_det, downstream_product.
  pose proof (buffered_rows_width chain freqs Hall) as Hbuf.
  unfold _buffer_tran, ones in *.
  set (buffered := chain ++ [map (fun _ => 1%float) freqs]) in *.
  rewrite (skipn_as_seq [] buffered (k + 1)).
  assert (Hlen : length buffered = S (length chain)).
  { unfold buffered. rewrite length_app. simpl. lia. }
  assert (Hidx : forall idx, (idx < length buffered)%nat ->
                   length (nth idx buffered []) = length freqs).
  { intros idx Hi. rewrite Forall_forall in Hbuf. apply Hbuf.
    apply list_elem_of_In. apply nth_In. exact Hi. }
  destruct (length buffered - (k + 1))%nat as [|n] eqn:Hn; [lia |].
  simpl seq. simpl map. unfold reduce_mul.
  assert (Hrows : Forall (fun row => length row = length (nth (k + 1) buffered []))
                    (map (fun idx => nth idx buffered []) (seq (S (k + 1)) n))).
  { apply Forall_forall. intros row Hrow.
    apply list_elem_of_In in Hrow. apply in_map_iff in Hrow as [idx [<- Hin]].
    apply in_seq in Hin. rewrite !Hidx by lia. reflexivity. }
  eexists. split; [reflexivity |]. split.
  - rewrite fold_mul_arrays_length by exact Hrows. apply Hidx. lia.
  - intros f Hf.
    rewrite fold_mul_arrays_lookup.
    + rewrite fold_left_over_map. reflexivity.
    + exact Hrows.
    + rewrite Hidx by lia. exact Hf.
Qed.

(** What [_opt_pow] appends for element [k] are these two efficiencies of
    the chain of the detector. *)
Lemma opt_pow_element_efficiencies
    (bb_pow_spec : list float -> list float -> list float -> list float)
    (ch : Channel) (i j : Z) (k : nat)
    (det : list float) (sky : list (list float)) (pow : list float) :
  opt_pow_element bb_pow_spec ch i j k = Ok (det, sky, pow) ->
  exists tran_ij,
    item2 (tran ch) i j = Ok tran_ij
    /\ cum_eff_det tran_ij (freqs ch) k = Ok det
    /\ cum_eff_sky tran_ij (freqs ch) k = Ok sky.
Proof.
  unfold opt_pow_element, cum_eff_det, cum_eff_sky. intros H.
  destruct (item2 (tran ch) i j) as [tr|]; [cbn [bind] in H | discriminate H].
  exists tr. split; [reflexivity |].
  destruct (np_vstack tr (ones (freqs ch))) as [eff_arr|]; [cbn [bind] in * | discriminate H].
  destruct (eff_towards_det eff_arr k) as [d|]; [cbn [bind] in H | discriminate H].
  destruct (eff_towards_sky eff_arr (freqs ch) k) as [sk|]; [cbn [bind] in H | discriminate H].
  destruct (item2 (temp ch) i j) as [tes|]; [cbn [bind] in H | discriminate H].
  destruct (py_getitem tes (Z.of_nat k)) as [te|]; [cbn [bind] in H | discriminate H].
  destruct (item2 (emis ch) i j) as [ems|]; [cbn [bind] in H | discriminate H].
  destruct (py_getitem ems (Z.of_nat k)) as [em|]; [cbn [bind] in H | discriminate H].
  injection H as <- <- _. split; reflexivity.
Qed.

(** C2: for a chain of [L] elements, each with a transmission per
    frequency, the efficiency toward the detector that [_opt_pow] computes
    for element [k] is, at every frequency, the product of the transmissions
    of the elements [k+1..L], the terminal of transmission 1 that the
    buffering appends at index [L] included; for the chain [0.9, 0.8, 1.0]
    element 0 gets 0.8; and the efficiency toward the sky of element 0 is
    the single row of zeros for every chain. *)
Theorem C2_cascade_efficiency :
  (forall (chain : list (list float)) (freqs : list float) (k : nat),
      (k < length chain)%nat ->
      Forall (fun row => length row = length freqs) chain ->
      np_vstack chain (ones freqs) = Ok (_buffer_tran chain freqs) /\
      exists eff,
        cum_eff_det chain freqs k = Ok eff /\
        length eff = length freqs /\
        forall f, (f < length freqs)%nat ->
          eff !! f = Some (downstream_product chain freqs k f))
  /\ cum_eff_det toy_tran toy_freqs 0 = Ok [0.8; 0.8]%float
  /\ (forall (chain : list (list float)) (freqs : list float),
        Forall (fun row => length row = length freqs) chain ->
        cum_eff_sky chain freqs 0 = Ok [zeros freqs] /\
        Forall (fun x => x = 0%float) (zeros freqs)).
Proof.
  split; [| split].
  - intros chain freqs k Hk Hall. split.
    + apply np_vstack_buffers; assumption.
    + apply cum_eff_det_is_downstream_product; assumption.
  - vm_compute. reflexivity.
  - intros chain freqs Hall. split.
    + unfold cum_eff_sky. rewrite np_vstack_buffers by assumption. reflexivity.
    + unfold zeros. apply Forall_forall. intros x Hx.
      apply list_elem_of_In in Hx. apply in_map_iff in Hx as [? [<- _]]. reflexivity.
Qed.

(** The toy chain of the spec is an instance. *)
Lemma C2_cascade_efficiency_toy :
  exists eff,
    cum_eff_det toy_tran toy_freqs 1 = Ok eff /\
    eff !! 0%nat = Some (downstream_product toy_tran toy_freqs 1 0).
Proof.
  destruct C2_cascade_efficiency as [Hdet _].
  destruct (Hdet toy_tran toy_freqs 1%nat) as [_ [eff [He [_ Hf]]]].
  - simpl. lia.
  - repeat constructor.
  - exists eff. split; [exact He |]. apply Hf. simpl. lia.
Defined.

(** ** The stored outputs *)

Lemma bind_Ok_inv {A B : Type} (c : result A) (k : A -> result B) (b : B) :
  bind c k = Ok b -> exists a, c = Ok a /\ k a = Ok b.
Proof.
  destruct c as [a|e]; simpl; intros H; [eauto | discriminate].
Qed.

Lemma range_of_positive (self : gmap string sval) (a : string) (n : Z) :
  self !! a = Some (SInt n) -> (1 <= n)%Z ->
  exists rest, range_of self a = Ok (0%Z :: rest).
Proof.
  intros Hn Hpos. unfold range_of, getattr. rewrite Hn. simpl.
  destruct (Z.to_nat n) as [|m] eqn:Hm; [lia |].
  simpl. eauto.
Qed.

(** C3, what the code does instead: [_calc_NET_arr_RJ] assigns
    [self._NET_arr], the attribute [_calc_NET_arr] has just assigned, so
    after the two steps [_NET_arr] holds the combination of the RJ NET and
    [_NET_arr_RJ] was never assigned; reading it, as the output list of
    [_sensitivity] does, raises AttributeError, and [_sensitivity] returns
    no record at all. *)
Theorem C3_NET_arr_RJ_overwrites_NET_arr
    (noise_NET_arr : float -> Z -> float -> float)
    (self s1 s2 : gmap string sval) (ch : Channel) :
  self !! "_NET_arr_RJ" = None ->
  _calc_NET_arr noise_NET_arr self ch = Ok s1 ->
  _calc_NET_arr_RJ noise_NET_arr s1 ch = Ok s2 ->
  (exists a, NET_arr_of noise_NET_arr self ch "_NET_corr" = Ok a
             /\ s1 !! "_NET_arr" = Some (SArr2 a))
  /\ (exists b, NET_arr_of noise_NET_arr s1 ch "_NET_corr_RJ" = Ok b
                /\ s2 !! "_NET_arr" = Some (SArr2 b))
  /\ s2 !! "_NET_arr_RJ" = None
  /\ flat s2 "_NET_arr_RJ" = Raise (AttributeError "_NET_arr_RJ").
Proof.
  intros Hnone H1 H2.
  unfold _calc_NET_arr in H1. apply bind_Ok_inv in H1 as [a [Ha H1]].
  injection H1 as <-.
  unfold _calc_NET_arr_RJ in H2. apply bind_Ok_inv in H2 as [b [Hb H2]].
  injection H2 as <-.
  assert (Hrj : (<["_NET_arr" := SArr2 b]> (<["_NET_arr" := SArr2 a]> self)
                   : gmap string sval) !! "_NET_arr_RJ" = None).
  { rewrite !lookup_insert_ne by discriminate. exact Hnone. }
  split; [| split; [| split]].
  - exists a. split; [exact Ha |]. apply lookup_insert_eq.
  - exists b. split; [exact Hb |]. apply lookup_insert_eq.
  - exact Hrj.
  - unfold flat, get_array, getattr. rewrite Hrj. reflexivity.
Qed.

(** One observation, one detector: the hypotheses hold, and the stored
    [_NET_arr] ends as the RJ value. *)
Lemma C3_NET_arr_RJ_overwrites_one_by_one :
  exists s2 : gmap string sval,
    s2 !! "_NET_arr" = Some (SArr2 [[2%float]]) /\ s2 !! "_NET_arr_RJ" = None.
Proof.
  pose (ch := bare_channel "Atacama" false).
  pose (s1 := <["_NET_arr" := SArr2 [[8%float]]]> one_by_one).
  pose (s2 := <["_NET_arr" := SArr2 [[2%float]]]> s1).
  destruct (C3_NET_arr_RJ_overwrites_NET_arr spec_NET_arr one_by_one s1 s2 ch)
    as [_ [[b [Hb Hs2]] [Hnone _]]].
  - reflexivity.
  - vm_compute. reflexivity.
  - vm_compute. reflexivity.
  - exists s2. split; [| exact Hnone].
    apply lookup_insert_eq.
Defined.

(** [_sensitivity] ends on [self._map_depth.flatten().lolist()]: whatever
    the collaborators compute, it returns no record. *)
Lemma _sensitivity_returns_nothing
    (NET_from_NEP : float -> list float -> list float -> float -> float)
    (NET_arr : float -> Z -> float -> float)
    (bb_pow_spec : list float -> list float -> list float -> list float)
    (rj_temp : float -> float -> float -> float)
    (trapz : list float -> list float -> float) (sum : list float -> float)
    (Trj_over_Tb : list float -> float -> list float) (Tcmb : float)
    (photon bolo read tot : gmap string sval -> Channel -> result (gmap string sval))
    (self : gmap string sval) (ch : Channel) (record : list (list float)) :
  _sensitivity NET_from_NEP NET_arr bb_pow_spec rj_temp trapz sum Trj_over_Tb Tcmb
    photon bolo read tot self ch <> Ok record.
Proof.
  unfold _sensitivity. intros H.
  repeat (apply bind_Ok_inv in H as [? [_ H]]).
  discriminate H.
Qed.

(** C8, what the code does instead: both comprehensions of
    [_calc_corr_deg] bind [i] and none binds [j], so with at least one
    observation and one detector the first ratio is never formed: the
    method stores no [_corr_deg], and raises NameError on [j] as soon as
    the correlated NET has a first row. *)
Theorem C8_corr_deg_never_formed
    (self : gmap string sval) (ch : Channel) (nobs ndet : Z) :
  self !! "_nobs" = Some (SInt nobs) ->
  self !! "_ndet" = Some (SInt ndet) ->
  (1 <= nobs)%Z -> (1 <= ndet)%Z ->
  (forall s', _calc_corr_deg self ch <> Ok s')
  /\ (forall corr row,
        self !! "_NET_corr" = Some (SArr2 corr) -> corr !! 0%nat = Some row ->
        _calc_corr_deg self ch = Raise (NameError "j")).
Proof.
  intros Hnobs Hndet Hpos1 Hpos2.
  destruct (range_of_positive self "_nobs" nobs Hnobs Hpos1) as [obs Hobs].
  destruct (range_of_positive self "_ndet" ndet Hndet Hpos2) as [dets Hdets].
  assert (Hj : forall v w : Z,
             load_name (<["i" := v]> (<["i" := w]> (∅ : gmap string Z))) "j"
             = Raise (NameError "j")).
  { intros v w. unfold load_name.
    rewrite !lookup_insert_ne by discriminate. rewrite lookup_empty. reflexivity. }
  assert (Hi : forall v w : Z,
             load_name (<["i" := v]> (<["i" := w]> (∅ : gmap string Z))) "i" = Ok v).
  { intros v w. unfold load_name. rewrite lookup_insert_eq. reflexivity. }
  unfold _calc_corr_deg. rewrite Hobs. simpl bind. simpl comprehension.
  rewrite Hdets. simpl bind. simpl comprehension. rewrite Hi, Hj.
  split.
  - intros s' H.
    destruct (get_array self "_NET_corr") as [corr|e]; simpl in H; [| discriminate].
    destruct (py_getitem corr 0) as [row|e]; simpl in H; discriminate.
  - intros corr row Hcorr Hrow.
    unfold get_array, getattr. rewrite Hcorr. simpl.
    unfold py_getitem, py_index.
    destruct corr as [|r0 corr']; [discriminate |].
    simpl. reflexivity.
Qed.

(** One observation, one detector with NET 4 and correlated NET 8: the
    ratio 2 is not stored, the method raises. *)
Lemma C8_corr_deg_never_formed_one_by_one :
  _calc_corr_deg one_by_one (bare_channel "Atacama" false) = Raise (NameError "j").
Proof.
  destruct (C8_corr_deg_never_formed one_by_one (bare_channel "Atacama" false) 1 1)
    as [_ H].
  - reflexivity.
  - reflexivity.
  - lia.
  - lia.
  - apply (H [[8%float]] [8%float]); reflexivity.
Defined.

End SensitivityFacts.

(* ===================================================================== *)
(** * Properties of the Parameter engine *)
(* ===================================================================== *)

Section ParameterFacts.

Context {rt : PyRuntime}.

(** ** Parameters without average *)

(** What [_store_param] leaves in the attributes, kind by kind. *)
Lemma _store_param_kinds (self p : Param) (inp : pinput) :
  _store_param self inp = Ok p ->
  match _type self with
  | TStr | TList | TBool =>
      _val p <> VNone /\ _avg p = VNone /\ _med p = VNone /\ _std p = VNone
  | TInt =>
      exists z, _val p = VNone /\ _avg p = VInt z /\ _med p = VInt z
                /\ _std p = VFloat 0%float /\ _mult_bands p = Some false
  | _ => True
  end.
Proof.
  unfold _store_param. destruct (_type self) eqn:Ht; intros H.
  - (* bool *)
    unfold _store_bool in H.
    destruct inp as [[]| |]; try discriminate H.
    destruct (negb _ && negb _); [discriminate H |].
    injection H as <-. simpl. repeat split; discriminate.
  - (* int *)
    unfold _store_int in H.
    destruct (int_of_input inp) as [z|[]]; try discriminate H.
    injection H as <-. simpl. exists z. repeat split.
  - exact I.
  - (* str *)
    unfold _store_str in H.
    destruct inp as [v| |]; try discriminate H.
    destruct (py_str v) as [s|]; [| discriminate H].
    injection H as <-. simpl. repeat split; discriminate.
  - (* list *)
    unfold _store_list in H.
    destruct inp as [[]| |]; try discriminate H.
    destruct (py_eval s) as [v|]; [| discriminate H].
    simpl in H. destruct v; simpl in H; try discriminate H.
    injection H as <-. simpl. repeat split; discriminate.
  - discriminate H.
Qed.

(** The constructor returns what [_store_param] built. *)
Lemma __init___inv (a : init_args) (p : Param) :
  __init__ a = Ok p ->
  exists self, _type self = declared_kind a
               /\ _store_param self (arg_inp a) = Ok p.
Proof.
  unfold __init__, declared_kind. intros H.
  apply bind_Ok_inv in H as [self [Hself H]].
  apply bind_Ok_inv in H as [p' [Hstore H]].
  apply bind_Ok_inv in H as [_ [_ H]]. injection H as ->.
  exists self. split; [| exact Hstore].
  destruct (arg_std_param a) as [sp|].
  - injection Hself as <-. reflexivity.
  - apply bind_Ok_inv in Hself as [lo [_ Hself]].
    apply bind_Ok_inv in Hself as [hi [_ Hself]].
    injection Hself as <-. reflexivity.
Qed.

(** C4, as the code has it: a constructed Parameter of string, list or
    boolean kind has a value and no average, and [fetch] returns
    [(value, value, "NA")] for every band; one of integer kind stores the
    integer as average and median with a zero standard deviation, and
    [fetch] returns [(n, n, 0.0)]. *)
Theorem C4_fetch_by_kind (a : init_args) (p : Param) (band_id : Z) :
  __init__ a = Ok p ->
  match declared_kind a with
  | TStr | TList | TBool =>
      get_val p <> VNone /\ fetch p band_id = Ok (get_val p, get_val p, VStr "NA")
  | TInt => exists n, fetch p band_id = Ok (VInt n, VInt n, VFloat 0%float)
  | _ => True
  end.
Proof.
  intros H. apply __init___inv in H as [self [Ht Hstore]].
  apply _store_param_kinds in Hstore. rewrite Ht in Hstore.
  unfold fetch, get_val.
  destruct (declared_kind a); try exact I.
  - destruct Hstore as [Hv [Ha _]]. split; [exact Hv |].
    rewrite Ha. destruct (_val p); try reflexivity. contradiction.
  - destruct Hstore as [z [Hv [Ha [Hm [Hs Hmb]]]]]. exists z.
    rewrite Hv, Ha, Hm, Hs. unfold get_mult_bands. rewrite Hmb. reflexivity.
  - destruct Hstore as [Hv [Ha _]]. split; [exact Hv |].
    rewrite Ha. destruct (_val p); try reflexivity. contradiction.
  - destruct Hstore as [Hv [Ha _]]. split; [exact Hv |].
    rewrite Ha. destruct (_val p); try reflexivity. contradiction.
Qed.

(** ** The sentinel *)

Lemma NA_text_facts :
  PyStr.contains _spread_delim "NA" = false
  /\ PyStr.upper (PyStr.strip "NA") = "NA"%string
  /\ in_strs "NA" _float_str_vals = true.
Proof. repeat split. Qed.

(** What the constructor stores for the literal NA. *)
Lemma _store_float_str_NA (self : Param) :
  float_of_str "NA" = None ->
  eval_float_array "NA" = None ->
  _store_float_str self "NA" =
    Ok (set_std (VRef (length (store self)))
          (set_store (store self ++ [OArr [0%float; 0%float]])
             (set_med (VStr "NA") (set_avg (VStr "NA")
                (set_mult_bands false (set_val VNone self)))))).
Proof.
  intros Hfloat Heval.
  destruct NA_text_facts as [Hdelim [Hup Hin]].
  unfold _store_float_str. rewrite Hdelim.
  unfold _float, py_float. rewrite Hfloat, Heval, Hup, Hin.
  reflexivity.
Qed.

(** C6, as the code has it: a float Parameter constructed from the literal
    NA returns the string NA from every call of [sample], whatever the
    arguments, and as the average and as the median of every [fetch]. *)
Theorem C6_NA_is_sampled_and_fetched_as_NA (a : init_args) (p : Param) :
  float_of_str "NA" = None ->
  eval_float_array "NA" = None ->
  declared_kind a = TFloat ->
  arg_inp a = InVal (VStr "NA") ->
  __init__ a = Ok p ->
  (forall band_id nsample min max null,
      sample p band_id nsample min max null = Ok (VStr "NA", p))
  /\ (forall band_id, exists std,
        fetch p band_id = Ok (VStr "NA", VStr "NA", std)).
Proof.
  intros Hfloat Heval Hkind Hinp Hinit.
  apply __init___inv in Hinit as [self [Ht Hstore]].
  rewrite Hkind in Ht. rewrite Hinp in Hstore.
  unfold _store_param in Hstore. rewrite Ht in Hstore.
  unfold _store_float in Hstore.
  rewrite _store_float_str_NA in Hstore by assumption.
  injection Hstore as <-.
  destruct NA_text_facts as [_ [Hup _]].
  split.
  - intros band_id nsample min max null.
    unfold sample, _is_empty. simpl. rewrite Hup. reflexivity.
  - intros band_id. eexists. unfold fetch. simpl. reflexivity.
Qed.

End ParameterFacts.

(** C4, for a site name. *)
Lemma C4_fetch_by_kind_site_name :
  exists p, @__init__ Ref.runtime (literal_args TStr "Atacama") = Ok p
            /\ fetch p 7 = Ok (VStr "Atacama", VStr "Atacama", VStr "NA").
Proof.
  destruct (@__init__ Ref.runtime (literal_args TStr "Atacama")) as [p|e] eqn:Hp;
    [| vm_compute in Hp; discriminate Hp].
  exists p. split; [reflexivity |].
  pose proof (@C4_fetch_by_kind Ref.runtime (literal_args TStr "Atacama") p 7 Hp) as H.
  simpl in H. destruct H as [_ H].
  vm_compute in Hp. injection Hp as <-. exact H.
Defined.

(** C4, as the spec words it for the integer kind, fails: the parameter
    built from "3" is fetched with the standard deviation 0.0, not with
    the string NA. *)
Lemma C4_integer_kind_has_zero_std :
  ~ (forall p, @__init__ Ref.runtime (literal_args TInt "3") = Ok p ->
               exists value, fetch p 1 = Ok (value, value, VStr "NA")).
Proof.
  intros H.
  destruct (@__init__ Ref.runtime (literal_args TInt "3")) as [p|e] eqn:Hp;
    [| vm_compute in Hp; discriminate Hp].
  destruct (H p eq_refl) as [value Hv].
  vm_compute in Hp. injection Hp as <-.
  vm_compute in Hv. discriminate Hv.
Qed.

(** What [fetch] gives for the integer of that example. *)
Lemma fetch_of_integer_3 :
  bind (@__init__ Ref.runtime (literal_args TInt "3")) (fun p => fetch p 1)
  = Ok (VInt 3, VInt 3, VFloat 0).
Proof. vm_compute. reflexivity. Qed.

(** C6, on the reference runtime. *)
Lemma C6_NA_is_sampled_and_fetched_as_NA_ref :
  exists p, @__init__ Ref.runtime (literal_args TFloat "NA") = Ok p
            /\ @sample Ref.runtime p 1 3 None None false = Ok (VStr "NA", p).
Proof.
  destruct (@__init__ Ref.runtime (literal_args TFloat "NA")) as [p|e] eqn:Hp;
    [| vm_compute in Hp; discriminate Hp].
  exists p. split; [reflexivity |].
  destruct (@C6_NA_is_sampled_and_fetched_as_NA Ref.runtime
              (literal_args TFloat "NA") p) as [H _].
  - reflexivity.
  - reflexivity.
  - reflexivity.
  - reflexivity.
  - exact Hp.
  - apply H.
Defined.

(** C6, as the spec words it for every component of [fetch], fails: the
    standard deviation of the parameter built from NA is an array of
    zeros, not the string NA. *)
Lemma C6_std_of_NA_is_not_NA :
  ~ (forall p, @__init__ Ref.runtime (literal_args TFloat "NA") = Ok p ->
               fetch p 1 = Ok (VStr "NA", VStr "NA", VStr "NA")).
Proof.
  intros H.
  destruct (@__init__ Ref.runtime (literal_args TFloat "NA")) as [p|e] eqn:Hp;
    [| vm_compute in Hp; discriminate Hp].
  specialize (H p eq_refl).
  vm_compute in Hp. injection Hp as <-.
  vm_compute in H. discriminate H.
Qed.

(** What the constructor stores for NA, and what [fetch] gives: the
    standard deviation is the array [np.zeros(len("NA"))]. *)
Lemma fetch_of_NA :
  exists p,
    @__init__ Ref.runtime (literal_args TFloat "NA") = Ok p
    /\ fetch p 1 = Ok (VStr "NA", VStr "NA", VRef 0)
    /\ store p = [OArr [0; 0]%float].
Proof.
  eexists. split; [vm_compute; reflexivity |]. split; reflexivity.
Qed.

(** ** Per-band literals *)

(** C5, what the code does instead: the literal path of the constructor
    never compares the two lengths.  The literal with three means and two
    standard deviations is accepted: the parameter is constructed, marked
    multi-band, with an average of length 3 and a standard deviation of
    length 2, and fetching the third band raises IndexError. *)
Theorem C5_unequal_lengths_are_accepted :
  exists p,
    @__init__ Ref.runtime (literal_args TFloat "[1,2,3] +/- [0.1,0.2]") = Ok p
    /\ _mult_bands p = Some true
    /\ py_len p (_avg p) = Ok 3%nat
    /\ py_len p (_std p) = Ok 2%nat
    /\ fetch p 2 = Ok (VFloat 2, VFloat 2, VFloat 0.2)
    /\ fetch p 3 = Raise IndexError.
Proof.
  eexists. split; [vm_compute; reflexivity |].
  repeat split.
Qed.

(** The sibling path, [_store_float_tuple] with a distribution dictionary,
    does compare them and aborts. *)
Lemma optic_path_rejects_unequal_lengths :
  @__init__ Ref.runtime (optic_args "[1,2,3] +/- [0.1,0.2]")
  = Raise (Fatal "mean and std value lists not the same length").
Proof. vm_compute. reflexivity. Qed.

(** ** The median under [change] *)

(** C10, what the code does instead: [_store_float_str] binds [_med] to
    the very array [_avg] is bound to, and [change] writes the new average
    into that array; for the parameter built from "[1,2] +/- [0.1,0.2]" the
    median of band 1 is 1 before [change(5.0)] and 5 after it, although
    the attribute [_med] itself was not assigned. *)
Theorem C10_change_moves_the_aliased_median :
  exists p p',
    @__init__ Ref.runtime (literal_args TFloat "[1,2] +/- [0.1,0.2]") = Ok p
    /\ get_med p 1 = Ok (VFloat 1)
    /\ @change Ref.runtime p (VFloat 5) None 1 = Ok (true, p')
    /\ _med p' = _med p
    /\ _med p' = _avg p'
    /\ get_med p' 1 = Ok (VFloat 5).
Proof.
  eexists. eexists. split; [vm_compute; reflexivity |].
  split; [vm_compute; reflexivity |].
  split; [vm_compute; reflexivity |].
  repeat split.
Qed.

(** The sibling path: the lists [_store_float_tuple] builds for an optic
    are four objects, and there [change] leaves the median alone. *)
Lemma optic_path_keeps_the_median :
  exists p p',
    @__init__ Ref.runtime (optic_args "[1,2] +/- [0.1,0.2]") = Ok p
    /\ get_med p 1 = Ok (VFloat 1)
    /\ @change Ref.runtime p (VFloat 5) None 1 = Ok (true, p')
    /\ get_med p' 1 = Ok (VFloat 1).
Proof.
  eexists. eexists. split; [vm_compute; reflexivity |].
  split; [vm_compute; reflexivity |].
  split; [vm_compute; reflexivity |].
  vm_compute. reflexivity.
Qed.

(** ** Sampling and clamping *)

Section SamplingFacts.

Context {rt : PyRuntime}.

(** [sample] on a band backed by a gaussian of positive spread: the draw,
    then the two clamps. *)
Lemma sample_gaussian (p : Param) (band_id nsample : Z) (min max : option float)
    (null : bool) (avg std : float) (med : pyval) :
  _is_empty p 1 = Ok false ->
  (forall d, _val p <> VDist d) ->
  fetch p band_id = Ok (VFloat avg, med, VFloat std) ->
  (std <=? 0)%float = false ->
  sample p band_id nsample min max null =
    bind (normal_array (if null then 0%float else avg) std nsample) (fun arr =>
    bind (if (nsample =? 1)%Z
          then bind (py_getitem arr 0) (fun x => Ok (Scalar x))
          else Ok (Array arr)) (fun samp =>
    bind (below_min samp (passed_or_stored min (_min p))) (fun lo =>
    if lo then Ok (VFloat (default 0%float (passed_or_stored min (_min p))), p)
    else bind (above_max samp (passed_or_stored max (_max p))) (fun hi =>
         if hi then Ok (VFloat (default 0%float (passed_or_stored max (_max p))), p)
         else Ok (return_drawn p samp))))).
Proof.
  intros Hne Hnd Hfetch Hstd.
  unfold sample. rewrite Hne. simpl bind.
  assert (Hbody : forall A (k : result A) (f : Distribution -> result A),
            match _val p with VDist d => f d | _ => k end = k).
  { intros A k f. destruct (_val p) eqn:E; try reflexivity. exfalso. eapply Hnd; eauto. }
  assert (Hlit : negb (is_none (_val p)) && is_none (_avg p) = false).
  { destruct (negb (is_none (_val p)) && is_none (_avg p)) eqn:E; [| reflexivity].
    unfold fetch in Hfetch. rewrite E in Hfetch. discriminate Hfetch. }
  rewrite Hbody. cbv zeta. rewrite Hlit. rewrite Hfetch. simpl bind. simpl fst. simpl snd.
  unfold std_is_NA_or_not_positive. rewrite Hstd. simpl bind.
  destruct null; reflexivity.
Qed.

(** An array of two draws or more has no truth value against a bound. *)
Lemma normal_array_many (avg std : float) (nsample : Z) :
  (1 < nsample)%Z ->
  exists x y rest, normal_array avg std nsample = Ok (x :: y :: rest).
Proof.
  intros Hn. unfold normal_array.
  destruct (nsample <? 0)%Z eqn:E; [lia |].
  destruct (Z.to_nat nsample) as [|[|n]] eqn:Hnat; [lia | lia |].
  simpl. eauto.
Qed.

Lemma normal_array_one (avg std : float) :
  normal_array avg std 1 = Ok [np_random_normal avg std 1 0].
Proof. reflexivity. Qed.

(** C9: on a band backed by a gaussian of positive standard deviation,
    with a minimum or a maximum in force (passed to the call, or stored at
    construction), drawing more than one sample raises ValueError: the
    array is compared with the bound in a condition.  Drawing one sample
    returns the minimum when the draw is below it, and the maximum when the
    draw is above it and was not already clamped to the minimum; with one
    sample the call always returns a float. *)
Theorem C9_clamping_needs_a_single_draw
    (p : Param) (band_id nsample : Z) (min max : option float)
    (null : bool) (avg std : float) (med : pyval) :
  _is_empty p 1 = Ok false ->
  (forall d, _val p <> VDist d) ->
  fetch p band_id = Ok (VFloat avg, med, VFloat std) ->
  (std <=? 0)%float = false ->
  let lo := passed_or_stored min (_min p) in
  let hi := passed_or_stored max (_max p) in
  let draw := np_random_normal (if null then 0%float else avg) std 1 0 in
  ((1 < nsample)%Z -> lo <> None \/ hi <> None ->
     sample p band_id nsample min max null = Raise ValueError)
  /\ (forall m, nsample = 1%Z -> lo = Some m -> (draw <? m)%float = true ->
        sample p band_id nsample min max null = Ok (VFloat m, p))
  /\ (forall M, nsample = 1%Z -> hi = Some M -> (M <? draw)%float = true ->
        (forall m, lo = Some m -> (draw <? m)%float = false) ->
        sample p band_id nsample min max null = Ok (VFloat M, p))
  /\ (nsample = 1%Z ->
        exists x, sample p band_id nsample min max null = Ok (VFloat x, p)).
Proof.
  intros Hne Hnd Hfetch Hstd lo hi draw.
  rewrite (sample_gaussian p band_id nsample min max null avg std med) by assumption.
  fold lo. fold hi.
  split; [| split; [| split]].
  - intros Hn Hbound.
    destruct (normal_array_many (if null then 0%float else avg) std nsample Hn)
      as [x [y [rest Harr]]].
    rewrite Harr. simpl bind.
    replace (nsample =? 1)%Z with false by lia. simpl bind.
    destruct lo as [m|]; simpl; [reflexivity |].
    destruct hi as [M|]; simpl; [reflexivity |].
    destruct Hbound as [H|H]; contradiction.
  - intros m -> Hlo Hdraw.
    rewrite normal_array_one. simpl. rewrite Hlo. simpl.
    fold draw. rewrite Hdraw. reflexivity.
  - intros M -> Hhi Hdraw Hmin.
    rewrite normal_array_one. simpl. rewrite Hhi. fold draw.
    destruct lo as [m|]; simpl.
    + rewrite (Hmin m eq_refl). simpl. rewrite Hdraw. reflexivity.
    + rewrite Hdraw. reflexivity.
  - intros ->. rewrite normal_array_one. simpl. fold draw.
    destruct lo as [m|]; simpl.
    + destruct (draw <? m)%float; [eauto |].
      destruct hi as [M|]; simpl; [destruct (M <? draw)%float |]; eauto.
    + destruct hi as [M|]; simpl; [destruct (M <? draw)%float |]; eauto.
Qed.

End SamplingFacts.

(** ** Committing a new value *)

Section ChangeFacts.

Context {rt : PyRuntime}.

Lemma py_getitem_setitem {A : Type} (l l' : list A) (i : Z) (x : A) :
  py_setitem l i x = Ok l' -> py_getitem l' i = Ok x.
Proof.
  unfold py_setitem, py_getitem. intros H.
  destruct (py_index (length l) i) as [k|] eqn:Hk; [| discriminate H].
  injection H as <-. rewrite length_insert, Hk.
  assert (Hlt : (k < length l)%nat).
  { unfold py_index in Hk.
    destruct ((0 <=? i)%Z && (i <? Z.of_nat (length l))%Z) eqn:E1.
    - injection Hk as <-. lia.
    - destruct ((i <? 0)%Z && (- Z.of_nat (length l) <=? i)%Z) eqn:E2; [| discriminate Hk].
      injection Hk as <-. lia. }
  rewrite list_lookup_insert_eq by exact Hlt. reflexivity.
Qed.

(** [seq[i] = x] assigns no attribute. *)
Lemma setitem_attributes (p p' : Param) (v x : pyval) (i : Z) :
  setitem p v i x = Ok p' ->
  unit p' = unit p /\ _val p' = _val p /\ _avg p' = _avg p /\ _med p' = _med p
  /\ _std p' = _std p /\ _mult_bands p' = _mult_bands p.
Proof.
  unfold setitem. intros H.
  destruct v; try discriminate H.
  destruct (store p !! l) as [[a|items]|]; try discriminate H.
  - apply bind_Ok_inv in H as [f [_ H]]. apply bind_Ok_inv in H as [a' [_ H]].
    injection H as <-. repeat split.
  - apply bind_Ok_inv in H as [items' [_ H]].
    injection H as <-. repeat split.
Qed.

(** The item just written is the item read. *)
Lemma subscript_setitem_same (p p' : Param) (v : pyval) (i : Z) (x : float) :
  setitem p v i (VFloat x) = Ok p' ->
  subscript p' v i = Ok (VFloat x).
Proof.
  unfold setitem, subscript. intros H.
  destruct v; try discriminate H.
  destruct (store p !! l) as [[a|items]|] eqn:Hl; try discriminate H.
  - simpl in H. apply bind_Ok_inv in H as [a' [Ha H]].
    injection H as <-. simpl.
    rewrite list_lookup_insert_eq by (eapply lookup_lt_Some; eauto).
    rewrite (py_getitem_setitem _ _ _ _ Ha). reflexivity.
  - apply bind_Ok_inv in H as [items' [Ha H]].
    injection H as <-. simpl.
    rewrite list_lookup_insert_eq by (eapply lookup_lt_Some; eauto).
    apply (py_getitem_setitem _ _ _ _ Ha).
Qed.

(** Writing into one object leaves the items of every other object. *)
Lemma subscript_setitem_other (p p' : Param) (v w x : pyval) (i j : Z) :
  setitem p v i x = Ok p' ->
  (forall l, v = VRef l -> w <> VRef l) ->
  subscript p' w j = subscript p w j.
Proof.
  unfold setitem. intros H Hne.
  destruct v; try discriminate H.
  assert (Hstore : forall l', l' <> l -> store p' !! l' = store p !! l').
  { intros l' Hl'.
    destruct (store p !! l) as [[a|items]|]; try discriminate H.
    - apply bind_Ok_inv in H as [f [_ H]]. apply bind_Ok_inv in H as [a' [_ H]].
      injection H as <-. simpl. apply list_lookup_insert_ne. congruence.
    - apply bind_Ok_inv in H as [items' [_ H]].
      injection H as <-. simpl. apply list_lookup_insert_ne. congruence. }
  unfold subscript. destruct w; try reflexivity.
  rewrite Hstore; [reflexivity |].
  intros ->. apply (Hne l eq_refl). reflexivity.
Qed.



(** The float branch of [change] on a slot that holds a value is the
    comparison and commit of the average, then of the standard deviation
    when one is passed. *)
Lemma change_float_slot_spec (p : Param) (mb : bool) (x : float)
    (new_std : option float) (band_id : Z) :
  change_float_slot p mb x new_std band_id =
    bind (commit_if_differs AvgSlot mb band_id p x) (fun r1 =>
    match new_std with
    | Some s =>
        bind (commit_if_differs StdSlot mb band_id (snd r1) (to_SI (unit p) s))
          (fun r2 => Ok (fst r1 || fst r2, snd r2))
    | None => Ok r1
    end).
Proof.
  unfold change_float_slot, commit_if_differs, stored_sig_figs, stored, commit,
    slot_attr.
  destruct mb.
  - destruct (_sig_figs (VFloat x) 5) as [a|]; [cbn [bind] | reflexivity].
    destruct (subscript p (_avg p) (band_id - 1)) as [cur|]; [cbn [bind] | reflexivity].
    destruct (_sig_figs_item p (_avg p) cur 5) as [b|]; [cbn [bind] | reflexivity].
    destruct (float_ne a b); cbn [bind fst snd].
    + destruct (setitem p (_avg p) (band_id - 1) (VFloat x)) as [p1|];
        [cbn [bind fst snd] | reflexivity].
      destruct new_std as [s|]; [| reflexivity].
      destruct (_sig_figs (VFloat (to_SI (unit p) s)) 5) as [c|];
        [cbn [bind] | reflexivity].
      destruct (subscript p1 (_std p1) (band_id - 1)) as [cur_s|];
        [cbn [bind] | reflexivity].
      destruct (_sig_figs_item p1 (_std p1) cur_s 5) as [d|]; [cbn [bind] | reflexivity].
      destruct (float_ne c d); cbn [bind fst snd]; [| reflexivity].
      destruct (setitem p1 (_std p1) (band_id - 1) _); reflexivity.
    + destruct new_std as [s|]; [| reflexivity].
      destruct (_sig_figs (VFloat (to_SI (unit p) s)) 5) as [c|];
        [cbn [bind] | reflexivity].
      destruct (subscript p (_std p) (band_id - 1)) as [cur_s|];
        [cbn [bind] | reflexivity].
      destruct (_sig_figs_item p (_std p) cur_s 5) as [d|]; [cbn [bind] | reflexivity].
      destruct (float_ne c d); cbn [bind fst snd]; [| reflexivity].
      destruct (setitem p (_std p) (band_id - 1) _); reflexivity.
  - destruct (_sig_figs (VFloat x) 5) as [a|]; [cbn [bind] | reflexivity].
    destruct (_sig_figs (_avg p) 5) as [b|]; [cbn [bind] | reflexivity].
    destruct (float_ne a b); cbn [bind fst snd _std set_avg].
    + destruct new_std as [s|]; [| reflexivity].
      destruct (_sig_figs (VFloat (to_SI (unit p) s)) 5) as [c|];
        [cbn [bind] | reflexivity].
      destruct (_sig_figs (_std p) 5) as [d|]; [cbn [bind] | reflexivity].
      destruct (float_ne c d); reflexivity.
    + destruct new_std as [s|]; [| reflexivity].
      destruct (_sig_figs (VFloat (to_SI (unit p) s)) 5) as [c|];
        [cbn [bind] | reflexivity].
      destruct (_sig_figs (_std p) 5) as [d|]; [cbn [bind] | reflexivity].
      destruct (float_ne c d); reflexivity.
Qed.

(** A commit assigns nothing but the slot. *)
Lemma commit_frame (sl : slot) (mb : bool) (band_id : Z) (p p' : Param) (x : float) :
  commit sl mb band_id p x = Ok p' ->
  unit p' = unit p /\ _mult_bands p' = _mult_bands p /\ _val p' = _val p
  /\ (mb = true -> _avg p' = _avg p /\ _std p' = _std p /\ _med p' = _med p).
Proof.
  unfold commit. destruct mb.
  - intros H. apply setitem_attributes in H as [Hu [Hv [Ha [Hm [Hs Hmb]]]]].
    repeat split; assumption.
  - intros H. injection H as <-. destruct sl; repeat split; discriminate.
Qed.

(** What was committed is what is stored. *)
Lemma stored_commit_same (sl : slot) (mb : bool) (band_id : Z) (p p' : Param) (x : float) :
  commit sl mb band_id p x = Ok p' ->
  stored sl mb band_id p' = Ok (VFloat x).
Proof.
  unfold commit, stored. destruct mb.
  - intros H. pose proof (setitem_attributes _ _ _ _ _ H) as [_ [_ [Ha [_ [Hs _]]]]].
    apply subscript_setitem_same in H.
    destruct sl; simpl in *; [rewrite Ha | rewrite Hs]; exact H.
  - intros H. injection H as <-. destruct sl; reflexivity.
Qed.

(** A commit into one slot leaves what the other slot stores. *)
Lemma stored_commit_other (sl : slot) (mb : bool) (band_id : Z) (p p' : Param) (x : float) :
  slots_apart p ->
  commit sl mb band_id p x = Ok p' ->
  stored (other sl) mb band_id p' = stored (other sl) mb band_id p.
Proof.
  unfold commit, stored, slots_apart. intros Hapart. destruct mb.
  - intros H. pose proof (setitem_attributes _ _ _ _ _ H) as [_ [_ [Ha [_ [Hs _]]]]].
    destruct sl; simpl in *.
    + rewrite Hs. eapply subscript_setitem_other; [exact H |].
      intros l Hl. apply Hapart. exact Hl.
    + rewrite Ha. eapply subscript_setitem_other; [exact H |].
      intros l Hl Hl'. apply (Hapart l); assumption.
  - intros H. injection H as <-. destruct sl; reflexivity.
Qed.

Lemma slots_apart_commit (sl : slot) (mb : bool) (band_id : Z) (p p' : Param) (x : float) :
  slots_apart p ->
  commit sl mb band_id p x = Ok p' ->
  slots_apart p'.
Proof.
  unfold commit, slots_apart. intros Hapart. destruct mb.
  - intros H. apply setitem_attributes in H as [_ [_ [Ha [_ [Hs _]]]]].
    rewrite Ha, Hs. exact Hapart.
  - intros H. injection H as <-. destruct sl; simpl.
    + intros l Hl. discriminate Hl.
    + intros l _ Hl. discriminate Hl.
Qed.

(** [seq[i] = x] leaves every object the kind it has. *)
Lemma is_ndarray_setitem (p p' : Param) (v w x : pyval) (i : Z) :
  setitem p v i x = Ok p' -> is_ndarray p' w = is_ndarray p w.
Proof.
  unfold setitem. intros H.
  destruct v; try discriminate H.
  destruct (store p !! l) as [[a|items]|] eqn:Hl; try discriminate H.
  - apply bind_Ok_inv in H as [f [_ H]]. apply bind_Ok_inv in H as [a' [_ H]].
    injection H as <-. unfold is_ndarray. destruct w; try reflexivity.
    cbn [store set_store].
    destruct (decide (l0 = l)) as [->|Hne].
    + rewrite list_lookup_insert_eq by (eapply lookup_lt_Some; eauto).
      rewrite Hl. reflexivity.
    + rewrite list_lookup_insert_ne by congruence. reflexivity.
  - apply bind_Ok_inv in H as [items' [_ H]].
    injection H as <-. unfold is_ndarray. destruct w; try reflexivity.
    cbn [store set_store].
    destruct (decide (l0 = l)) as [->|Hne].
    + rewrite list_lookup_insert_eq by (eapply lookup_lt_Some; eauto).
      rewrite Hl. reflexivity.
    + rewrite list_lookup_insert_ne by congruence. reflexivity.
Qed.

(** A slot of Python floats stays one through every commit. *)
Lemma python_floats_commit (sl sl' : slot) (mb : bool) (band_id : Z)
    (p p' : Param) (x : float) :
  commit sl mb band_id p x = Ok p' -> python_floats sl' p -> python_floats sl' p'.
Proof.
  unfold commit, python_floats. destruct mb.
  - intros H Hpy.
    pose proof (setitem_attributes _ _ _ _ _ H) as [_ [_ [Ha [_ [Hs _]]]]].
    rewrite (is_ndarray_setitem _ _ _ (slot_attr sl' p') _ _ H).
    destruct sl'; cbn [slot_attr] in *; [rewrite Ha | rewrite Hs]; exact Hpy.
  - intros H Hpy. injection H as <-.
    destruct sl, sl'; try reflexivity; exact Hpy.
Qed.

(** The value of a slot of Python floats is rounded by the builtin. *)
Lemma stored_sig_figs_python_floats (sl : slot) (mb : bool) (p : Param) (cur : pyval) :
  python_floats sl p -> stored_sig_figs sl mb p cur = _sig_figs cur 5.
Proof.
  unfold python_floats, stored_sig_figs, _sig_figs_item. intros ->.
  destruct mb; destruct cur; reflexivity.
Qed.

Lemma stored_sig_figs_Ok_float (sl : slot) (mb : bool) (p : Param) (v : pyval)
    (c : float) :
  stored_sig_figs sl mb p v = Ok c -> exists f, v = VFloat f.
Proof.
  unfold stored_sig_figs, _sig_figs_item.
  destruct v; try (destruct mb; simpl; intros H; discriminate H). eauto.
Qed.

Lemma float_ne_same (x : float) : is_nan x = false -> float_ne x x = false.
Proof.
  unfold float_ne, is_nan. destruct (x =? x)%float; simpl; congruence.
Qed.

(** Comparing and committing twice in a slot of Python floats: the second
    time nothing differs. *)
Lemma commit_if_differs_twice (sl : slot) (mb : bool) (band_id : Z)
    (p p' : Param) (x : float) (b : bool) :
  commit_if_differs sl mb band_id p x = Ok (b, p') ->
  python_floats sl p ->
  (forall a, _sig_figs (VFloat x) 5 = Ok a -> is_nan a = false) ->
  commit_if_differs sl mb band_id p' x = Ok (false, p').
Proof.
  unfold commit_if_differs. intros H Hpy Hnan.
  destruct (_sig_figs (VFloat x) 5) as [a|] eqn:Ha; [cbn [bind] in * | discriminate H].
  destruct (stored sl mb band_id p) as [cur|] eqn:Hcur; [cbn [bind] in H | discriminate H].
  rewrite (stored_sig_figs_python_floats _ _ _ _ Hpy) in H.
  destruct (_sig_figs cur 5) as [c|] eqn:Hc; [cbn [bind] in H | discriminate H].
  destruct (float_ne a c) eqn:Hne.
  - apply bind_Ok_inv in H as [p1 [Hp1 H]]. injection H as _ <-.
    rewrite (stored_commit_same _ _ _ _ _ _ Hp1). cbn [bind].
    rewrite (stored_sig_figs_python_floats _ _ _ _
               (python_floats_commit _ _ _ _ _ _ _ Hp1 Hpy)).
    rewrite Ha. cbn [bind].
    rewrite float_ne_same by (apply Hnan; reflexivity). reflexivity.
  - injection H as _ <-. rewrite Hcur. cbn [bind].
    rewrite (stored_sig_figs_python_floats _ _ _ _ Hpy), Hc. cbn [bind].
    rewrite Hne. reflexivity.
Qed.

(** A comparison that found no difference finds none wherever the slot
    stores the same value. *)
Lemma commit_if_differs_transfer (sl : slot) (mb : bool) (band_id : Z)
    (p q : Param) (x : float) :
  commit_if_differs sl mb band_id p x = Ok (false, p) ->
  stored sl mb band_id q = stored sl mb band_id p ->
  python_floats sl p -> python_floats sl q ->
  commit_if_differs sl mb band_id q x = Ok (false, q).
Proof.
  unfold commit_if_differs. intros H Hq Hp Hpq. rewrite Hq.
  destruct (_sig_figs (VFloat x) 5) as [a|]; [cbn [bind] in * | discriminate H].
  destruct (stored sl mb band_id p) as [cur|]; [cbn [bind] in * | discriminate H].
  rewrite (stored_sig_figs_python_floats _ _ _ _ Hp) in H.
  rewrite (stored_sig_figs_python_floats _ _ _ _ Hpq).
  destruct (_sig_figs cur 5) as [c|]; [cbn [bind] in * | discriminate H].
  destruct (float_ne a c); [| reflexivity].
  apply bind_Ok_inv in H as [p1 [_ H]]. discriminate H.
Qed.

Lemma commit_if_differs_frame (sl : slot) (mb : bool) (band_id : Z)
    (p p' : Param) (x : float) (b : bool) :
  commit_if_differs sl mb band_id p x = Ok (b, p') ->
  unit p' = unit p /\ _mult_bands p' = _mult_bands p
  /\ (slots_apart p -> slots_apart p'
        /\ stored (other sl) mb band_id p' = stored (other sl) mb band_id p).
Proof.
  unfold commit_if_differs. intros H.
  destruct (_sig_figs (VFloat x) 5) as [a|]; [cbn [bind] in * | discriminate H].
  destruct (stored sl mb band_id p) as [cur|]; [cbn [bind] in * | discriminate H].
  destruct (stored_sig_figs sl mb p cur) as [c|]; [cbn [bind] in * | discriminate H].
  destruct (float_ne a c).
  - apply bind_Ok_inv in H as [p1 [Hp1 H]]. injection H as _ <-.
    pose proof (commit_frame _ _ _ _ _ _ Hp1) as [Hu [Hmb _]].
    repeat split; try assumption.
    + eapply slots_apart_commit; eauto.
    + eapply stored_commit_other; eauto.
  - injection H as _ <-. repeat split; auto.
Qed.

Lemma commit_if_differs_python_floats (sl sl' : slot) (mb : bool) (band_id : Z)
    (p p' : Param) (x : float) (b : bool) :
  commit_if_differs sl mb band_id p x = Ok (b, p') ->
  python_floats sl' p -> python_floats sl' p'.
Proof.
  unfold commit_if_differs. intros H Hpy.
  destruct (_sig_figs (VFloat x) 5) as [a|]; [cbn [bind] in * | discriminate H].
  destruct (stored sl mb band_id p) as [cur|]; [cbn [bind] in * | discriminate H].
  destruct (stored_sig_figs sl mb p cur) as [c|]; [cbn [bind] in * | discriminate H].
  destruct (float_ne a c).
  - apply bind_Ok_inv in H as [p1 [Hp1 H]]. injection H as _ <-.
    eapply python_floats_commit; eauto.
  - injection H as _ <-. exact Hpy.
Qed.



Lemma _sig_figs_Ok_float (v : pyval) (sig : Z) (c : float) :
  _sig_figs v sig = Ok c -> exists f, v = VFloat f.
Proof.
  destruct v; simpl; intros H; try discriminate H. eauto.
Qed.

Lemma commit_if_differs_stored_float (sl : slot) (mb : bool) (band_id : Z)
    (p p' : Param) (x : float) (b : bool) :
  commit_if_differs sl mb band_id p x = Ok (b, p') ->
  exists f, stored sl mb band_id p = Ok (VFloat f).
Proof.
  unfold commit_if_differs. intros H.
  destruct (_sig_figs (VFloat x) 5) as [a|]; [cbn [bind] in H | discriminate H].
  destruct (stored sl mb band_id p) as [cur|]; [cbn [bind] in H | discriminate H].
  destruct (stored_sig_figs sl mb p cur) as [c|] eqn:Hc; [| discriminate H].
  apply stored_sig_figs_Ok_float in Hc as [f ->]. eauto.
Qed.

Lemma _is_empty_stored (p : Param) (band_id : Z) :
  _is_empty p band_id =
    bind (get_mult_bands p) (fun mb =>
    bind (stored AvgSlot mb band_id p) (fun cur => Ok (is_float_str_val cur))).
Proof.
  unfold _is_empty, stored, slot_attr.
  destruct (get_mult_bands p) as [[|]|]; reflexivity.
Qed.

Lemma _is_empty_Ok_mult_bands (p : Param) (band_id : Z) (e : bool) :
  _is_empty p band_id = Ok e -> exists mb, _mult_bands p = Some mb.
Proof.
  unfold _is_empty, get_mult_bands. destruct (_mult_bands p); [eauto | discriminate].
Qed.

(** A slot that holds a sentinel is no numpy array. *)
Lemma empty_slot_python_floats (p : Param) (band_id : Z) :
  _is_empty p band_id = Ok true -> python_floats AvgSlot p.
Proof.
  rewrite _is_empty_stored. intros H.
  apply bind_Ok_inv in H as [mb [_ H]]. apply bind_Ok_inv in H as [cur [Hcur H]].
  injection H as H.
  unfold python_floats, is_ndarray. cbn [slot_attr].
  unfold stored, subscript in Hcur. cbn [slot_attr] in Hcur.
  destruct (_avg p) as [| | | | | |l|]; try reflexivity.
  destruct (store p !! l) as [[a|items]|]; try reflexivity.
  destruct mb.
  - apply bind_Ok_inv in Hcur as [f [_ Hcur]]. injection Hcur as <-. discriminate H.
  - injection Hcur as <-. discriminate H.
Qed.

Lemma change_float_on_value (p : Param) (v : float) (new_std : option float)
    (band_id : Z) (mb : bool) :
  _is_empty p band_id = Ok false -> _mult_bands p = Some mb ->
  change p (VFloat v) new_std band_id =
    bind (commit_if_differs AvgSlot mb band_id p (to_SI (unit p) v)) (fun r1 =>
    match new_std with
    | Some s =>
        bind (commit_if_differs StdSlot mb band_id (snd r1) (to_SI (unit p) s))
          (fun r2 => Ok (fst r1 || fst r2, snd r2))
    | None => Ok r1
    end).
Proof.
  intros He Hmb. unfold change. rewrite He. cbn [bind].
  unfold get_mult_bands. rewrite Hmb. cbn [bind].
  apply change_float_slot_spec.
Qed.

Lemma change_float_on_empty (p : Param) (v : float) (new_std : option float)
    (band_id : Z) (mb : bool) :
  _is_empty p band_id = Ok true -> _mult_bands p = Some mb ->
  change p (VFloat v) new_std band_id =
    bind (commit AvgSlot mb band_id p (to_SI (unit p) v)) (fun p' => Ok (true, p')).
Proof.
  intros He Hmb. unfold change. rewrite He. cbn [bind].
  unfold get_mult_bands. rewrite Hmb. cbn [bind].
  unfold commit, slot_attr. destruct mb; reflexivity.
Qed.

Lemma change_twice_on_value (p p' : Param) (v : float) (new_std : option float)
    (band_id : Z) (b : bool) :
  _is_empty p band_id = Ok false ->
  change p (VFloat v) new_std band_id = Ok (b, p') ->
  (forall a, _sig_figs (VFloat (to_SI (unit p) v)) 5 = Ok a -> is_nan a = false) ->
  (forall s a, new_std = Some s ->
     _sig_figs (VFloat (to_SI (unit p) s)) 5 = Ok a -> is_nan a = false) ->
  slots_apart p ->
  python_floats AvgSlot p -> python_floats StdSlot p ->
  change p' (VFloat v) new_std band_id = Ok (false, p').
Proof.
  intros He Hch Hnan_avg Hnan_std Hapart Hpa Hps.
  destruct (_is_empty_Ok_mult_bands _ _ _ He) as [mb Hmb].
  rewrite (change_float_on_value p v new_std band_id mb He Hmb) in Hch.
  apply bind_Ok_inv in Hch as [[b1 p1] [H1 Hch]]. cbn [fst snd] in Hch.
  pose proof (commit_if_differs_twice _ _ _ _ _ _ _ H1 Hpa Hnan_avg) as H1'.
  pose proof (commit_if_differs_frame _ _ _ _ _ _ _ H1) as [Hu1 [Hmb1 Hfr1]].
  pose proof (commit_if_differs_python_floats _ AvgSlot _ _ _ _ _ _ H1 Hpa) as Hpa1.
  pose proof (commit_if_differs_python_floats _ StdSlot _ _ _ _ _ _ H1 Hps) as Hps1.
  destruct (Hfr1 Hapart) as [Hapart1 _].
  destruct (commit_if_differs_stored_float _ _ _ _ _ _ _ H1') as [f1 Hst1].
  destruct new_std as [s|].
  - apply bind_Ok_inv in Hch as [[b2 p2] [H2 Hch]]. cbn [fst snd] in Hch.
    injection Hch as _ <-.
    assert (Hnan2 : forall a, _sig_figs (VFloat (to_SI (unit p) s)) 5 = Ok a -> is_nan a = false).
    { intros a. apply Hnan_std. reflexivity. }
    pose proof (commit_if_differs_twice _ _ _ _ _ _ _ H2 Hps1 Hnan2) as H2'.
    pose proof (commit_if_differs_python_floats _ AvgSlot _ _ _ _ _ _ H2 Hpa1) as Hpa2.
    pose proof (commit_if_differs_frame _ _ _ _ _ _ _ H2) as [Hu2 [Hmb2 Hfr2]].
    destruct (Hfr2 Hapart1) as [_ Hst2]. cbn [other] in Hst2.
    assert (He2 : _is_empty p2 band_id = Ok false).
    { rewrite _is_empty_stored. unfold get_mult_bands. rewrite Hmb2, Hmb1, Hmb.
      cbn [bind]. rewrite Hst2, Hst1. reflexivity. }
    rewrite (change_float_on_value p2 v (Some s) band_id mb He2) by congruence.
    rewrite Hu2, Hu1.
    rewrite (commit_if_differs_transfer AvgSlot mb band_id p1 p2 _ H1' Hst2 Hpa1 Hpa2).
    cbn [bind fst snd]. rewrite H2'. reflexivity.
  - injection Hch as _ <-.
    assert (He1 : _is_empty p1 band_id = Ok false).
    { rewrite _is_empty_stored. unfold get_mult_bands. rewrite Hmb1, Hmb.
      cbn [bind]. rewrite Hst1. reflexivity. }
    rewrite (change_float_on_value p1 v None band_id mb He1) by congruence.
    rewrite Hu1. rewrite H1'. reflexivity.
Qed.

Lemma change_twice_on_empty (p p' : Param) (v : float) (band_id : Z) (b : bool) (a : float) :
  _is_empty p band_id = Ok true ->
  change p (VFloat v) None band_id = Ok (b, p') ->
  _sig_figs (VFloat (to_SI (unit p) v)) 5 = Ok a -> is_nan a = false ->
  b = true /\ change p' (VFloat v) None band_id = Ok (false, p').
Proof.
  intros He Hch Ha Hnan.
  destruct (_is_empty_Ok_mult_bands _ _ _ He) as [mb Hmb].
  rewrite (change_float_on_empty p v None band_id mb He Hmb) in Hch.
  apply bind_Ok_inv in Hch as [p1 [H1 Hch]]. injection Hch as <- <-.
  split; [reflexivity |].
  pose proof (commit_frame _ _ _ _ _ _ H1) as [Hu [Hmb1 _]].
  pose proof (stored_commit_same _ _ _ _ _ _ H1) as Hst.
  pose proof (python_floats_commit _ AvgSlot _ _ _ _ _ H1
                (empty_slot_python_floats _ _ He)) as Hpy.
  assert (He1 : _is_empty p1 band_id = Ok false).
  { rewrite _is_empty_stored. unfold get_mult_bands. rewrite Hmb1, Hmb.
    cbn [bind]. rewrite Hst. reflexivity. }
  rewrite (change_float_on_value p1 v None band_id mb He1) by congruence.
  rewrite Hu. unfold commit_if_differs. rewrite Ha. cbn [bind]. rewrite Hst. cbn [bind].
  rewrite (stored_sig_figs_python_floats _ _ _ _ Hpy).
  rewrite Ha. cbn [bind]. rewrite float_ne_same by exact Hnan. reflexivity.
Qed.


(** [change] never assigns the attribute [_med]. *)
Lemma commit_keeps_med_attribute (sl : slot) (mb : bool) (band_id : Z)
    (p p' : Param) (x : float) :
  commit sl mb band_id p x = Ok p' -> _med p' = _med p.
Proof.
  unfold commit. destruct mb.
  - intros H. apply setitem_attributes in H. tauto.
  - intros H. injection H as <-. destruct sl; reflexivity.
Qed.

Lemma commit_if_differs_keeps_med_attribute (sl : slot) (mb : bool) (band_id : Z)
    (p p' : Param) (x : float) (b : bool) :
  commit_if_differs sl mb band_id p x = Ok (b, p') -> _med p' = _med p.
Proof.
  unfold commit_if_differs. intros H.
  destruct (_sig_figs (VFloat x) 5) as [a|]; [cbn [bind] in H | discriminate H].
  destruct (stored sl mb band_id p) as [cur|]; [cbn [bind] in H | discriminate H].
  destruct (stored_sig_figs sl mb p cur) as [c|]; [cbn [bind] in H | discriminate H].
  destruct (float_ne a c).
  - apply bind_Ok_inv in H as [p1 [Hp1 H]]. injection H as _ <-.
    eapply commit_keeps_med_attribute; eauto.
  - injection H as _ <-. reflexivity.
Qed.

Lemma change_keeps_med_attribute (p p' : Param) (new_avg : pyval)
    (new_std : option float) (band_id : Z) (b : bool) :
  change p new_avg new_std band_id = Ok (b, p') -> _med p' = _med p.
Proof.
  intros H. destruct new_avg; try discriminate H.
  - (* a float *)
    destruct (_is_empty p band_id) as [[|]|] eqn:He; try discriminate H.
    + destruct (_is_empty_Ok_mult_bands _ _ _ He) as [mb Hmb].
      rewrite (change_float_on_empty p f new_std band_id mb He Hmb) in H.
      apply bind_Ok_inv in H as [p1 [Hp1 H]]. injection H as _ <-.
      eapply commit_keeps_med_attribute; eauto.
    + destruct (_is_empty_Ok_mult_bands _ _ _ He) as [mb Hmb].
      rewrite (change_float_on_value p f new_std band_id mb He Hmb) in H.
      apply bind_Ok_inv in H as [[b1 p1] [H1 H]]. cbn [fst snd] in H.
      apply commit_if_differs_keeps_med_attribute in H1.
      destruct new_std as [s|].
      * apply bind_Ok_inv in H as [[b2 p2] [H2 H]]. cbn [fst snd] in H.
        injection H as _ <-.
        apply commit_if_differs_keeps_med_attribute in H2. congruence.
      * injection H as _ <-. exact H1.
    + unfold change in H. rewrite He in H. discriminate H.
  - (* a string *)
    unfold change in H.
    destruct (get_mult_bands p) as [[|]|]; cbn [bind] in H; try discriminate H.
    + destruct (subscript p (_avg p) (band_id - 1)) as [cur|]; cbn [bind] in H;
        [| discriminate H].
      destruct (upper_method cur) as [u|]; cbn [bind] in H; [| discriminate H].
      destruct (negb (String.eqb u (PyStr.upper s))).
      * apply bind_Ok_inv in H as [p1 [Hp1 H]]. injection H as _ <-.
        apply setitem_attributes in Hp1. tauto.
      * injection H as _ <-. reflexivity.
    + destruct (upper_method (_avg p)) as [u|]; cbn [bind] in H; [| discriminate H].
      destruct (negb (String.eqb u (PyStr.upper s))); injection H as _ <-; reflexivity.
Qed.

(** On a float Parameter whose slot for the band holds a number, [change]
    converts the new value to SI units, commits it when its rounding to 5
    significant figures differs from the rounding of the stored value (and
    likewise the standard deviation when one is passed), and returns
    whether a commit occurred; on a slot holding a sentinel it commits
    unconditionally and returns true.  Where the two slots keep Python
    floats, a second call with the same value commits nothing and returns
    false, the rounded values being numbers (not nan) and the two slots
    being kept in two objects. *)
Theorem change_commits_what_differs
    (p : Param) (v : float) (new_std : option float) (band_id : Z) :
  (forall mb, _is_empty p band_id = Ok false -> _mult_bands p = Some mb ->
     change p (VFloat v) new_std band_id =
       bind (commit_if_differs AvgSlot mb band_id p (to_SI (unit p) v)) (fun r1 =>
       match new_std with
       | Some s =>
           bind (commit_if_differs StdSlot mb band_id (snd r1) (to_SI (unit p) s))
             (fun r2 => Ok (fst r1 || fst r2, snd r2))
       | None => Ok r1
       end))
  /\ (forall mb, _is_empty p band_id = Ok true -> _mult_bands p = Some mb ->
        change p (VFloat v) new_std band_id =
          bind (commit AvgSlot mb band_id p (to_SI (unit p) v))
            (fun p' => Ok (true, p')))
  /\ (forall b p',
        _is_empty p band_id = Ok false ->
        change p (VFloat v) new_std band_id = Ok (b, p') ->
        (forall a, _sig_figs (VFloat (to_SI (unit p) v)) 5 = Ok a -> is_nan a = false) ->
        (forall s a, new_std = Some s ->
           _sig_figs (VFloat (to_SI (unit p) s)) 5 = Ok a -> is_nan a = false) ->
        slots_apart p ->
        python_floats AvgSlot p -> python_floats StdSlot p ->
        change p' (VFloat v) new_std band_id = Ok (false, p'))
  /\ (forall b p' a,
        _is_empty p band_id = Ok true ->
        change p (VFloat v) None band_id = Ok (b, p') ->
        _sig_figs (VFloat (to_SI (unit p) v)) 5 = Ok a -> is_nan a = false ->
        b = true /\ change p' (VFloat v) None band_id = Ok (false, p')).
Proof.
  split; [| split; [| split]].
  - intros mb. apply change_float_on_value.
  - intros mb. apply change_float_on_empty.
  - intros b p'. apply change_twice_on_value.
  - intros b p' a. apply change_twice_on_empty.
Qed.

End ChangeFacts.

(** ** What the constructor guarantees *)

Section ConstructionFacts.

Context {rt : PyRuntime}.

(** [_float] returns a number, a sentinel, or a new array. *)
Lemma _float_result (self self' : Param) (val r : pyval) :
  _float self val = Ok (r, self') ->
  _avg self' = _avg self /\ _std self' = _std self
  /\ ((r = VRef (length (store self)) /\ length (store self') = S (length (store self)))
      \/ ((forall l, r <> VRef l) /\ store self' = store self)).
Proof.
  unfold _float. intros H.
  destruct val; try (injection H as <- <-; repeat split; right; split; [discriminate | reflexivity]).
  all: destruct (py_float _) as [f|[]] eqn:Hf; try discriminate H;
    try (injection H as <- <-; repeat split; right; split; [discriminate | reflexivity]).
  destruct (eval_float_array s) as [arr|].
  - injection H as <- <-. repeat split. left. split; [reflexivity |].
    simpl. rewrite length_app. simpl. lia.
  - destruct (in_strs _ _); [| discriminate H].
    injection H as <- <-. repeat split. right. split; [discriminate | reflexivity].
Qed.

Lemma _zero_result (self : Param) (val : pyval) :
  _avg (snd (_zero self val)) = _avg self
  /\ (fst (_zero self val) = VRef (length (store self))
      \/ forall l, fst (_zero self val) <> VRef l).
Proof.
  unfold _zero. destruct (py_len self val); simpl.
  - split; [reflexivity | left; reflexivity].
  - split; [reflexivity | right; discriminate].
Qed.

Lemma _store_float_str_apart (self p : Param) (inp : string) :
  _store_float_str self inp = Ok p -> slots_apart p.
Proof.
  unfold _store_float_str, slots_apart. intros H.
  destruct (PyStr.contains _spread_delim inp).
  - apply bind_Ok_inv in H as [v0 [_ H]].
    apply bind_Ok_inv in H as [[r1 s1] [H1 H]]. cbn [fst snd] in H.
    apply bind_Ok_inv in H as [v1 [_ H]].
    apply bind_Ok_inv in H as [[r2 s2] [H2 H]]. cbn [fst snd] in H.
    injection H as <-. simpl.
    apply _float_result in H1 as [_ [_ H1]].
    apply _float_result in H2 as [Ha2 [_ H2]]. simpl in Ha2, H2.
    rewrite Ha2. intros l -> ->.
    destruct H2 as [[H2 _]|[H2 _]]; [| eapply H2; reflexivity].
    injection H2 as H2.
    destruct H1 as [[H1 H1']|[H1 _]]; [| eapply H1; reflexivity].
    injection H1 as H1. simpl in *. lia.
  - apply bind_Ok_inv in H as [[r1 s1] [H1 H]]. cbn [fst snd] in H.
    injection H as <-. simpl.
    apply _float_result in H1 as [_ [_ H1]].
    match goal with |- context [_zero ?s ?v] =>
      destruct (_zero_result s v) as [Ha Hz]; rewrite Ha end.
    simpl. intros l -> Hl.
    destruct Hz as [Hz|Hz]; [| eapply Hz; eauto].
    rewrite Hz in Hl. injection Hl as Hl. simpl in Hl.
    destruct H1 as [[H1 H1']|[H1 _]]; [| eapply H1; reflexivity].
    injection H1 as H1. simpl in *. lia.
Qed.


(** [lst.append(x)] assigns no attribute. *)
Lemma append_attributes (p p' : Param) (v x : pyval) :
  append p v x = Ok p' ->
  _avg p' = _avg p /\ _std p' = _std p /\ _band_ids p' = _band_ids p.
Proof.
  unfold append. intros H.
  destruct v; try discriminate H.
  destruct (store p !! l) as [[a|items]|]; try discriminate H.
  injection H as <-. repeat split.
Qed.

Lemma store_band_entry_attributes (dist_dict : gmap string Distribution)
    (std_val lv la lm ls : pyval) (self p : Param) (i : nat) (mv : pyval) :
  store_band_entry dist_dict std_val lv la lm ls self i mv = Ok p ->
  _avg p = _avg self /\ _std p = _std self /\ _band_ids p = _band_ids self.
Proof.
  unfold store_band_entry. intros H.
  apply bind_Ok_inv in H as [sv [_ H]].
  apply bind_Ok_inv in H as [pdf [_ H]].
  destruct pdf.
  - apply bind_Ok_inv in H as [ids [_ H]].
    apply bind_Ok_inv in H as [bid [_ H]].
    apply bind_Ok_inv in H as [dist [_ H]].
    apply bind_Ok_inv in H as [p1 [H1 H]].
    apply bind_Ok_inv in H as [p2 [H2 H]].
    apply bind_Ok_inv in H as [p3 [H3 H]].
    apply append_attributes in H1, H2, H3, H.
    intuition congruence.
  - apply bind_Ok_inv in H as [p1 [H1 H]].
    apply bind_Ok_inv in H as [a [_ H]].
    apply bind_Ok_inv in H as [p2 [H2 H]].
    apply bind_Ok_inv in H as [m [_ H]].
    apply bind_Ok_inv in H as [p3 [H3 H]].
    apply bind_Ok_inv in H as [s [_ H]].
    apply append_attributes in H1, H2, H3, H.
    intuition congruence.
Qed.

Lemma store_band_entries_attributes (dist_dict : gmap string Distribution)
    (std_val lv la lm ls : pyval) (mean_val : list pyval) (self p : Param) (i : nat) :
  store_band_entries dist_dict std_val lv la lm ls self i mean_val = Ok p ->
  _avg p = _avg self /\ _std p = _std self.
Proof.
  revert self i. induction mean_val as [|mv rest IH]; intros self i H; simpl in H.
  - injection H as <-. split; reflexivity.
  - apply bind_Ok_inv in H as [p1 [H1 H]].
    apply store_band_entry_attributes in H1 as [Ha [Hs _]].
    apply IH in H as [Ha' Hs']. split; congruence.
Qed.

Lemma _store_float_pair_apart (self p : Param) (param_str : pyval)
    (dist_dict : option (gmap string Distribution)) :
  _store_float_pair self param_str dist_dict = Ok p -> slots_apart p.
Proof.
  unfold _store_float_pair. intros H.
  destruct dist_dict as [d|].
  - apply bind_Ok_inv in H as [s [_ H]].
    apply bind_Ok_inv in H as [[mean_val std_val] [_ H]]. cbn [fst snd] in H.
    destruct mean_val; try discriminate H.
    + (* a boolean *)
      cbn [bind] in H. destruct (negb (is_none std_val)).
      * destruct std_val; try discriminate H. injection H as <-.
        intros l Hl. discriminate Hl.
      * injection H as <-. intros l Hl. discriminate Hl.
    + (* an integer *)
      destruct (negb (is_none std_val)).
      * destruct std_val; try discriminate H. injection H as <-.
        intros l Hl. discriminate Hl.
      * injection H as <-. intros l Hl. discriminate Hl.
    + (* a float *)
      destruct (negb (is_none std_val)).
      * destruct std_val; try discriminate H. injection H as <-.
        intros l Hl. discriminate Hl.
      * injection H as <-. intros l Hl. discriminate Hl.
    + (* a string *)
      destruct (PyStr.contains "PDF" (PyStr.upper s0)); [| discriminate H].
      apply bind_Ok_inv in H as [dist [_ H]]. injection H as <-.
      intros l Hl. discriminate Hl.
    + (* a list *)
      apply bind_Ok_inv in H as [_ [_ H]].
      apply bind_Ok_inv in H as [_ [_ H]].
      apply store_band_entries_attributes in H as [Ha Hs].
      intros l Hl. rewrite Hs. rewrite Ha in Hl. simpl in *.
      injection Hl as <-. intros Heq. injection Heq as Heq.
      rewrite !length_app in Heq. simpl in Heq. lia.
  - destruct param_str; try discriminate H.
    eapply _store_float_str_apart; exact H.
Qed.


Lemma _store_float_dist_apart (self p : Param) (d : Distribution) :
  _store_float_dist self d = Ok p -> slots_apart p.
Proof.
  unfold _store_float_dist. intros H.
  apply bind_Ok_inv in H as [[r1 s1] [H1 H]]. cbn [fst snd] in H.
  apply bind_Ok_inv in H as [[r2 s2] [H2 H]]. cbn [fst snd] in H.
  apply bind_Ok_inv in H as [[r3 s3] [H3 H]]. cbn [fst snd] in H.
  injection H as <-.
  apply _float_result in H3 as [Ha3 _].
  apply _float_result in H2 as [Ha2 _].
  unfold _float, py_float in H1. injection H1 as <- <-.
  intros l Hl. simpl in *. rewrite Ha3, Ha2 in Hl. discriminate Hl.
Qed.

(** Every constructed Parameter keeps its average and its standard
    deviation in two objects. *)
Lemma constructed_slots_apart (a : init_args) (p : Param) :
  __init__ a = Ok p -> slots_apart p.
Proof.
  intros H. apply __init___inv in H as [self [_ H]].
  pose proof (_store_param_kinds _ _ _ H) as Hk.
  unfold _store_param in H.
  destruct (_type self).
  - destruct Hk as [_ [Ha _]]. intros l Hl. congruence.
  - destruct Hk as [z [_ [Ha _]]]. intros l Hl. congruence.
  - unfold _store_float in H.
    destruct (arg_inp a) as [v|ps dd|n].
    + destruct v; try discriminate H.
      * eapply _store_float_str_apart; exact H.
      * eapply _store_float_dist_apart; exact H.
    + eapply _store_float_pair_apart; exact H.
    + unfold _store_float_tuple in H.
      destruct n as [|[|[|n]]]; discriminate H.
  - destruct Hk as [_ [Ha _]]. intros l Hl. congruence.
  - destruct Hk as [_ [Ha _]]. intros l Hl. congruence.
  - discriminate H.
Qed.

(** [change] keeps them in two objects. *)
Lemma change_keeps_slots_apart (p p' : Param) (new_avg : pyval)
    (new_std : option float) (band_id : Z) (b : bool) :
  change p new_avg new_std band_id = Ok (b, p') ->
  slots_apart p -> slots_apart p'.
Proof.
  intros H Hapart. destruct new_avg; try discriminate H.
  - destruct (_is_empty p band_id) as [[|]|] eqn:He.
    + destruct (_is_empty_Ok_mult_bands _ _ _ He) as [mb Hmb].
      rewrite (change_float_on_empty p f new_std band_id mb He Hmb) in H.
      apply bind_Ok_inv in H as [p1 [Hp1 H]]. injection H as _ <-.
      eapply slots_apart_commit; eauto.
    + destruct (_is_empty_Ok_mult_bands _ _ _ He) as [mb Hmb].
      rewrite (change_float_on_value p f new_std band_id mb He Hmb) in H.
      apply bind_Ok_inv in H as [[b1 p1] [H1 H]]. cbn [fst snd] in H.
      apply commit_if_differs_frame in H1 as [_ [_ H1]].
      destruct (H1 Hapart) as [Hapart1 _].
      destruct new_std as [s|].
      * apply bind_Ok_inv in H as [[b2 p2] [H2 H]]. cbn [fst snd] in H.
        injection H as _ <-.
        apply commit_if_differs_frame in H2 as [_ [_ H2]].
        destruct (H2 Hapart1) as [Hapart2 _]. exact Hapart2.
      * injection H as _ <-. exact Hapart1.
    + unfold change in H. rewrite He in H. discriminate H.
  - unfold change in H.
    destruct (get_mult_bands p) as [[|]|]; cbn [bind] in H; try discriminate H.
    + destruct (subscript p (_avg p) (band_id - 1)) as [cur|]; cbn [bind] in H;
        [| discriminate H].
      destruct (upper_method cur) as [u|]; cbn [bind] in H; [| discriminate H].
      destruct (negb (String.eqb u (PyStr.upper s))).
      * apply bind_Ok_inv in H as [p1 [Hp1 H]]. injection H as _ <-.
        apply setitem_attributes in Hp1 as [_ [_ [Ha [_ [Hs _]]]]].
        unfold slots_apart. rewrite Ha, Hs. exact Hapart.
      * injection H as _ <-. exact Hapart.
    + destruct (upper_method (_avg p)) as [u|]; cbn [bind] in H; [| discriminate H].
      destruct (negb (String.eqb u (PyStr.upper s))); injection H as _ <-.
      * intros l Hl. discriminate Hl.
      * exact Hapart.
Qed.



Lemma return_drawn_attributes (p : Param) (samp : drawn) :
  _avg (snd (return_drawn p samp)) = _avg p /\ _std (snd (return_drawn p samp)) = _std p.
Proof. destruct samp; split; reflexivity. Qed.

(** [sample] assigns no attribute. *)
Lemma sample_attributes (p p' : Param) (band_id nsample : Z) (min max : option float)
    (null : bool) (v : pyval) :
  sample p band_id nsample min max null = Ok (v, p') ->
  _avg p' = _avg p /\ _std p' = _std p.
Proof.
  unfold sample. intros H.
  repeat first
    [ apply bind_Ok_inv in H as [? [_ H]]
    | match type of H with
      | (if ?c then _ else _) = Ok _ => destruct c
      | match ?c with _ => _ end = Ok _ => destruct c
      end ];
  try discriminate H;
  first
    [ injection H as _ <-; split; reflexivity
    | injection H as H; apply (f_equal snd) in H; cbn [snd] in H; subst p';
      apply return_drawn_attributes ].
Qed.

(** The average and the standard deviation of a Parameter are never one
    object: the hypothesis of the idempotence of [change] holds of every
    Parameter a program can hold. *)
Lemma reachable_slots_apart (p : Param) : reachable p -> slots_apart p.
Proof.
  induction 1 as [a p Hinit | p p' new_avg new_std band_id b _ IH Hch
                 | p p' band_id nsample min max null v _ IH Hs].
  - eapply constructed_slots_apart; exact Hinit.
  - eapply change_keeps_slots_apart; eauto.
  - apply sample_attributes in Hs as [Ha Hs].
    unfold slots_apart. rewrite Ha, Hs. exact IH.
Qed.

End ConstructionFacts.

(** The parameters of the examples are what the constructor builds and
    what [change] leaves. *)
Lemma gaussian_100_10_constructed :
  @__init__ Ref.runtime (literal_args TFloat "100 +/- 10") = Ok gaussian_100_10.
Proof. vm_compute. reflexivity. Qed.

Lemma gaussian_1000_20_changed :
  @change Ref.runtime gaussian_100_10 (VFloat 1000) (Some 20%float) 1
  = Ok (true, gaussian_1000_20).
Proof. vm_compute. reflexivity. Qed.

(** On the reference runtime: after [change(1000.0, 20.0)] has committed
    to the two Python floats of the parameter, the same call commits
    nothing. *)
Lemma change_twice_on_gaussian :
  @change Ref.runtime gaussian_1000_20 (VFloat 1000) (Some 20%float) 1
  = Ok (false, gaussian_1000_20).
Proof.
  destruct (@change_commits_what_differs Ref.runtime
              gaussian_100_10 1000 (Some 20%float) 1) as [_ [_ [H _]]].
  apply (H true).
  - reflexivity.
  - exact gaussian_1000_20_changed.
  - intros a Ha. vm_compute in Ha. injection Ha as <-. reflexivity.
  - intros s a Hs Ha. injection Hs as <-.
    vm_compute in Ha. injection Ha as <-. reflexivity.
  - intros l Hl. discriminate Hl.
  - reflexivity.
  - reflexivity.
Defined.

(** C7: the second of two equal calls of [change] commits again where the
    bands are kept in a numpy array.  On the parameter built from
    "[1,2] +/- [0.1,0.2]", [change(1.00025)] commits and returns true; the
    first band then stores 1.00025 itself; and the same call once more
    returns true again and leaves the parameter as it was.  The new Python
    float rounds to 1.0003, the stored [numpy.float64] item to 1.0002. *)
Theorem C7_second_change_commits_again :
  exists p1,
    @__init__ Ref.runtime (literal_args TFloat "[1,2] +/- [0.1,0.2]") = Ok two_bands
    /\ @change Ref.runtime two_bands (VFloat 1.00025) None 1 = Ok (true, p1)
    /\ subscript p1 (_avg p1) 0 = Ok (VFloat 1.00025)
    /\ @_sig_figs Ref.runtime (VFloat 1.00025) 5 = Ok 1.0003%float
    /\ @_sig_figs_item Ref.runtime p1 (_avg p1) (VFloat 1.00025) 5 = Ok 1.0002%float
    /\ @change Ref.runtime p1 (VFloat 1.00025) None 1 = Ok (true, p1).
Proof.
  destruct (@change Ref.runtime two_bands (VFloat 1.00025) None 1)
    as [[b p1]|e] eqn:H1; [| vm_compute in H1; discriminate H1].
  assert (Hb : b = true).
  { vm_compute in H1. injection H1 as <- _. reflexivity. }
  subst b. exists p1.
  assert (Hp1 : p1 = set_store [OArr [1.00025; 2]%float; OArr [0.1; 0.2]%float] two_bands).
  { vm_compute in H1. injection H1 as <-. reflexivity. }
  split; [vm_compute; reflexivity |].
  split; [reflexivity |].
  subst p1. repeat split; vm_compute; reflexivity.
Qed.

(** C9, on the reference runtime: with the minimum 90, three draws raise,
    and the single draw 87.5 comes back as 90. *)
Lemma C9_clamping_on_gaussian :
  @sample Ref.runtime gaussian_100_10 1 3 (Some 90%float) None false = Raise ValueError
  /\ @sample Ref.runtime gaussian_100_10 1 1 (Some 90%float) None false
     = Ok (VFloat 90, gaussian_100_10).
Proof.
  split.
  - destruct (@C9_clamping_needs_a_single_draw Ref.runtime gaussian_100_10 1 3
                (Some 90%float) None false 100 10 (VFloat 100)) as [H _].
    + reflexivity.
    + intros d Hd. discriminate Hd.
    + reflexivity.
    + reflexivity.
    + apply H; [lia | left; discriminate].
  - destruct (@C9_clamping_needs_a_single_draw Ref.runtime gaussian_100_10 1 1
                (Some 90%float) None false 100 10 (VFloat 100)) as [_ [H _]].
    + reflexivity.
    + intros d Hd. discriminate Hd.
    + reflexivity.
    + reflexivity.
    + apply H; reflexivity.
Defined.

(* ===================================================================== *)
(** * Further properties of the Parameter engine *)
(* ===================================================================== *)

Section ParameterBounds.

Context {rt : PyRuntime}.

(** ** The range of the constructor *)

Lemma __init___fresh (a : init_args) (p : Param) :
  __init__ a = Ok p ->
  exists self, store self = [] /\ _mult_bands self = None
               /\ _type self = declared_kind a
               /\ _store_param self (arg_inp a) = Ok p.
Proof.
  unfold __init__, declared_kind. intros H.
  apply bind_Ok_inv in H as [self [Hself H]].
  apply bind_Ok_inv in H as [p' [Hstore H]].
  apply bind_Ok_inv in H as [_ [_ H]]. injection H as ->.
  exists self.
  destruct (arg_std_param a) as [sp|].
  - injection Hself as <-. auto.
  - apply bind_Ok_inv in Hself as [lo [_ Hself]].
    apply bind_Ok_inv in Hself as [hi [_ Hself]].
    injection Hself as <-. auto.
Qed.

Lemma __init___checked (a : init_args) (p : Param) :
  __init__ a = Ok p -> exists t, _check_range p = Ok t.
Proof.
  unfold __init__. intros H.
  apply bind_Ok_inv in H as [self [_ H]].
  apply bind_Ok_inv in H as [p' [_ H]].
  apply bind_Ok_inv in H as [t [Ht H]]. injection H as ->. eauto.
Qed.

Lemma _check_range_passed (p : Param) (t : bool) :
  _check_range p = Ok t ->
  (forall x, _avg p = VFloat x -> within (_min p) (_max p) x)
  /\ (forall l arr, _avg p = VRef l -> store p !! l = Some (OArr arr) ->
        Forall (within (_min p) (_max p)) arr).
Proof.
  unfold _check_range, within. intros H. split.
  - intros x Hx. rewrite Hx in H.
    apply bind_Ok_inv in H as [lo [Hlo H]].
    destruct lo; [discriminate H |].
    apply bind_Ok_inv in H as [hi [Hhi H]].
    destruct hi; [discriminate H |].
    split.
    + intros m Hm. rewrite Hm in Hlo. simpl in Hlo. congruence.
    + intros M HM. rewrite HM in Hhi. simpl in Hhi. congruence.
  - intros l arr Hl Harr. rewrite Hl in H.
    apply bind_Ok_inv in H as [lo [Hlo H]].
    destruct lo; [discriminate H |].
    apply bind_Ok_inv in H as [hi [Hhi H]].
    destruct hi; [discriminate H |].
    apply Forall_forall. intros x Hx. apply list_elem_of_In in Hx. split.
    + intros m Hm. rewrite Hm in Hlo. simpl in Hlo. rewrite Harr in Hlo.
      injection Hlo as Hlo.
      destruct (x <? m)%float eqn:E; [| reflexivity].
      assert (existsb (fun x0 => (x0 <? m)%float) arr = true).
      { apply existsb_exists. eauto. }
      congruence.
    + intros M HM. rewrite HM in Hhi. simpl in Hhi. rewrite Harr in Hhi.
      injection Hhi as Hhi.
      destruct (M <? x)%float eqn:E; [| reflexivity].
      assert (existsb (fun x0 => (M <? x0)%float) arr = true).
      { apply existsb_exists. eauto. }
      congruence.
Qed.

(** X1: a Parameter that the constructor returns has its average within
    the bounds it was given: a float average is neither below the minimum
    nor above the maximum, and neither is any item of an array average. *)
Theorem constructed_within_bounds (a : init_args) (p : Param) :
  __init__ a = Ok p ->
  (forall x, _avg p = VFloat x -> within (_min p) (_max p) x)
  /\ (forall l arr, _avg p = VRef l -> store p !! l = Some (OArr arr) ->
        Forall (within (_min p) (_max p)) arr).
Proof.
  intros H. apply __init___checked in H as [t Ht].
  eapply _check_range_passed; eauto.
Qed.

(** What [_store_float_str] stores for a literal without spread that
    [float()] accepts. *)
Lemma _store_float_str_number (self : Param) (s : string) (x : float) :
  PyStr.contains _spread_delim s = false ->
  float_of_str s = Some x ->
  _store_float_str self s =
    Ok (set_std (VFloat 0%float)
          (set_med (VFloat (to_SI (unit self) x))
             (set_avg (VFloat (to_SI (unit self) x))
                (set_mult_bands false (set_val VNone self))))).
Proof.
  intros Hd Hx. unfold _store_float_str. rewrite Hd.
  unfold _float, py_float. rewrite Hx. reflexivity.
Qed.

(** X2: a literal number without spread that, converted to SI units, is
    below the minimum, or above the maximum, is not constructed. *)
Theorem literal_outside_bounds_is_not_constructed (a : init_args) (s : string)
    (x m M : float) :
  arg_std_param a = None ->
  arg_inp_type a = TFloat ->
  arg_inp a = InVal (VStr s) ->
  PyStr.contains _spread_delim s = false ->
  float_of_str s = Some x ->
  arg_min a = VFloat m ->
  arg_max a = VFloat M ->
  (to_SI (init_unit a) x <? m)%float = true
  \/ (M <? to_SI (init_unit a) x)%float = true ->
  forall p, __init__ a <> Ok p.
Proof.
  intros Hsp Ht Hinp Hd Hx Hmin Hmax Hout p.
  unfold __init__, init_unit in *. rewrite Hsp in *. rewrite Hmin, Hmax, Ht, Hinp.
  cbn [float_unless_none py_float bind].
  unfold _store_param. cbn [_type]. unfold _store_float.
  rewrite (_store_float_str_number _ s x Hd Hx). cbn [bind unit].
  unfold _check_range. cbn [_avg set_std set_med set_avg _min _max set_mult_bands set_val].
  unfold any_beyond. cbn [bind unit].
  destruct (_ <? m)%float eqn:Hlo; cbn [bind]; [discriminate |].
  destruct Hout as [Hout|Hout]; [congruence |].
  rewrite Hout. discriminate.
Qed.

(** X3: [change] does not look at the bounds: on a single-band Parameter
    with a minimum, a new value below it that differs from the stored one
    is committed, and the range check the constructor runs no longer
    passes on the changed Parameter. *)
Theorem change_ignores_bounds (p : Param) (v cur m a b : float) (band_id : Z) :
  _mult_bands p = Some false ->
  _avg p = VFloat cur ->
  _min p = Some m ->
  (to_SI (unit p) v <? m)%float = true ->
  _sig_figs (VFloat (to_SI (unit p) v)) 5 = Ok a ->
  _sig_figs (VFloat cur) 5 = Ok b ->
  float_ne a b = true ->
  exists p',
    change p (VFloat v) None band_id = Ok (true, p')
    /\ _avg p' = VFloat (to_SI (unit p) v)
    /\ _min p' = Some m
    /\ forall t, _check_range p' <> Ok t.
Proof.
  intros Hmb Havg Hmin Hlo Ha Hb Hne.
  exists (set_avg (VFloat (to_SI (unit p) v)) p).
  split; [| split; [reflexivity | split; [exact Hmin |]]].
  - unfold change, _is_empty, get_mult_bands. rewrite Hmb. cbn [bind].
    rewrite Havg. cbn [is_float_str_val bind].
    unfold change_float_slot. rewrite Ha. cbn [bind]. rewrite Havg, Hb.
    cbn [bind]. rewrite Hne. reflexivity.
  - intros t. unfold _check_range. cbn [_avg set_avg _min _max]. rewrite Hmin.
    unfold any_beyond. cbn [bind]. rewrite Hlo. discriminate.
Qed.

End ParameterBounds.

Lemma bounded_5_constructed :
  @__init__ Ref.runtime (bounded_literal "5") = Ok bounded_5.
Proof. vm_compute. reflexivity. Qed.

(** X1, for the literal 5 between 0 and 10. *)
Lemma constructed_within_bounds_example :
  within (_min bounded_5) (_max bounded_5) 5%float.
Proof.
  destruct (@constructed_within_bounds Ref.runtime (bounded_literal "5") bounded_5
              bounded_5_constructed) as [H _].
  apply H. reflexivity.
Defined.

(** X2, for the literal 15 between 0 and 10: the constructor raises. *)
Lemma literal_15_is_not_constructed :
  match @__init__ Ref.runtime (bounded_literal "15") with
  | Ok _ => False
  | Raise _ => True
  end.
Proof.
  destruct (@__init__ Ref.runtime (bounded_literal "15")) as [p|e] eqn:Hp;
    [| exact I].
  apply (@literal_outside_bounds_is_not_constructed Ref.runtime
           (bounded_literal "15") "15" 15 0 10) with (p := p).
  - reflexivity.
  - reflexivity.
  - reflexivity.
  - reflexivity.
  - vm_compute. reflexivity.
  - reflexivity.
  - reflexivity.
  - right. vm_compute. reflexivity.
  - exact Hp.
Defined.

(** X3, for that parameter changed to -1. *)
Lemma change_below_the_minimum :
  exists p',
    @change Ref.runtime bounded_5 (VFloat (-1)) None 1 = Ok (true, p')
    /\ _avg p' = VFloat (-1)
    /\ forall t, _check_range p' <> Ok t.
Proof.
  destruct (@change_ignores_bounds Ref.runtime bounded_5 (-1) 5 0 (-1) 5 1)
    as [p' [Hc [Ha [_ Hr]]]].
  - reflexivity.
  - reflexivity.
  - reflexivity.
  - vm_compute. reflexivity.
  - vm_compute. reflexivity.
  - vm_compute. reflexivity.
  - vm_compute. reflexivity.
  - exists p'. split; [exact Hc |]. split; [| exact Hr].
    rewrite Ha. vm_compute. reflexivity.
Defined.

Section ParameterBands.

Context {rt : PyRuntime}.

(** ** Sampling and fetching *)

(** A new object leaves the items of the objects there were. *)
Lemma subscript_alloc (p : Param) (o : obj) (v x : pyval) (i : Z) :
  subscript p v i = Ok x ->
  subscript (set_store (store p ++ [o]) p) v i = Ok x.
Proof.
  unfold subscript. cbn [store set_store]. intros H.
  destruct v; try exact H.
  destruct (store p !! l) as [ob|] eqn:Hl; [| discriminate H].
  rewrite (lookup_app_l_Some _ _ _ _ Hl). exact H.
Qed.

Lemma fetch_alloc (p : Param) (o : obj) (band_id : Z) (t : pyval * pyval * pyval) :
  fetch p band_id = Ok t -> fetch (snd (alloc o p)) band_id = Ok t.
Proof.
  unfold alloc. cbn [snd]. unfold fetch. cbn [_val _avg _med _std set_store].
  destruct (negb (is_none (_val p)) && is_none (_avg p)); [auto |].
  unfold get_mult_bands. cbn [_mult_bands set_store].
  destruct (_mult_bands p) as [[|]|]; cbn [bind]; auto.
  intros H.
  apply bind_Ok_inv in H as [a [Ha H]].
  apply bind_Ok_inv in H as [m [Hm H]].
  apply bind_Ok_inv in H as [s [Hs H]].
  rewrite (subscript_alloc p o _ _ _ Ha). cbn [bind].
  rewrite (subscript_alloc p o _ _ _ Hm). cbn [bind].
  rewrite (subscript_alloc p o _ _ _ Hs). cbn [bind]. exact H.
Qed.

Lemma fetch_return_drawn (p : Param) (samp : drawn) (band_id : Z)
    (t : pyval * pyval * pyval) :
  fetch p band_id = Ok t -> fetch (snd (return_drawn p samp)) band_id = Ok t.
Proof.
  destruct samp; cbn [return_drawn snd]; [auto | apply fetch_alloc].
Qed.

(** X4: sampling changes nothing of what [fetch] returns: whatever
    [sample] gives, every band that could be fetched before is fetched
    with the same three values after. *)
Theorem sample_keeps_fetch (p p' : Param) (band_id nsample : Z)
    (min max : option float) (null : bool) (v : pyval) :
  sample p band_id nsample min max null = Ok (v, p') ->
  forall b t, fetch p b = Ok t -> fetch p' b = Ok t.
Proof.
  unfold sample. intros H b t Hf.
  repeat first
    [ apply bind_Ok_inv in H as [? [_ H]]
    | match type of H with
      | (if ?c then _ else _) = Ok _ => destruct c
      | match ?c with _ => _ end = Ok _ => destruct c
      end ];
  try discriminate H;
  first
    [ injection H as _ <-; exact Hf
    | injection H as H; apply (f_equal snd) in H; cbn [snd] in H; subst p';
      apply fetch_return_drawn; exact Hf ].
Qed.

(** ** Bands *)

Lemma py_getitem_in_range {A : Type} (l : list A) (i : Z) :
  (0 <= i < Z.of_nat (length l))%Z ->
  exists x, l !! Z.to_nat i = Some x /\ py_getitem l i = Ok x.
Proof.
  intros Hi. unfold py_getitem, py_index.
  replace ((0 <=? i)%Z && (i <? Z.of_nat (length l))%Z) with true by lia.
  destruct (l !! Z.to_nat i) as [x|] eqn:E.
  - eauto.
  - apply lookup_ge_None in E. lia.
Qed.

Lemma py_getitem_wraps {A : Type} (l : list A) (i : Z) :
  (- Z.of_nat (length l) <= i < 0)%Z ->
  py_getitem l i = py_getitem l (i + Z.of_nat (length l)).
Proof.
  intros Hi. unfold py_getitem, py_index.
  replace ((0 <=? i)%Z && (i <? Z.of_nat (length l))%Z) with false by lia.
  replace ((i <? 0)%Z && (- Z.of_nat (length l) <=? i)%Z) with true by lia.
  replace ((0 <=? i + Z.of_nat (length l))%Z
           && (i + Z.of_nat (length l) <? Z.of_nat (length l))%Z) with true by lia.
  replace (Z.of_nat (length l) + i)%Z with (i + Z.of_nat (length l))%Z by lia.
  reflexivity.
Qed.

Lemma py_getitem_outside {A : Type} (l : list A) (i : Z) :
  (Z.of_nat (length l) <= i \/ i < - Z.of_nat (length l))%Z ->
  py_getitem l i = Raise IndexError.
Proof.
  intros Hi. unfold py_getitem, py_index.
  replace ((0 <=? i)%Z && (i <? Z.of_nat (length l))%Z) with false by lia.
  replace ((i <? 0)%Z && (- Z.of_nat (length l) <=? i)%Z) with false by lia.
  reflexivity.
Qed.

(** X5: the bands of a per-band Parameter whose three arrays have [n]
    items: the bands 1 to [n] are fetched from the items 0 to [n-1]; a band
    from [1-n] to 0 is fetched as the band [n] further, Python counting a
    negative index from the end; any other band raises IndexError. *)
Theorem fetch_band_bounds (p : Param) (la lm ls : nat) (avg med std : list float)
    (band_id : Z) :
  _mult_bands p = Some true ->
  _avg p = VRef la -> _med p = VRef lm -> _std p = VRef ls ->
  store p !! la = Some (OArr avg) ->
  store p !! lm = Some (OArr med) ->
  store p !! ls = Some (OArr std) ->
  length med = length avg -> length std = length avg ->
  let n := Z.of_nat (length avg) in
  ((1 <= band_id <= n)%Z ->
     exists a m s,
       avg !! Z.to_nat (band_id - 1) = Some a
       /\ med !! Z.to_nat (band_id - 1) = Some m
       /\ std !! Z.to_nat (band_id - 1) = Some s
       /\ fetch p band_id = Ok (VFloat a, VFloat m, VFloat s))
  /\ ((1 - n <= band_id <= 0)%Z -> fetch p band_id = fetch p (band_id + n))
  /\ ((n < band_id \/ band_id < 1 - n)%Z -> fetch p band_id = Raise IndexError).
Proof.
  intros Hmb Ha Hm Hs Hla Hlm Hls Hlen_m Hlen_s n.
  assert (Hfetch : forall b,
            fetch p b =
              bind (py_getitem avg (b - 1)) (fun a =>
              bind (py_getitem med (b - 1)) (fun m =>
              bind (py_getitem std (b - 1)) (fun s =>
              Ok (VFloat a, VFloat m, VFloat s))))).
  { intros b. unfold fetch, get_mult_bands, subscript.
    rewrite Ha, Hm, Hs, Hmb, Hla, Hlm, Hls.
    rewrite andb_false_r. cbn [bind].
    destruct (py_getitem avg (b - 1)); cbn [bind]; [| reflexivity].
    destruct (py_getitem med (b - 1)); cbn [bind]; [| reflexivity].
    destruct (py_getitem std (b - 1)); reflexivity. }
  split; [| split].
  - intros Hb.
    destruct (py_getitem_in_range avg (band_id - 1)) as [a [Ha1 Ha2]]; [lia |].
    destruct (py_getitem_in_range med (band_id - 1)) as [m [Hm1 Hm2]]; [lia |].
    destruct (py_getitem_in_range std (band_id - 1)) as [s [Hs1 Hs2]]; [lia |].
    exists a, m, s. rewrite Hfetch, Ha2, Hm2, Hs2. auto.
  - intros Hb. rewrite !Hfetch.
    rewrite (py_getitem_wraps avg (band_id - 1)) by lia.
    rewrite (py_getitem_wraps med (band_id - 1)) by lia.
    rewrite (py_getitem_wraps std (band_id - 1)) by lia.
    rewrite Hlen_m, Hlen_s.
    replace (band_id + n - 1)%Z with (band_id - 1 + Z.of_nat (length avg))%Z by lia.
    reflexivity.
  - intros Hb. rewrite Hfetch.
    rewrite (py_getitem_outside avg (band_id - 1)) by lia. reflexivity.
Qed.

End ParameterBands.

(** X4, for three draws of the parameter 100 +/- 10. *)
Lemma sample_keeps_fetch_of_gaussian :
  exists v p',
    @sample Ref.runtime gaussian_100_10 1 3 None None false = Ok (v, p')
    /\ fetch p' 1 = Ok (VFloat 100, VFloat 100, VFloat 10).
Proof.
  destruct (@sample Ref.runtime gaussian_100_10 1 3 None None false)
    as [[v p']|e] eqn:Hs; [| vm_compute in Hs; discriminate Hs].
  exists v, p'. split; [reflexivity |].
  apply (@sample_keeps_fetch Ref.runtime gaussian_100_10 p' 1 3 None None false v Hs).
  reflexivity.
Defined.

(** X5, for the two bands of [two_bands]: band 0 is band 2. *)
Lemma fetch_band_0_is_band_2 :
  fetch two_bands 0 = Ok (VFloat 2, VFloat 2, VFloat 0.2).
Proof.
  destruct (fetch_band_bounds two_bands 0 0 1 [1; 2]%float [1; 2]%float
              [0.1; 0.2]%float 0) as [_ [H _]].
  - reflexivity.
  - reflexivity.
  - reflexivity.
  - reflexivity.
  - reflexivity.
  - reflexivity.
  - reflexivity.
  - reflexivity.
  - reflexivity.
  - rewrite H by (simpl; lia). reflexivity.
Defined.

Section ParameterTexts.

Context {rt : PyRuntime}.

(** ** Changing to a string *)

(** X6: [change] to a string, on a single-band Parameter: when the average
    is a string the two are compared in upper case, the new string is
    stored as written when they differ, and nothing is stored when they
    agree; when the average is a number the call raises AttributeError,
    a float having no [upper]; and a call that returns is without effect
    when repeated. *)
Theorem change_to_string (p : Param) (s : string) (new_std : option float)
    (band_id : Z) :
  _mult_bands p = Some false ->
  (forall cur, _avg p = VStr cur ->
     (PyStr.upper cur = PyStr.upper s ->
        change p (VStr s) new_std band_id = Ok (false, p))
     /\ (PyStr.upper cur <> PyStr.upper s ->
        change p (VStr s) new_std band_id = Ok (true, set_avg (VStr s) p)))
  /\ (forall x, _avg p = VFloat x ->
        change p (VStr s) new_std band_id = Raise (AttributeError "upper"))
  /\ (forall b p', change p (VStr s) new_std band_id = Ok (b, p') ->
        change p' (VStr s) new_std band_id = Ok (false, p')).
Proof.
  intros Hmb.
  assert (Hch : forall q, _mult_bands q = Some false ->
            change q (VStr s) new_std band_id =
              bind (upper_method (_avg q)) (fun cur_up =>
              if negb (String.eqb cur_up (PyStr.upper s))
              then Ok (true, set_avg (VStr s) q) else Ok (false, q))).
  { intros q Hq. unfold change, get_mult_bands. rewrite Hq. reflexivity. }
  split; [| split].
  - intros cur Hcur. rewrite (Hch p Hmb), Hcur. cbn [upper_method bind]. split.
    + intros ->. rewrite String.eqb_refl. reflexivity.
    + intros Hne. apply String.eqb_neq in Hne. rewrite Hne. reflexivity.
  - intros x Hx. rewrite (Hch p Hmb), Hx. reflexivity.
  - intros b p' H. rewrite (Hch p Hmb) in H.
    apply bind_Ok_inv in H as [cur_up [Hup H]].
    destruct (negb (String.eqb cur_up (PyStr.upper s))) eqn:E.
    + injection H as _ <-. rewrite Hch by exact Hmb.
      cbn [_avg set_avg upper_method bind]. rewrite String.eqb_refl. reflexivity.
    + injection H as _ <-. rewrite (Hch p Hmb), Hup. cbn [bind]. rewrite E. reflexivity.
Qed.

(** ** Parameters backed by a distribution *)

(** X7: a float Parameter built from a Distribution is fetched as the
    mean, the median and the spread of the distribution converted to SI
    units, and is sampled as the draws of the distribution as they come:
    not converted, not clamped, the bounds and [null] ignored. *)
Theorem distribution_is_sampled_raw (a : init_args) (p : Param) (d : Distribution) :
  declared_kind a = TFloat ->
  arg_inp a = InVal (VDist d) ->
  __init__ a = Ok p ->
  (forall band_id,
      fetch p band_id = Ok (VFloat (to_SI (unit p) (dist_mean d)),
                            VFloat (to_SI (unit p) (dist_median d)),
                            VFloat (to_SI (unit p) (dist_std d))))
  /\ (forall band_id min max null,
        sample p band_id 1 min max null = Ok (VFloat (dist_draw d 1 0), p))
  /\ (forall band_id nsample min max null, (0 <= nsample)%Z -> nsample <> 1%Z ->
        sample p band_id nsample min max null =
          Ok (alloc (OArr (map (dist_draw d (Z.to_nat nsample))
                             (seq 0 (Z.to_nat nsample)))) p)).
Proof.
  intros Hk Hinp Hinit.
  apply __init___inv in Hinit as [self [Ht Hstore]].
  rewrite Hk in Ht. rewrite Hinp in Hstore.
  unfold _store_param in Hstore. rewrite Ht in Hstore.
  unfold _store_float, _store_float_dist, _float, py_float in Hstore.
  cbn [bind fst snd] in Hstore. injection Hstore as <-.
  split; [| split].
  - intros band_id. reflexivity.
  - intros band_id min max null. reflexivity.
  - intros band_id nsample min max null Hn Hne.
    unfold sample, _is_empty. cbn [get_mult_bands _mult_bands set_std set_med set_avg
      set_mult_bands set_val bind _avg is_float_str_val _val].
    unfold dist_sample.
    replace (nsample =? 1)%Z with false by lia.
    replace (nsample <? 0)%Z with false by lia. reflexivity.
Qed.

(** ** Sentinels *)

Lemma upper_char_idempotent (c : ascii) :
  PyStr.upper_char (PyStr.upper_char c) = PyStr.upper_char c.
Proof.
  destruct c as [[] [] [] [] [] [] [] []]; reflexivity.
Qed.

Lemma upper_idempotent (s : string) : PyStr.upper (PyStr.upper s) = PyStr.upper s.
Proof.
  induction s as [|c s IH]; [reflexivity |].
  unfold PyStr.upper in *. simpl. rewrite upper_char_idempotent, IH. reflexivity.
Qed.

Lemma in_float_str_vals (s : string) :
  in_strs s _float_str_vals = true -> s = "NA"%string \/ s = "BAND"%string.
Proof.
  unfold in_strs, _float_str_vals. simpl.
  destruct (String.eqb s "NA") eqn:E1; [apply String.eqb_eq in E1; auto |].
  destruct (String.eqb s "BAND") eqn:E2; [apply String.eqb_eq in E2; auto |].
  discriminate.
Qed.

(** X8: a float literal that is neither a number nor an array and that,
    stripped and in upper case, is NA or BAND, is stored as that sentinel:
    the average and the median are the text NA or BAND itself, the
    parameter is empty, and every sampling returns the sentinel. *)
Theorem sentinel_is_stored_normalised (a : init_args) (p : Param) (s : string) :
  declared_kind a = TFloat ->
  arg_inp a = InVal (VStr s) ->
  PyStr.contains _spread_delim s = false ->
  float_of_str s = None ->
  eval_float_array s = None ->
  in_strs (PyStr.upper (PyStr.strip s)) _float_str_vals = true ->
  __init__ a = Ok p ->
  (_avg p = VStr "NA" \/ _avg p = VStr "BAND")
  /\ _avg p = VStr (PyStr.upper (PyStr.strip s))
  /\ _med p = _avg p
  /\ _is_empty p 1 = Ok true
  /\ (forall band_id nsample min max null,
        sample p band_id nsample min max null = Ok (_avg p, p)).
Proof.
  intros Hk Hinp Hd Hf He Hin Hinit.
  apply __init___inv in Hinit as [self [Ht Hstore]].
  rewrite Hk in Ht. rewrite Hinp in Hstore.
  unfold _store_param in Hstore. rewrite Ht in Hstore.
  unfold _store_float, _store_float_str in Hstore. rewrite Hd in Hstore.
  unfold _float, py_float in Hstore. rewrite Hf, He, Hin in Hstore.
  cbn [bind fst snd] in Hstore. injection Hstore as <-.
  pose proof (in_float_str_vals _ Hin) as Hcases.
  cbn [_avg _med set_std set_med set_avg _zero].
  assert (Havg : forall h, _avg (set_std (fst h) (snd h)) = _avg (snd h)) by reflexivity.
  destruct Hcases as [Hs|Hs]; rewrite Hs; repeat split; auto.
Qed.

(** ** Texts without spread *)

Lemma py_getitem_zeros (n : nat) (a : list float) (i : Z) (x : float) :
  length a = n -> py_getitem a i = Ok x -> py_getitem (repeat 0%float n) i = Ok 0%float.
Proof.
  intros Hn. unfold py_getitem. rewrite repeat_length, Hn.
  destruct (py_index n i) as [k|] eqn:Hk; [| discriminate].
  destruct (a !! k) as [y|] eqn:Hy; [| discriminate]. intros _.
  apply lookup_lt_Some in Hy.
  destruct (repeat 0%float n !! k) as [z|] eqn:Hz.
  - apply list_elem_of_lookup_2 in Hz. apply list_elem_of_In in Hz.
    apply repeat_spec in Hz. subst z. reflexivity.
  - apply lookup_ge_None in Hz. rewrite repeat_length in Hz. lia.
Qed.

Lemma py_getitem_empty {A : Type} (i : Z) : py_getitem (@nil A) i = Raise IndexError.
Proof.
  unfold py_getitem. destruct (py_index (length (@nil A)) i); reflexivity.
Qed.

Lemma sample_spreadless (a : init_args) (p : Param) (s : string) :
  declared_kind a = TFloat ->
  arg_inp a = InVal (VStr s) ->
  PyStr.contains _spread_delim s = false ->
  __init__ a = Ok p ->
  forall band_id nsample min max null,
    sample p band_id nsample min max null
    = bind (get_avg p band_id) (fun v => Ok (v, p)).
Proof.
  intros Hk Hinp Hd Hinit band_id nsample min max null.
  apply __init___fresh in Hinit as [self [S0 [_ [Ht Hstore]]]].
  rewrite Hk in Ht. rewrite Hinp in Hstore.
  unfold _store_param in Hstore. rewrite Ht in Hstore.
  unfold _store_float, _store_float_str in Hstore. rewrite Hd in Hstore.
  unfold _float, py_float in Hstore.
  destruct (float_of_str s) as [x|].
  - (* a number *)
    cbn [bind fst snd] in Hstore. injection Hstore as <-. reflexivity.
  - destruct (eval_float_array s) as [arr|].
    + (* an array *)
      cbn [bind fst snd] in Hstore. unfold alloc in Hstore.
      cbn [fst snd store set_store set_val set_avg set_med set_mult_bands _avg]
        in Hstore.
      rewrite S0 in Hstore. cbn [app length] in Hstore.
      unfold _zero, py_len in Hstore.
      cbn [store set_store set_val set_avg set_med set_mult_bands _avg] in Hstore.
      change ([OArr (to_SI_array (unit self) arr)] !! 0%nat)
        with (Some (OArr (to_SI_array (unit self) arr))) in Hstore.
      cbv iota beta in Hstore. unfold alloc in Hstore.
      cbn [fst snd store set_store set_val set_avg set_med set_mult_bands _avg
           app length] in Hstore.
      set (arr' := to_SI_array (unit self) arr) in *.
      assert (Hval : _val p = VNone) by (injection Hstore as <-; reflexivity).
      assert (Havg : _avg p = VRef 0) by (injection Hstore as <-; reflexivity).
      assert (Hmed : _med p = VRef 0) by (injection Hstore as <-; reflexivity).
      assert (Hstd : _std p = VRef 1) by (injection Hstore as <-; reflexivity).
      assert (Hmb : _mult_bands p = Some true) by (injection Hstore as <-; reflexivity).
      assert (Hst : store p = [OArr arr'; OArr (repeat 0%float (length arr'))])
        by (injection Hstore as <-; reflexivity).
      clear Hstore.
      unfold sample, get_avg, fetch, _is_empty, get_mult_bands, subscript.
      rewrite Hval, Havg, Hmed, Hstd, Hmb, Hst.
      cbn [is_none negb andb bind].
      change (([OArr arr'; OArr (repeat 0%float (length arr'))] : list obj) !! 0%nat)
        with (Some (OArr arr')).
      change (([OArr arr'; OArr (repeat 0%float (length arr'))] : list obj) !! 1%nat)
        with (Some (OArr (repeat 0%float (length arr')))).
      cbv iota beta.
      destruct (py_getitem arr' (1 - 1)) as [x0|e0] eqn:E0; cbn [bind].
      * cbn [is_float_str_val].
        destruct (py_getitem arr' (band_id - 1)) as [x|e] eqn:E; cbn [bind].
        -- rewrite (py_getitem_zeros _ arr' _ x eq_refl E). cbn [bind fst snd].
           unfold std_is_NA_or_not_positive.
           change (0 <=? 0)%float with true. reflexivity.
        -- reflexivity.
      * destruct arr' as [|y arr''] eqn:Harr.
        -- rewrite py_getitem_empty in E0. injection E0 as <-.
           rewrite py_getitem_empty. reflexivity.
        -- exfalso. unfold py_getitem, py_index in E0. simpl in E0. discriminate E0.
    + (* a sentinel *)
      destruct (in_strs (PyStr.upper (PyStr.strip s)) _float_str_vals) eqn:Hin;
        [| discriminate Hstore].
      cbn [bind fst snd] in Hstore. injection Hstore as <-.
      destruct (in_float_str_vals _ Hin) as [Hs|Hs]; rewrite Hs; reflexivity.
Qed.

(** X9: a float Parameter built from a text without the spread delimiter
    (a number, an array or a sentinel) is never perturbed: whatever the
    number of samples, the bounds and [null], [sample] returns what
    [get_avg] returns for the band, and raises where it raises. *)
Theorem spreadless_text_is_sampled_as_fetched (a : init_args) (p : Param)
    (s : string) :
  declared_kind a = TFloat ->
  arg_inp a = InVal (VStr s) ->
  PyStr.contains _spread_delim s = false ->
  __init__ a = Ok p ->
  forall band_id nsample min max null,
    sample p band_id nsample min max null
    = bind (get_avg p band_id) (fun v => Ok (v, p)).
Proof.
  exact (sample_spreadless a p s).
Qed.

(** ** Booleans *)

Lemma lower_char_not_upper (c : ascii) : PyStr.is_upper (PyStr.lower_char c) = false.
Proof.
  destruct c as [[] [] [] [] [] [] [] []]; reflexivity.
Qed.

Lemma space_kept_by_case (c : ascii) :
  PyStr.is_space c = true -> PyStr.upper_char (PyStr.lower_char c) = c.
Proof.
  destruct c as [[] [] [] [] [] [] [] []]; intros H; try reflexivity; discriminate H.
Qed.

Lemma chars_lower (s : string) (c : ascii) :
  In c (list_ascii_of_string (PyStr.lower s)) -> PyStr.is_upper c = false.
Proof.
  induction s as [|d s IH]; simpl; [tauto |].
  intros [<-|H]; [apply lower_char_not_upper | auto].
Qed.

Lemma chars_lstrip (s : string) (c : ascii) :
  In c (list_ascii_of_string (PyStr.lstrip s)) -> In c (list_ascii_of_string s).
Proof.
  induction s as [|d s IH]; simpl; [tauto |].
  destruct (PyStr.is_space d); simpl; auto.
Qed.

Lemma chars_rev_onto (s acc : string) (c : ascii) :
  In c (list_ascii_of_string (PyStr.rev_onto s acc)) ->
  In c (list_ascii_of_string s) \/ In c (list_ascii_of_string acc).
Proof.
  revert acc. induction s as [|d s IH]; simpl; intros acc H; [auto |].
  apply IH in H as [H|H]; simpl in H; tauto.
Qed.

Lemma chars_strip (s : string) (c : ascii) :
  In c (list_ascii_of_string (PyStr.strip s)) -> In c (list_ascii_of_string s).
Proof.
  unfold PyStr.strip, PyStr.rstrip, PyStr.rev. intros H.
  apply chars_rev_onto in H as [H|H]; [| destruct H].
  apply chars_lstrip in H.
  apply chars_rev_onto in H as [H|H]; [| destruct H].
  apply chars_lstrip in H. exact H.
Qed.

(** X10: [_store_bool] capitalizes before it strips, so a boolean text
    that starts with a blank is rejected whatever follows: the capital goes
    to the blank, and what is left after stripping has no upper-case
    letter. *)
Theorem boolean_after_a_blank_is_rejected (self : Param) (c : ascii) (r : string) :
  PyStr.is_space c = true ->
  _store_bool self (InVal (VStr (String c r))) =
    Raise (Fatal "Failed to parse boolean input").
Proof.
  intros Hc. unfold _store_bool.
  assert (Hval : PyStr.strip (PyStr.capitalize (PyStr.lower (String c r)))
                 = PyStr.strip (PyStr.lower (PyStr.lower r))).
  { change (PyStr.lower (String c r)) with (String (PyStr.lower_char c) (PyStr.lower r)).
    cbn [PyStr.capitalize]. rewrite space_kept_by_case by exact Hc.
    unfold PyStr.strip at 1. cbn [PyStr.lstrip]. rewrite Hc. reflexivity. }
  rewrite Hval.
  assert (Hno : forall d, In d (list_ascii_of_string
                  (PyStr.strip (PyStr.lower (PyStr.lower r)))) ->
                PyStr.is_upper d = false).
  { intros d Hd. apply chars_strip in Hd. eapply chars_lower; exact Hd. }
  destruct (String.eqb _ "True") eqn:E1.
  { apply String.eqb_eq in E1. rewrite E1 in Hno.
    specialize (Hno "T"%char (or_introl eq_refl)). discriminate Hno. }
  destruct (String.eqb _ "False") eqn:E2.
  { apply String.eqb_eq in E2. rewrite E2 in Hno.
    specialize (Hno "F"%char (or_introl eq_refl)). discriminate Hno. }
  reflexivity.
Qed.

End ParameterTexts.

(** X6, for the parameter 100 +/- 10: it cannot be changed to NA. *)
Lemma change_of_a_number_to_NA :
  @change Ref.runtime gaussian_100_10 (VStr "NA") None 1
  = Raise (AttributeError "upper").
Proof.
  destruct (@change_to_string Ref.runtime gaussian_100_10 "NA" None 1)
    as [_ [H _]].
  - reflexivity.
  - apply (H 100%float). reflexivity.
Defined.

(** X7, for the steady distribution in a unit of factor 1000: fetched as
    2000, sampled as 3. *)
Lemma distribution_sampled_raw_example :
  exists p,
    @__init__ Ref.runtime dist_args = Ok p
    /\ fetch p 1 = Ok (VFloat 2000, VFloat 2000, VFloat 500)
    /\ @sample Ref.runtime p 1 1 (Some 10%float) None false = Ok (VFloat 3, p).
Proof.
  destruct (@__init__ Ref.runtime dist_args) as [p|e] eqn:Hp;
    [| vm_compute in Hp; discriminate Hp].
  exists p. split; [reflexivity |].
  destruct (@distribution_is_sampled_raw Ref.runtime dist_args p steady_dist)
    as [Hf [Hs _]].
  - reflexivity.
  - reflexivity.
  - exact Hp.
  - split.
    + rewrite Hf. vm_compute in Hp. injection Hp as <-. vm_compute. reflexivity.
    + apply Hs.
Defined.

(** X8, for the text na between blanks. *)
Lemma sentinel_between_blanks :
  exists p,
    @__init__ Ref.runtime (literal_args TFloat " na ") = Ok p
    /\ _avg p = VStr "NA"
    /\ @sample Ref.runtime p 1 3 None None false = Ok (VStr "NA", p).
Proof.
  destruct (@__init__ Ref.runtime (literal_args TFloat " na ")) as [p|e] eqn:Hp;
    [| vm_compute in Hp; discriminate Hp].
  exists p. split; [reflexivity |].
  destruct (@sentinel_is_stored_normalised Ref.runtime
              (literal_args TFloat " na ") p " na ") as [_ [Ha [_ [_ Hs]]]].
  - reflexivity.
  - reflexivity.
  - vm_compute. reflexivity.
  - vm_compute. reflexivity.
  - vm_compute. reflexivity.
  - vm_compute. reflexivity.
  - exact Hp.
  - split.
    + rewrite Ha. vm_compute. reflexivity.
    + rewrite Hs, Ha. vm_compute. reflexivity.
Defined.

(** X9, for the literal 5: three samples asked with [null] give 5. *)
Lemma literal_5_is_sampled_as_5 :
  @sample Ref.runtime bounded_5 1 3 None None true = Ok (VFloat 5, bounded_5).
Proof.
  rewrite (@spreadless_text_is_sampled_as_fetched Ref.runtime
             (bounded_literal "5") bounded_5 "5").
  - reflexivity.
  - reflexivity.
  - reflexivity.
  - vm_compute. reflexivity.
  - exact bounded_5_constructed.
Defined.

(** X10, for the text True after a space. *)
Lemma boolean_True_after_a_space :
  _store_bool gaussian_100_10 (InVal (VStr " True"))
  = Raise (Fatal "Failed to parse boolean input").
Proof.
  apply (boolean_after_a_blank_is_rejected gaussian_100_10 " "%char "True").
  reflexivity.
Defined.

Section OpticLists.

Context {rt : PyRuntime}.

(** ** The lists of an optic *)

Lemma append_spec (p p' : Param) (l : nat) (x : pyval) :
  append p (VRef l) x = Ok p' ->
  exists items, store p !! l = Some (OList items)
    /\ p' = set_store (<[l := OList (items ++ [x])]> (store p)) p.
Proof.
  unfold append. intros H.
  destruct (store p !! l) as [[a|items]|]; try discriminate H.
  injection H as <-. eauto.
Qed.

Lemma four_appends (p p1 p2 p3 p4 : Param) (n0 : nat) (v a m s : pyval)
    (vs avs ms ss : list pyval) :
  store p !! n0 = Some (OList vs) ->
  store p !! (n0 + 1) = Some (OList avs) ->
  store p !! (n0 + 2) = Some (OList ms) ->
  store p !! (n0 + 3) = Some (OList ss) ->
  append p (VRef n0) v = Ok p1 ->
  append p1 (VRef (n0 + 1)) a = Ok p2 ->
  append p2 (VRef (n0 + 2)) m = Ok p3 ->
  append p3 (VRef (n0 + 3)) s = Ok p4 ->
  store p4 !! n0 = Some (OList (vs ++ [v]))
  /\ store p4 !! (n0 + 1) = Some (OList (avs ++ [a]))
  /\ store p4 !! (n0 + 2) = Some (OList (ms ++ [m]))
  /\ store p4 !! (n0 + 3) = Some (OList (ss ++ [s])).
Proof.
  intros Hv Ha Hm Hs H1 H2 H3 H4.
  apply append_spec in H1 as [i1 [L1 ->]]. rewrite Hv in L1. injection L1 as <-.
  assert (Hlt0 : n0 < length (store p)) by (eapply lookup_lt_Some; eauto).
  assert (Hlt1 : n0 + 1 < length (store p)) by (eapply lookup_lt_Some; eauto).
  assert (Hlt2 : n0 + 2 < length (store p)) by (eapply lookup_lt_Some; eauto).
  assert (Hlt3 : n0 + 3 < length (store p)) by (eapply lookup_lt_Some; eauto).
  apply append_spec in H2 as [i2 [L2 ->]]. cbn [store set_store] in L2.
  rewrite list_lookup_insert_ne in L2 by lia. rewrite Ha in L2. injection L2 as <-.
  apply append_spec in H3 as [i3 [L3 ->]]. cbn [store set_store] in L3.
  rewrite !list_lookup_insert_ne in L3 by lia. rewrite Hm in L3. injection L3 as <-.
  apply append_spec in H4 as [i4 [L4 ->]]. cbn [store set_store] in L4.
  rewrite !list_lookup_insert_ne in L4 by lia. rewrite Hs in L4. injection L4 as <-.
  cbn [store set_store].
  repeat split.
  - rewrite !list_lookup_insert_ne by lia.
    apply list_lookup_insert_eq. exact Hlt0.
  - rewrite !list_lookup_insert_ne by lia.
    apply list_lookup_insert_eq. rewrite length_insert. exact Hlt1.
  - rewrite !list_lookup_insert_ne by lia.
    apply list_lookup_insert_eq. rewrite !length_insert. exact Hlt2.
  - apply list_lookup_insert_eq. rewrite !length_insert. exact Hlt3.
Qed.

Lemma store_band_entry_lists (dist_dict : gmap string Distribution)
    (std_val : pyval) (self p : Param) (n0 i : nat) (mv : pyval)
    (vs avs ms ss : list pyval) :
  store self !! n0 = Some (OList vs) ->
  store self !! (n0 + 1) = Some (OList avs) ->
  store self !! (n0 + 2) = Some (OList ms) ->
  store self !! (n0 + 3) = Some (OList ss) ->
  store_band_entry dist_dict std_val (VRef n0) (VRef (n0 + 1)) (VRef (n0 + 2))
    (VRef (n0 + 3)) self i mv = Ok p ->
  exists v a m s,
    store p !! n0 = Some (OList (vs ++ [v]))
    /\ store p !! (n0 + 1) = Some (OList (avs ++ [VFloat a]))
    /\ store p !! (n0 + 2) = Some (OList (ms ++ [VFloat m]))
    /\ store p !! (n0 + 3) = Some (OList (ss ++ [VFloat s])).
Proof.
  intros Hv Ha Hm Hs H. unfold store_band_entry in H.
  apply bind_Ok_inv in H as [sv [_ H]].
  apply bind_Ok_inv in H as [pdf [_ H]].
  destruct pdf.
  - apply bind_Ok_inv in H as [ids [_ H]].
    apply bind_Ok_inv in H as [bid [_ H]].
    apply bind_Ok_inv in H as [dist [_ H]].
    apply bind_Ok_inv in H as [p1 [H1 H]].
    apply bind_Ok_inv in H as [p2 [H2 H]].
    apply bind_Ok_inv in H as [p3 [H3 H]].
    do 4 eexists. eapply four_appends; eauto.
  - apply bind_Ok_inv in H as [p1 [H1 H]].
    apply bind_Ok_inv in H as [a [_ H]].
    apply bind_Ok_inv in H as [p2 [H2 H]].
    apply bind_Ok_inv in H as [m [_ H]].
    apply bind_Ok_inv in H as [p3 [H3 H]].
    apply bind_Ok_inv in H as [s [_ H]].
    do 4 eexists. eapply four_appends; eauto.
Qed.

Lemma store_band_entries_lists (dist_dict : gmap string Distribution)
    (std_val : pyval) (means : list pyval) (self p : Param) (n0 i : nat)
    (vs avs ms ss : list pyval) :
  store self !! n0 = Some (OList vs) ->
  store self !! (n0 + 1) = Some (OList avs) ->
  store self !! (n0 + 2) = Some (OList ms) ->
  store self !! (n0 + 3) = Some (OList ss) ->
  Forall is_float avs -> Forall is_float ms -> Forall is_float ss ->
  store_band_entries dist_dict std_val (VRef n0) (VRef (n0 + 1)) (VRef (n0 + 2))
    (VRef (n0 + 3)) self i means = Ok p ->
  exists vs' avs' ms' ss',
    store p !! n0 = Some (OList vs')
    /\ store p !! (n0 + 1) = Some (OList avs')
    /\ store p !! (n0 + 2) = Some (OList ms')
    /\ store p !! (n0 + 3) = Some (OList ss')
    /\ length vs' = length vs + length means
    /\ length avs' = length avs + length means
    /\ length ms' = length ms + length means
    /\ length ss' = length ss + length means
    /\ Forall is_float avs' /\ Forall is_float ms' /\ Forall is_float ss'.
Proof.
  revert self i vs avs ms ss.
  induction means as [|mv rest IH]; intros self i vs avs ms ss Hv Ha Hm Hs Fa Fm Fs H;
    simpl in H.
  - injection H as <-. exists vs, avs, ms, ss. simpl. repeat split; auto; lia.
  - apply bind_Ok_inv in H as [p1 [H1 H]].
    eapply store_band_entry_lists in H1 as [v [a [m [s [Hv1 [Ha1 [Hm1 Hs1]]]]]]]; eauto.
    eapply IH in H as [vs' [avs' [ms' [ss' R]]]]; eauto.
    + exists vs', avs', ms', ss'.
      destruct R as (? & ? & ? & ? & L1 & L2 & L3 & L4 & ? & ? & ?).
      rewrite length_app in L1, L2, L3, L4. simpl in *.
      repeat split; auto; lia.
    + apply Forall_app; split; [exact Fa | repeat constructor; eexists; reflexivity].
    + apply Forall_app; split; [exact Fm | repeat constructor; eexists; reflexivity].
    + apply Forall_app; split; [exact Fs | repeat constructor; eexists; reflexivity].
Qed.

(** X11: a per-band Parameter that the constructor builds from the pair
    of an optic holds its values, averages, medians and spreads in four
    lists of its own, all of one length, the last three of floats only. *)
Theorem optic_bands_are_four_equal_lists (a : init_args) (p : Param)
    (param_str : pyval) (dist_dict : gmap string Distribution) :
  declared_kind a = TFloat ->
  arg_inp a = InPair param_str (Some dist_dict) ->
  __init__ a = Ok p ->
  _mult_bands p = Some true ->
  exists vals avgs meds stds,
    _val p = VRef 0 /\ store p !! 0 = Some (OList vals)
    /\ _avg p = VRef 1 /\ store p !! 1 = Some (OList avgs)
    /\ _med p = VRef 2 /\ store p !! 2 = Some (OList meds)
    /\ _std p = VRef 3 /\ store p !! 3 = Some (OList stds)
    /\ length avgs = length vals /\ length meds = length vals
    /\ length stds = length vals
    /\ Forall is_float avgs /\ Forall is_float meds /\ Forall is_float stds.
Proof.
  intros Hk Hinp Hinit Hmb.
  assert (Hs0 : exists self, store self = [] /\ _mult_bands self = None
                 /\ _store_float_pair self param_str (Some dist_dict) = Ok p).
  { unfold __init__ in Hinit.
    apply bind_Ok_inv in Hinit as [self [Hself Hinit]].
    apply bind_Ok_inv in Hinit as [p1 [Hst Hinit]].
    apply bind_Ok_inv in Hinit as [t [_ Hinit]]. injection Hinit as ->.
    exists self. unfold declared_kind in Hk.
    assert (Hself' : store self = [] /\ _mult_bands self = None /\ _type self = TFloat).
    { destruct (arg_std_param a) as [sp|].
      - injection Hself as <-. simpl. auto.
      - apply bind_Ok_inv in Hself as [lo [_ Hself]].
        apply bind_Ok_inv in Hself as [hi [_ Hself]].
        injection Hself as <-. simpl. auto. }
    destruct Hself' as [S0 [M0 T0]]. repeat split; auto.
    unfold _store_param in Hst. rewrite T0, Hinp in Hst. exact Hst. }
  destruct Hs0 as [self [S0 [M0 H]]].
  unfold _store_float_pair in H.
  apply bind_Ok_inv in H as [s [_ H]].
  apply bind_Ok_inv in H as [[mean_val std_val] [_ H]]. cbn [fst snd] in H.
  destruct mean_val; try discriminate H.
  - exfalso. cbn [bind] in H. destruct (negb (is_none std_val)).
    + destruct std_val; try discriminate H. injection H as <-.
      simpl in Hmb. congruence.
    + injection H as <-. simpl in Hmb. congruence.
  - exfalso. destruct (negb (is_none std_val)).
    + destruct std_val; try discriminate H. injection H as <-.
      simpl in Hmb. congruence.
    + injection H as <-. simpl in Hmb. congruence.
  - exfalso. destruct (negb (is_none std_val)).
    + destruct std_val; try discriminate H. injection H as <-.
      simpl in Hmb. congruence.
    + injection H as <-. simpl in Hmb. congruence.
  - exfalso. destruct (PyStr.contains "PDF" (PyStr.upper s0)); [| discriminate H].
    apply bind_Ok_inv in H as [dist [_ H]]. injection H as <-. discriminate Hmb.
  - apply bind_Ok_inv in H as [_ [_ H]].
    apply bind_Ok_inv in H as [_ [_ H]].
    unfold alloc in H. cbn [fst snd store set_store set_val set_avg set_med set_std
      set_mult_bands _val _avg _med _std] in H.
    rewrite S0 in H. cbn [length app] in H.
    pose proof H as Hattr.
    apply store_band_entries_attributes in Hattr as [Havg Hstd].
    assert (Hvm : forall (q q' : Param) i l,
      store_band_entries dist_dict std_val (VRef 0) (VRef 1) (VRef 2) (VRef 3) q i l = Ok q' ->
      _val q' = _val q /\ _med q' = _med q).
    { intros q q' i l. revert q i. induction l as [|mv rest IH]; intros q i Hq; simpl in Hq.
      - injection Hq as <-. auto.
      - apply bind_Ok_inv in Hq as [q1 [Hq1 Hq]]. apply IH in Hq as [-> ->].
        unfold store_band_entry in Hq1.
        assert (Happ : forall r r' v x, append r v x = Ok r' ->
                  _val r' = _val r /\ _med r' = _med r).
        { intros r r' v x Hr. unfold append in Hr. destruct v as [| | | | | |loc|]; try discriminate Hr.
          destruct (store r !! loc) as [[?|?]|]; try discriminate Hr.
          injection Hr as <-. auto. }
        apply bind_Ok_inv in Hq1 as [sv [_ Hq1]].
        apply bind_Ok_inv in Hq1 as [pdf [_ Hq1]].
        destruct pdf.
        + apply bind_Ok_inv in Hq1 as [ids [_ Hq1]].
          apply bind_Ok_inv in Hq1 as [bid [_ Hq1]].
          apply bind_Ok_inv in Hq1 as [dist [_ Hq1]].
          apply bind_Ok_inv in Hq1 as [r1 [A1 Hq1]].
          apply bind_Ok_inv in Hq1 as [r2 [A2 Hq1]].
          apply bind_Ok_inv in Hq1 as [r3 [A3 Hq1]].
          apply Happ in A1, A2, A3, Hq1. intuition congruence.
        + apply bind_Ok_inv in Hq1 as [r1 [A1 Hq1]].
          apply bind_Ok_inv in Hq1 as [x1 [_ Hq1]].
          apply bind_Ok_inv in Hq1 as [r2 [A2 Hq1]].
          apply bind_Ok_inv in Hq1 as [x2 [_ Hq1]].
          apply bind_Ok_inv in Hq1 as [r3 [A3 Hq1]].
          apply bind_Ok_inv in Hq1 as [x3 [_ Hq1]].
          apply Happ in A1, A2, A3, Hq1. intuition congruence. }
    pose proof (Hvm _ _ _ _ H) as [Hval Hmed].
    eapply (store_band_entries_lists dist_dict std_val items _ p 0 0 [] [] [] [])
      in H as (vs' & avs' & ms' & ss' & L0 & L1 & L2 & L3 & N0 & N1 & N2 & N3 & F1 & F2 & F3);
      try reflexivity; try constructor.
    exists vs', avs', ms', ss'. simpl in *.
    repeat split; auto; lia.
Qed.

End OpticLists.

(** X11, for the optic [1,2] +/- [0.1,0.2]. *)
Lemma optic_of_two_bands :
  exists p avgs stds,
    @__init__ Ref.runtime (optic_args "[1,2] +/- [0.1,0.2]") = Ok p
    /\ store p !! 1%nat = Some (OList avgs)
    /\ store p !! 3%nat = Some (OList stds)
    /\ length stds = length avgs.
Proof.
  destruct (@__init__ Ref.runtime (optic_args "[1,2] +/- [0.1,0.2]")) as [p|e] eqn:Hp;
    [| vm_compute in Hp; discriminate Hp].
  destruct (@optic_bands_are_four_equal_lists Ref.runtime
              (optic_args "[1,2] +/- [0.1,0.2]") p
              (VStr "[1,2] +/- [0.1,0.2]") ∅)
    as (vals & avgs & meds & stds & _ & _ & _ & Ha & _ & _ & _ & Hs & La & _ & Ls & _).
  - reflexivity.
  - reflexivity.
  - exact Hp.
  - vm_compute in Hp. injection Hp as <-. reflexivity.
  - exists p, avgs, stds. split; [reflexivity |].
    split; [exact Ha |]. split; [exact Hs |]. congruence.
Defined.

(* ===================================================================== *)
(** * Further properties of the Sensitivity engine *)
(* ===================================================================== *)

Section SensitivityArrays.

(** ** The comprehensions over observations and detectors *)

Lemma comprehension_Ok {A : Type} (var : string) (vals : list Z) (env : gmap string Z)
    (body : gmap string Z -> result A) (g : Z -> A) :
  (forall v, In v vals -> body (<[var := v]> env) = Ok (g v)) ->
  comprehension var vals env body = Ok (map g vals).
Proof.
  induction vals as [|v r IH]; intros H; simpl; [reflexivity |].
  rewrite (H v) by (left; reflexivity).
  rewrite IH by (intros w Hw; apply H; right; exact Hw). reflexivity.
Qed.

Lemma range_of_SInt (self : gmap string sval) (a : string) (n : Z) :
  self !! a = Some (SInt n) ->
  range_of self a = Ok (map Z.of_nat (seq 0 (Z.to_nat n))).
Proof.
  intros H. unfold range_of, getattr. rewrite H. reflexivity.
Qed.

Lemma per_obs_per_det_Ok {A : Type} (self : gmap string sval) (n m : Z)
    (body : gmap string Z -> result A) (g : nat -> nat -> A) :
  self !! "_nobs" = Some (SInt n) ->
  self !! "_ndet" = Some (SInt m) ->
  (forall i j, (i < Z.to_nat n)%nat -> (j < Z.to_nat m)%nat ->
     body (<["j" := Z.of_nat j]> (<["i" := Z.of_nat i]> ∅)) = Ok (g i j)) ->
  per_obs_per_det self body =
    Ok (map (fun i => map (g i) (seq 0 (Z.to_nat m))) (seq 0 (Z.to_nat n))).
Proof.
  intros Hn Hm Hbody. unfold per_obs_per_det.
  rewrite (range_of_SInt _ _ _ Hn). cbn [bind].
  rewrite (comprehension_Ok "i" _ ∅ _
             (fun v => map (g (Z.to_nat v)) (seq 0 (Z.to_nat m)))).
  - rewrite map_map. f_equal. apply map_ext. intros i. rewrite Nat2Z.id. reflexivity.
  - intros v Hv. apply in_map_iff in Hv as [i [<- Hi]]. apply in_seq in Hi.
    rewrite (range_of_SInt _ _ _ Hm). cbn [bind].
    rewrite (comprehension_Ok "j" _ _ _ (fun w => g i (Z.to_nat w))).
    + rewrite map_map. rewrite Nat2Z.id. f_equal. apply map_ext. intros j.
      rewrite Nat2Z.id. reflexivity.
    + intros w Hw. apply in_map_iff in Hw as [j [<- Hj]]. apply in_seq in Hj.
      rewrite Nat2Z.id. apply Hbody; lia.
Qed.

Lemma py_getitem_nat {A : Type} (d : A) (l : list A) (i : nat) :
  (i < length l)%nat -> py_getitem l (Z.of_nat i) = Ok (nth i l d).
Proof.
  intros Hi. unfold py_getitem, py_index.
  replace ((0 <=? Z.of_nat i)%Z && (Z.of_nat i <? Z.of_nat (length l))%Z) with true
    by (symmetry; apply andb_true_iff; split; lia).
  rewrite Nat2Z.id. rewrite (lookup_nth_lt d) by exact Hi. reflexivity.
Qed.

Lemma py_getitem_nat_outside {A : Type} (l : list A) (i : nat) :
  (length l <= i)%nat -> py_getitem l (Z.of_nat i) = Raise IndexError.
Proof.
  intros Hi. unfold py_getitem, py_index.
  replace ((0 <=? Z.of_nat i)%Z && (Z.of_nat i <? Z.of_nat (length l))%Z) with false
    by (symmetry; apply andb_false_iff; right; lia).
  replace ((Z.of_nat i <? 0)%Z && (- Z.of_nat (length l) <=? Z.of_nat i)%Z) with false
    by (symmetry; apply andb_false_iff; left; lia).
  reflexivity.
Qed.

Lemma item2_nat {A : Type} (d : A) (n m : Z) (arr : list (list A)) (i j : nat) :
  rectangular n m arr -> (i < Z.to_nat n)%nat -> (j < Z.to_nat m)%nat ->
  item2 arr (Z.of_nat i) (Z.of_nat j) = Ok (nth j (nth i arr []) d).
Proof.
  intros [Hlen Hrows] Hi Hj. unfold item2.
  rewrite (py_getitem_nat [] arr i) by lia. cbn [bind].
  apply py_getitem_nat.
  rewrite Forall_forall in Hrows. rewrite (Hrows (nth i arr [])); [exact Hj |].
  apply list_elem_of_In. apply nth_In. lia.
Qed.

Lemma map_nth_seq {A : Type} (d : A) (l : list A) :
  map (fun i => nth i l d) (seq 0 (length l)) = l.
Proof.
  pose proof (skipn_as_seq d l 0) as H. simpl skipn in H.
  rewrite Nat.sub_0_r in H. symmetry. exact H.
Qed.

Lemma map_map_nth_seq {A B : Type} (d : A) (f : A -> B) (n m : Z) (arr : list (list A)) :
  rectangular n m arr ->
  map (fun i => map (fun j => f (nth j (nth i arr []) d)) (seq 0 (Z.to_nat m)))
    (seq 0 (Z.to_nat n)) = map (map f) arr.
Proof.
  intros [Hlen Hrows]. rewrite <- Hlen.
  rewrite <- (map_nth_seq [] arr) at 2. rewrite map_map.
  apply map_ext_in. intros i Hi. apply in_seq in Hi.
  assert (Hrow : length (nth i arr []) = Z.to_nat m).
  { rewrite Forall_forall in Hrows. apply Hrows.
    apply list_elem_of_In. apply nth_In. lia. }
  rewrite <- Hrow.
  transitivity (map f (map (fun j => nth j (nth i arr []) d)
                         (seq 0 (length (nth i arr []))))).
  - rewrite map_map. reflexivity.
  - rewrite map_nth_seq. reflexivity.
Qed.

Lemma elementwise_Ok {B : Type} (self : gmap string sval) (a : string) (n m : Z)
    (arr : list (list float)) (f : float -> B) :
  self !! "_nobs" = Some (SInt n) ->
  self !! "_ndet" = Some (SInt m) ->
  self !! a = Some (SArr2 arr) ->
  rectangular n m arr ->
  per_obs_per_det self (fun env =>
    bind (get_array self a) (fun xs =>
    bind (load_name env "i") (fun i =>
    bind (load_name env "j") (fun j =>
    bind (item2 xs i j) (fun x => Ok (f x))))))
  = Ok (map (map f) arr).
Proof.
  intros Hn Hm Ha Hrect.
  rewrite (per_obs_per_det_Ok self n m _
             (fun i j => f (nth j (nth i arr []) 0%float)) Hn Hm).
  - rewrite (map_map_nth_seq 0%float f n m arr Hrect). reflexivity.
  - intros i j Hi Hj. unfold get_array, getattr. rewrite Ha. cbn [bind].
    unfold load_name. rewrite lookup_insert_ne by discriminate.
    rewrite lookup_insert_eq. cbn [bind]. rewrite lookup_insert_eq. cbn [bind].
    rewrite (item2_nat 0%float n m arr i j Hrect Hi Hj). reflexivity.
Qed.

(** [l[-1]] is there on every list but the empty one. *)
Lemma py_getitem_last {A : Type} (l : list A) :
  l <> [] -> exists x, py_getitem l (-1) = Ok x.
Proof.
  intros Hne. unfold py_getitem, py_index. cbv zeta.
  assert (Hlen : (0 < length l)%nat) by (destruct l; [congruence | simpl; lia]).
  replace ((0 <=? -1)%Z && (-1 <? Z.of_nat (length l))%Z) with false by reflexivity.
  replace ((-1 <? 0)%Z && (- Z.of_nat (length l) <=? -1)%Z) with true
    by (symmetry; apply andb_true_iff; split; [reflexivity | apply Z.leb_le; lia]).
  destruct (lookup_lt_is_Some_2 l (Z.to_nat (Z.of_nat (length l) + -1))) as [x Hx];
    [lia |].
  rewrite Hx. eauto.
Qed.

(** The width of the band is there on every frequency grid but the empty
    one. *)
Lemma bandwidth_Ok (freqs : list float) :
  freqs <> [] -> exists bw, bandwidth freqs = Ok bw.
Proof.
  intros Hne. unfold bandwidth.
  destruct (py_getitem_last freqs Hne) as [hi ->]. cbn [bind].
  destruct freqs as [|lo rest]; [congruence |].
  eexists. reflexivity.
Qed.

Lemma _Trj_over_Tcmb_Ok
    (np_trapz : list float -> list float -> float)
    (Trj_over_Tb : list float -> float -> list float) (Tcmb : float)
    (freqs : list float) (bw : float) :
  bandwidth freqs = Ok bw ->
  _Trj_over_Tcmb np_trapz Trj_over_Tb Tcmb freqs
  = Ok (np_trapz (Trj_over_Tb freqs Tcmb) freqs / bw)%float.
Proof.
  intros H. unfold _Trj_over_Tcmb. rewrite H. reflexivity.
Qed.

Lemma _calc_NET_RJ_Ok
    (np_trapz : list float -> list float -> float)
    (Trj_over_Tb : list float -> float -> list float) (Tcmb : float)
    (self : gmap string sval) (ch : Channel) (n m : Z)
    (net corr : list (list float)) (factor : float) :
  self !! "_nobs" = Some (SInt n) ->
  self !! "_ndet" = Some (SInt m) ->
  self !! "_NET" = Some (SArr2 net) ->
  self !! "_NET_corr" = Some (SArr2 corr) ->
  rectangular n m net -> rectangular n m corr ->
  _Trj_over_Tcmb np_trapz Trj_over_Tb Tcmb (freqs ch) = Ok factor ->
  _calc_NET_RJ np_trapz Trj_over_Tb Tcmb self ch =
    Ok (<["_NET_corr_RJ" := SArr2 (map (map (fun x => factor * x)%float) corr)]>
       (<["_NET_RJ" := SArr2 (map (map (fun x => factor * x)%float) net)]>
          self)).
Proof.
  intros Hn Hm Hnet Hcorr Rnet Rcorr Hf. unfold _calc_NET_RJ, NET_RJ_of.
  rewrite Hf. cbn [bind].
  rewrite (elementwise_Ok self "_NET" n m net _ Hn Hm Hnet Rnet). cbn [bind].
  rewrite (elementwise_Ok _ "_NET_corr" n m corr).
  - reflexivity.
  - rewrite lookup_insert_ne by discriminate. exact Hn.
  - rewrite lookup_insert_ne by discriminate. exact Hm.
  - rewrite lookup_insert_ne by discriminate. exact Hcorr.
  - exact Rcorr.
Qed.

(** With an observation and a detector, [_calc_NET_RJ] on an empty
    frequency grid raises at the first item. *)
Lemma _calc_NET_RJ_empty_grid
    (np_trapz : list float -> list float -> float)
    (Trj_over_Tb : list float -> float -> list float) (Tcmb : float)
    (self : gmap string sval) (ch : Channel) (n m : Z) :
  self !! "_nobs" = Some (SInt n) ->
  self !! "_ndet" = Some (SInt m) ->
  (1 <= n)%Z -> (1 <= m)%Z ->
  freqs ch = [] ->
  _calc_NET_RJ np_trapz Trj_over_Tb Tcmb self ch = Raise IndexError.
Proof.
  intros Hn Hm Hn1 Hm1 Hf. unfold _calc_NET_RJ, NET_RJ_of, per_obs_per_det.
  rewrite (range_of_SInt _ _ _ Hn), (range_of_SInt _ _ _ Hm). cbn [bind].
  destruct (Z.to_nat n) as [|n'] eqn:En; [lia |].
  destruct (Z.to_nat m) as [|m'] eqn:Em; [lia |].
  cbn [seq map comprehension bind].
  rewrite Hf. reflexivity.
Qed.

Lemma zip_with_nth_seq {A B C : Type} (h : A -> B -> C) (d1 : A) (d2 : B)
    (l1 : list A) (l2 : list B) (n : nat) :
  length l1 = n -> length l2 = n ->
  map (fun i => h (nth i l1 d1) (nth i l2 d2)) (seq 0 n) = zip_with h l1 l2.
Proof.
  revert l2 n. induction l1 as [|x l1 IH]; intros l2 n H1 H2.
  - simpl in H1. subst n. reflexivity.
  - destruct l2 as [|y l2]; [simpl in *; congruence |].
    destruct n as [|n]; [discriminate |].
    simpl in H1, H2. injection H1 as H1. injection H2 as H2.
    simpl seq. simpl map. simpl zip_with. f_equal.
    rewrite <- seq_shift, map_map. simpl. apply IH; assumption.
Qed.

(** X12: [_calc_NET] on NEP arrays and transmissions of the shape
    observations by detectors: both the NET and the correlated NET are, item
    by item, the NET of the NEP item for the product of the transmissions of
    the chain (1 at every frequency for a chain of no element), times the
    one margin [net_mgn]; nothing else is assigned. *)
Theorem NET_takes_one_margin
    (noise_NET_from_NEP : float -> list float -> list float -> float -> float)
    (self : gmap string sval) (ch : Channel) (n m : Z)
    (nep nep_corr : list (list float)) :
  self !! "_nobs" = Some (SInt n) ->
  self !! "_ndet" = Some (SInt m) ->
  self !! "_NEP" = Some (SArr2 nep) ->
  self !! "_NEP_corr" = Some (SArr2 nep_corr) ->
  rectangular n m nep -> rectangular n m nep_corr -> rectangular n m (tran ch) ->
  let net_of x tr :=
    (noise_NET_from_NEP x (freqs ch) (np_prod_rows (freqs ch) tr) (opt_coup ch)
     * net_mgn ch)%float in
  _calc_NET noise_NET_from_NEP self ch =
    Ok (<["_NET_corr" := SArr2 (zip_with (zip_with net_of) nep_corr (tran ch))]>
       (<["_NET" := SArr2 (zip_with (zip_with net_of) nep (tran ch))]> self)).
Proof.
  intros Hn Hm Hnep Hcorr Rnep Rcorr Rtran net_of.
  assert (Hone : forall (s : gmap string sval) (a : string) (arr : list (list float)),
            s !! "_nobs" = Some (SInt n) -> s !! "_ndet" = Some (SInt m) ->
            s !! a = Some (SArr2 arr) -> rectangular n m arr ->
            NET_of noise_NET_from_NEP s ch a
            = Ok (zip_with (zip_with net_of) arr (tran ch))).
  { intros s a arr Hsn Hsm Ha Rarr. unfold NET_of.
    rewrite (per_obs_per_det_Ok s n m _
               (fun i j => noise_NET_from_NEP (nth j (nth i arr []) 0%float) (freqs ch)
                             (np_prod_rows (freqs ch) (nth j (nth i (tran ch) []) []))
                             (opt_coup ch)) Hsn Hsm).
    - cbn [bind]. f_equal. rewrite map_map.
      destruct Rarr as [La Fa]. destruct Rtran as [Lt Ft].
      rewrite <- (zip_with_nth_seq (zip_with net_of) [] [] arr (tran ch) (Z.to_nat n) La Lt).
      apply map_ext_in. intros i Hi. apply in_seq in Hi. rewrite map_map.
      apply (zip_with_nth_seq net_of 0%float []).
      + rewrite Forall_forall in Fa. apply Fa. apply list_elem_of_In. apply nth_In. lia.
      + rewrite Forall_forall in Ft. apply Ft. apply list_elem_of_In. apply nth_In. lia.
    - intros i j Hi Hj. unfold get_array, getattr. rewrite Ha. cbn [bind].
      unfold load_name. rewrite lookup_insert_ne by discriminate.
      rewrite lookup_insert_eq. cbn [bind]. rewrite lookup_insert_eq. cbn [bind].
      rewrite (item2_nat 0%float n m arr i j Rarr Hi Hj). cbn [bind].
      rewrite (item2_nat [] n m (tran ch) i j Rtran Hi Hj). reflexivity. }
  unfold _calc_NET.
  rewrite (Hone self "_NEP" nep Hn Hm Hnep Rnep). cbn [bind].
  rewrite (Hone _ "_NEP_corr" nep_corr).
  - reflexivity.
  - rewrite lookup_insert_ne by discriminate. exact Hn.
  - rewrite lookup_insert_ne by discriminate. exact Hm.
  - rewrite lookup_insert_ne by discriminate. exact Hcorr.
  - exact Rcorr.
Qed.

(** X13: the three steps after [_calc_NET], on NET arrays of the shape
    observations by detectors.  On a frequency grid that is not empty,
    [_calc_NET_RJ] scales both arrays by the one factor
    [_Trj_over_Tcmb(freqs)], the integral of the conversion spectrum over
    the width [freqs[-1] - freqs[0]] of the band; [_calc_NET_arr] combines
    the correlated NET, not the plain one; [_calc_NET_arr_RJ] then leaves
    in [_NET_arr] the combination of the scaled correlated NET; and the
    three steps assign nothing but [_NET_RJ], [_NET_corr_RJ] and
    [_NET_arr].  On an empty frequency grid, with an observation and a
    detector, [_calc_NET_RJ] raises IndexError. *)
Theorem NET_arr_pipeline
    (np_trapz : list float -> list float -> float)
    (Trj_over_Tb : list float -> float -> list float) (Tcmb : float)
    (noise_NET_arr : float -> Z -> float -> float)
    (self : gmap string sval) (ch : Channel) (n m : Z)
    (net corr : list (list float)) :
  self !! "_nobs" = Some (SInt n) ->
  self !! "_ndet" = Some (SInt m) ->
  self !! "_NET" = Some (SArr2 net) ->
  self !! "_NET_corr" = Some (SArr2 corr) ->
  rectangular n m net -> rectangular n m corr ->
  (freqs ch <> [] ->
   exists bw s1 s2 s3,
     let factor :=
       (np_trapz (Trj_over_Tb (freqs ch) Tcmb) (freqs ch) / bw)%float in
     bandwidth (freqs ch) = Ok bw
     /\ _calc_NET_RJ np_trapz Trj_over_Tb Tcmb self ch = Ok s1
     /\ _calc_NET_arr noise_NET_arr s1 ch = Ok s2
     /\ _calc_NET_arr_RJ noise_NET_arr s2 ch = Ok s3
     /\ s1 !! "_NET_RJ" = Some (SArr2 (map (map (fun x => factor * x)%float) net))
     /\ s1 !! "_NET_corr_RJ" =
          Some (SArr2 (map (map (fun x => factor * x)%float) corr))
     /\ s2 !! "_NET_arr" =
          Some (SArr2 (map (map (fun x =>
                  noise_NET_arr x (param_ndet ch) (param_yield ch))) corr))
     /\ s3 !! "_NET_arr" =
          Some (SArr2 (map (map (fun x =>
                  noise_NET_arr (factor * x)%float
                    (param_ndet ch) (param_yield ch))) corr))
     /\ (forall a, a <> "_NET_RJ"%string -> a <> "_NET_corr_RJ"%string ->
           a <> "_NET_arr"%string -> s3 !! a = self !! a))
  /\ (freqs ch = [] -> (1 <= n)%Z -> (1 <= m)%Z ->
      _calc_NET_RJ np_trapz Trj_over_Tb Tcmb self ch = Raise IndexError).
Proof.
  intros Hn Hm Hnet Hcorr Rnet Rcorr. split.
  2: { intros Hf Hn1 Hm1.
       apply (_calc_NET_RJ_empty_grid np_trapz Trj_over_Tb Tcmb self ch n m);
         assumption. }
  intros Hne. destruct (bandwidth_Ok (freqs ch) Hne) as [bw Hbw].
  pose (factor := (np_trapz (Trj_over_Tb (freqs ch) Tcmb) (freqs ch) / bw)%float).
  assert (Rrj : rectangular n m (map (map (fun x => factor * x)%float) corr)).
  { destruct Rcorr as [L F]. split; [rewrite length_map; exact L |].
    apply Forall_map. eapply Forall_impl; [exact F |].
    intros row Hrow. simpl. rewrite length_map. exact Hrow. }
  exists bw. eexists _, _, _. cbv zeta. fold factor.
  split; [exact Hbw |].
  split; [| split; [| split; [| split; [| split; [| split; [| split]]]]]].
  - apply (_calc_NET_RJ_Ok np_trapz Trj_over_Tb Tcmb self ch n m net corr factor);
      try assumption.
    apply _Trj_over_Tcmb_Ok. exact Hbw.
  - unfold _calc_NET_arr, NET_arr_of.
    rewrite (elementwise_Ok _ "_NET_corr" n m corr).
    + reflexivity.
    + rewrite !lookup_insert_ne by discriminate. exact Hn.
    + rewrite !lookup_insert_ne by discriminate. exact Hm.
    + rewrite !lookup_insert_ne by discriminate. exact Hcorr.
    + exact Rcorr.
  - unfold _calc_NET_arr_RJ, NET_arr_of.
    rewrite (elementwise_Ok _ "_NET_corr_RJ" n m
               (map (map (fun x => factor * x)%float) corr)).
    + reflexivity.
    + rewrite !lookup_insert_ne by discriminate. exact Hn.
    + rewrite !lookup_insert_ne by discriminate. exact Hm.
    + rewrite lookup_insert_ne by discriminate. apply lookup_insert_eq.
    + exact Rrj.
  - rewrite lookup_insert_ne by discriminate. apply lookup_insert_eq.
  - apply lookup_insert_eq.
  - apply lookup_insert_eq.
  - rewrite lookup_insert_eq. rewrite map_map. do 2 f_equal.
    apply map_ext. intros row. rewrite map_map. reflexivity.
  - intros a H1 H2 H3. rewrite !lookup_insert_ne by congruence. reflexivity.
Qed.

(** ** The map depths *)

(** X14: with at least one observation and one detector neither map depth
    is ever stored: [_calc_map_depth] raises NameError on [tel] once
    [_NET_arr] is there, and [_calc_map_depth_RJ] raises AttributeError on
    [_NET_arr_RJ], which no step assigns. *)
Theorem map_depth_is_never_stored (self : gmap string sval) (ch : Channel) (nobs ndet : Z) :
  self !! "_nobs" = Some (SInt nobs) ->
  self !! "_ndet" = Some (SInt ndet) ->
  (1 <= nobs)%Z -> (1 <= ndet)%Z ->
  (forall s', _calc_map_depth self ch <> Ok s')
  /\ (forall s', _calc_map_depth_RJ self ch <> Ok s')
  /\ (forall a, self !! "_NET_arr" = Some (SArr2 a) ->
        _calc_map_depth self ch = Raise (NameError "tel"))
  /\ (self !! "_NET_arr_RJ" = None ->
        _calc_map_depth_RJ self ch = Raise (AttributeError "_NET_arr_RJ")).
Proof.
  intros Hnobs Hndet Hpos1 Hpos2.
  destruct (range_of_positive self "_nobs" nobs Hnobs Hpos1) as [obs Hobs].
  destruct (range_of_positive self "_ndet" ndet Hndet Hpos2) as [dets Hdets].
  assert (Htel : forall v w : Z,
             load_name (<["i" := v]> (<["j" := w]> (∅ : gmap string Z))) "tel"
             = Raise (NameError "tel")).
  { intros v w. unfold load_name.
    rewrite !lookup_insert_ne by discriminate. rewrite lookup_empty. reflexivity. }
  unfold _calc_map_depth, _calc_map_depth_RJ, map_depth_of.
  rewrite Hobs. cbn [bind comprehension]. rewrite Hdets. cbn [bind comprehension].
  rewrite Htel.
  repeat split.
  - intros s' H. destruct (get_array self "_NET_arr"); simpl in H; discriminate.
  - intros s' H. destruct (get_array self "_NET_arr_RJ"); simpl in H; discriminate.
  - intros a Ha. unfold get_array, getattr. rewrite Ha. reflexivity.
  - intros Ha. unfold get_array, getattr. rewrite Ha. reflexivity.
Qed.

(** ** Efficiency towards the sky *)

Lemma map_result_Ok {A B : Type} (f : A -> result B) (g : A -> B) (l : list A) :
  (forall x, In x l -> f x = Ok (g x)) -> map_result f l = Ok (map g l).
Proof.
  induction l as [|x l IH]; intros H; simpl; [reflexivity |].
  rewrite (H x) by (left; reflexivity).
  rewrite IH by (intros y Hy; apply H; right; exact Hy). reflexivity.
Qed.

Lemma firstn_1_skipn {A : Type} (d : A) (l : list A) (i : nat) :
  (i < length l)%nat -> firstn 1 (skipn i l) = [nth i l d].
Proof.
  revert i. induction l as [|x l IH]; intros i Hi; simpl in Hi; [lia |].
  destruct i as [|i]; [reflexivity |]. simpl. apply IH. lia.
Qed.

Lemma reduce_mul_prod (rows : list (list float)) :
  rows <> [] -> reduce_mul rows = Ok (np_prod_axis0 rows).
Proof.
  destruct rows; [congruence | reflexivity].
Qed.

(** X15: the efficiencies towards the sky that [_opt_pow] computes for
    element [k >= 1] of a buffered chain are [k + 1] rows: row [m < k - 1]
    is the product of the transmissions of the elements [m+1 .. k-1], on
    either side of the test [m < k - 2], then a row of ones and a row of
    zeros. *)
Theorem sky_side_efficiency_rows (eff_arr : list (list float)) (freqs : list float)
    (k : nat) :
  (1 <= k <= length eff_arr)%nat ->
  exists rows,
    eff_towards_sky eff_arr freqs k = Ok rows
    /\ rows = map (fun m => np_prod_axis0 (slice eff_arr (m + 1) k)) (seq 0 (k - 1))
              ++ [ones freqs; zeros freqs]
    /\ length rows = (k + 1)%nat.
Proof.
  intros [Hk1 Hk2].
  destruct k as [|[|k]]; [lia | |].
  - eexists. split; [reflexivity |]. split; reflexivity.
  - eexists. split; [| split; [reflexivity |]].
    + unfold eff_towards_sky.
      rewrite (map_result_Ok _
                 (fun m => np_prod_axis0 (slice eff_arr (m + 1) (S (S k))))).
      * reflexivity.
      * intros m Hm. apply in_seq in Hm.
        destruct (m <? S (S k) - 2)%nat eqn:E.
        -- apply Nat.ltb_lt in E. apply reduce_mul_prod.
           unfold slice. intros Hnil. apply (f_equal (@length _)) in Hnil.
           rewrite length_firstn, length_skipn in Hnil. simpl in Hnil. lia.
        -- apply Nat.ltb_ge in E. assert (m = k) as -> by lia.
           rewrite (py_getitem_nat [] eff_arr (k + 1)) by lia.
           unfold slice. replace (S (S k) - (k + 1))%nat with 1%nat by lia.
           rewrite (firstn_1_skipn [] eff_arr (k + 1)) by lia. reflexivity.
    + rewrite length_app, length_map, length_seq. simpl. lia.
Qed.

(** ** The table of optical powers *)

Lemma nth_concat_uniform {A : Type} (d : A) (a : list (list A)) (n1 i j : nat) :
  Forall (fun o => length o = n1) a -> (i < length a)%nat -> (j < n1)%nat ->
  nth (i * n1 + j) (concat a) d = nth j (nth i a []) d.
Proof.
  revert i. induction a as [|o a IH]; intros i Hall Hi Hj; simpl in Hi; [lia |].
  inversion Hall as [|? ? Ho Ha]; subst.
  destruct i as [|i]; simpl.
  - rewrite app_nth1 by lia. reflexivity.
  - rewrite app_nth2 by lia.
    replace (length o + i * length o + j - length o)%nat with (i * length o + j)%nat by lia.
    apply IH; [exact Ha | lia | exact Hj].
Qed.

Lemma length_concat_uniform {A : Type} (a : list (list A)) (n1 : nat) :
  Forall (fun o => length o = n1) a -> length (concat a) = (length a * n1)%nat.
Proof.
  induction a as [|o a IH]; intros Hall; simpl; [reflexivity |].
  inversion Hall as [|? ? Ho Ha]; subst. rewrite length_app, IH by exact Ha. lia.
Qed.

(** X16: [_opt_table] on a nested list of shape [(n0, n1, n2)] with at
    least one observation and one detector: each table has [n2] rows of
    [n0 * n1] items, and row [c] holds at [i * n1 + j] the value of element
    [c] of detector [j] of observation [i]. *)
Theorem table_is_the_transposed_reshape (a : list (list (list float))) (n0 n1 n2 : nat) :
  cuboid n0 n1 n2 a -> (1 <= n0)%nat -> (1 <= n1)%nat ->
  exists t,
    reshape_transpose a = Ok t
    /\ length t = n2
    /\ Forall (fun row => length row = (n0 * n1)%nat) t
    /\ forall i j c, (i < n0)%nat -> (j < n1)%nat -> (c < n2)%nat ->
         nth (i * n1 + j) (nth c t []) 0%float
         = nth c (nth j (nth i a []) []) 0%float.
Proof.
  intros [L0 Hall] H0 H1.
  destruct a as [|o a']; [simpl in L0; lia |].
  assert (Ho : length o = n1 /\ Forall (fun d => length d = n2) o).
  { apply Forall_cons in Hall as [Ho _]. exact Ho. }
  destruct Ho as [Lo Fo].
  destruct o as [|r o']; [simpl in Lo; lia |].
  assert (Lr : length r = n2) by (apply Forall_cons in Fo as [Lr _]; exact Lr).
  set (a := (r :: o') :: a') in *.
  assert (Hlen1 : Forall (fun o => length o = n1) a).
  { eapply Forall_impl; [exact Hall |]. intros x [Hx _]. exact Hx. }
  assert (Hrows : Forall (fun d => length d = n2) (concat a)).
  { apply Forall_concat. eapply Forall_impl; [exact Hall |]. intros x [_ Hx]. exact Hx. }
  assert (Hchk : forallb (fun o => (length o =? length (hd [] a))%nat &&
                   forallb (fun d => (length d =? length r)%nat) o) a = true).
  { apply forallb_forall. intros x Hx. rewrite Forall_forall in Hall.
    destruct (Hall x) as [Hx1 Hx2]; [apply list_elem_of_In; exact Hx |].
    apply andb_true_iff. split.
    - apply Nat.eqb_eq. subst a. simpl hd. congruence.
    - apply forallb_forall. intros d Hd. apply Nat.eqb_eq.
      rewrite Forall_forall in Hx2. rewrite Lr. apply Hx2.
      apply list_elem_of_In. exact Hd. }
  exists (map (fun c => map (fun row => nth c row 0%float) (concat a)) (seq 0 n2)).
  split; [| split; [| split]].
  - unfold reshape_transpose. subst a. cbv zeta iota beta.
    rewrite Hchk. rewrite Lr. reflexivity.
  - rewrite length_map, length_seq. reflexivity.
  - apply Forall_map. apply Forall_forall. intros c _. unfold compose.
    rewrite length_map. rewrite (length_concat_uniform a n1 Hlen1). lia.
  - intros i j c Hi Hj Hc.
    rewrite (nth_indep _ [] (map (fun row => nth 0 row 0%float) (concat a)))
      by (rewrite length_map, length_seq; exact Hc).
    rewrite (map_nth (fun c => map (fun row => nth c row 0%float) (concat a))
               (seq 0 n2) 0%nat c).
    rewrite seq_nth by exact Hc. simpl plus.
    assert (Hidx : (i * n1 + j < length (concat a))%nat).
    { rewrite (length_concat_uniform a n1 Hlen1). nia. }
    rewrite (nth_indep _ 0%float (nth c [] 0%float)) by (rewrite length_map; exact Hidx).
    rewrite (map_nth (fun row => nth c row 0%float) (concat a) [] (i * n1 + j)).
    rewrite (nth_concat_uniform [] a n1 i j Hlen1) by lia. reflexivity.
Qed.

End SensitivityArrays.

(** X12, for one detector and a margin of 2: behind the toy chain, and
    behind a chain of no element, where the product handed over is 1 at
    either frequency. *)
Lemma NET_of_one_detector :
  (exists s,
     _calc_NET (fun x _ _ _ => x) nep_state one_detector = Ok s
     /\ s !! "_NET" = Some (SArr2 [[6%float]])
     /\ s !! "_NET_corr" = Some (SArr2 [[10%float]]))
  /\ (exists s,
        _calc_NET (fun x _ t _ => x * (nth 0 t 0 + nth 1 t 0))%float nep_state
          (mkChannel "Atacama" false 2 1 1 1 [[[]]] [[[]]] [[[]]] [[[]]]
             toy_freqs [1; 1]%float) = Ok s
        /\ s !! "_NET" = Some (SArr2 [[12%float]])
        /\ s !! "_NET_corr" = Some (SArr2 [[20%float]])).
Proof.
  split.
  - eexists. split.
    + apply (NET_takes_one_margin (fun x _ _ _ => x) nep_state one_detector 1 1
               [[3%float]] [[5%float]]).
      * reflexivity.
      * reflexivity.
      * reflexivity.
      * reflexivity.
      * split; [reflexivity | repeat constructor].
      * split; [reflexivity | repeat constructor].
      * split; [reflexivity | repeat constructor].
    + split; vm_compute; reflexivity.
  - eexists. split.
    + apply (NET_takes_one_margin
               (fun x _ t _ => x * (nth 0 t 0 + nth 1 t 0))%float nep_state
               (mkChannel "Atacama" false 2 1 1 1 [[[]]] [[[]]] [[[]]] [[[]]]
                  toy_freqs [1; 1]%float) 1 1 [[3%float]] [[5%float]]).
      * reflexivity.
      * reflexivity.
      * reflexivity.
      * reflexivity.
      * split; [reflexivity | repeat constructor].
      * split; [reflexivity | repeat constructor].
      * split; [reflexivity | repeat constructor].
    + split; vm_compute; reflexivity.
Defined.

(** X13, for one detector on the grid of 90 and 150 GHz, a conversion
    spectrum of 1 and the integral of a spectrum taken as the width of the
    grid times its first value: the factor is 1, and the stored
    combination ends as that of the scaled correlated NET; on the channel
    without frequencies the first step raises. *)
Lemma NET_arr_pipeline_one_by_one :
  (exists s3 : gmap string sval,
     _calc_NET_arr_RJ spec_NET_arr
       (<["_NET_arr" := SArr2 [[spec_NET_arr 8 1 1]]]>
          (<["_NET_corr_RJ" := SArr2 [[8%float]]]>
             (<["_NET_RJ" := SArr2 [[4%float]]]> one_by_one))) one_detector = Ok s3
     /\ s3 !! "_NET_arr" = Some (SArr2 [[spec_NET_arr 8 1 1]])
     /\ s3 !! "_NET_RJ" = Some (SArr2 [[4%float]]))
  /\ _calc_NET_RJ (fun y x => nth 0 y 0 * (nth 1 x 0 - nth 0 x 0))%float
       (fun x _ => ones x) 2.725 one_by_one (bare_channel "Atacama" false)
     = Raise IndexError.
Proof.
  destruct (NET_arr_pipeline
              (fun y x => nth 0 y 0 * (nth 1 x 0 - nth 0 x 0))%float
              (fun x _ => ones x) 2.725 spec_NET_arr one_by_one
              one_detector 1 1 [[4%float]] [[8%float]])
    as [H _].
  1-4: reflexivity.
  1-2: split; [reflexivity | repeat constructor].
  destruct (NET_arr_pipeline
              (fun y x => nth 0 y 0 * (nth 1 x 0 - nth 0 x 0))%float
              (fun x _ => ones x) 2.725 spec_NET_arr one_by_one
              (bare_channel "Atacama" false) 1 1 [[4%float]] [[8%float]])
    as [_ He].
  1-4: reflexivity.
  1-2: split; [reflexivity | repeat constructor].
  split.
  - destruct H as (bw & s1 & s2 & s3 & Hbw & H1 & H2 & H3 & Hrj & _ & _ & Harr & _);
      [discriminate |].
    cbv zeta in *.
    assert (Ebw : bw = 60e9%float).
    { vm_compute in Hbw. injection Hbw as <-. reflexivity. }
    subst bw.
    assert (E1 : s1 = <["_NET_corr_RJ" := SArr2 [[8%float]]]>
                        (<["_NET_RJ" := SArr2 [[4%float]]]> one_by_one)).
    { vm_compute in H1. injection H1 as <-. vm_compute. reflexivity. }
    subst s1.
    assert (E2 : s2 = <["_NET_arr" := SArr2 [[spec_NET_arr 8 1 1]]]>
                        (<["_NET_corr_RJ" := SArr2 [[8%float]]]>
                           (<["_NET_RJ" := SArr2 [[4%float]]]> one_by_one))).
    { vm_compute in H2. injection H2 as <-. vm_compute. reflexivity. }
    subst s2.
    exists s3. split; [exact H3 |]. split.
    + rewrite Harr. vm_compute. reflexivity.
    + vm_compute in H3. injection H3 as <-. vm_compute. reflexivity.
  - apply He; [reflexivity | lia | lia].
Defined.

(** X14, for one detector. *)
Lemma map_depth_one_by_one :
  _calc_map_depth_RJ one_by_one (bare_channel "Atacama" false)
  = Raise (AttributeError "_NET_arr_RJ").
Proof.
  destruct (map_depth_is_never_stored one_by_one (bare_channel "Atacama" false) 1 1)
    as [_ [_ [_ H]]].
  - reflexivity.
  - reflexivity.
  - lia.
  - lia.
  - apply H. reflexivity.
Defined.

(** X15, for the last element of the toy chain. *)
Lemma sky_side_rows_of_the_toy_chain :
  eff_towards_sky (_buffer_tran toy_tran toy_freqs) toy_freqs 2
  = Ok [[0.8; 0.8]; [1; 1]; [0; 0]]%float.
Proof.
  destruct (sky_side_efficiency_rows (_buffer_tran toy_tran toy_freqs) toy_freqs 2)
    as [rows [Hr [Hrows _]]].
  - simpl. lia.
  - rewrite Hr, Hrows. vm_compute. reflexivity.
Defined.

(** X16, for one detector of two elements. *)
Lemma table_of_one_detector :
  reshape_transpose [[[1; 2]]]%float = Ok [[1]; [2]]%float.
Proof.
  destruct (table_is_the_transposed_reshape [[[1; 2]]]%float 1 1 2)
    as [t [Ht _]].
  - split; [reflexivity | repeat constructor].
  - lia.
  - lia.
  - rewrite Ht. vm_compute in Ht. injection Ht as <-. reflexivity.
Defined.

(* ===================================================================== *)
(** * Properties of the parameter table of a channel *)
(* ===================================================================== *)

Section ChannelFacts.

Context {rt : PyRuntime}.

(** ** The median under [change], on one band *)

Lemma change_single_band (p p' : Param) (new_avg : pyval) (new_std : option float)
    (band_id : Z) (b : bool) :
  _mult_bands p = Some false ->
  change p new_avg new_std band_id = Ok (b, p') ->
  _val p' = _val p /\ _med p' = _med p /\ _mult_bands p' = Some false
  /\ is_none (_avg p) = false /\ is_none (_avg p') = false.
Proof.
  intros Hmb H.
  destruct new_avg; try discriminate H.
  - (* a float *)
    unfold change, _is_empty, get_mult_bands in H. rewrite Hmb in H. cbn [bind] in H.
    destruct (is_float_str_val (_avg p)) eqn:He.
    + injection H as _ <-. cbn. repeat split; auto.
      destruct (_avg p); try discriminate He; reflexivity.
    + unfold change_float_slot in H.
      apply bind_Ok_inv in H as [a [_ H]].
      apply bind_Ok_inv in H as [c [Hc H]].
      assert (Hnn : is_none (_avg p) = false).
      { destruct (_avg p); try reflexivity. discriminate Hc. }
      destruct (float_ne a c); cbn [snd] in H.
      * destruct new_std as [s|].
        -- apply bind_Ok_inv in H as [x [_ H]].
           apply bind_Ok_inv in H as [y [_ H]].
           destruct (float_ne x y); injection H as _ <-; cbn; auto.
        -- injection H as _ <-. cbn. auto.
      * destruct new_std as [s|].
        -- apply bind_Ok_inv in H as [x [_ H]].
           apply bind_Ok_inv in H as [y [_ H]].
           destruct (float_ne x y); injection H as _ <-; cbn; auto.
        -- injection H as _ <-. cbn. auto.
  - (* a string *)
    unfold change, get_mult_bands in H. rewrite Hmb in H. cbn [bind] in H.
    apply bind_Ok_inv in H as [u [Hu H]].
    assert (Hnn : is_none (_avg p) = false).
    { destruct (_avg p); try reflexivity. discriminate Hu. }
    destruct (negb (String.eqb u (PyStr.upper s))); injection H as _ <-; cbn; auto.
Qed.

Lemma change_single_band_fetch_med (p p' : Param) (new_avg : pyval)
    (new_std : option float) (band_id : Z) (b : bool) :
  _mult_bands p = Some false ->
  change p new_avg new_std band_id = Ok (b, p') ->
  forall band, get_med p' band = get_med p band.
Proof.
  intros Hmb H band.
  destruct (change_single_band p p' _ _ _ _ Hmb H) as (Hv & Hm & Hmb' & Hn & Hn').
  unfold get_med, fetch, get_mult_bands.
  rewrite Hv, Hm, Hmb', Hmb, Hn, Hn'. rewrite !andb_false_r. reflexivity.
Qed.

(** ** Dicts and names *)

Lemma dict_lookup_set_eq {V : Type} (d : list (string * V)) (k : string) (v : V) :
  Chan.dict_lookup (Chan.dict_set d k v) k = Some v.
Proof.
  induction d as [|[k' v'] d IH]; simpl.
  - rewrite String.eqb_refl. reflexivity.
  - destruct (String.eqb k' k) eqn:E; simpl; rewrite E; [reflexivity | exact IH].
Qed.

Lemma dict_lookup_set_ne {V : Type} (d : list (string * V)) (k k' : string) (v : V) :
  k <> k' -> Chan.dict_lookup (Chan.dict_set d k v) k' = Chan.dict_lookup d k'.
Proof.
  intros Hne. induction d as [|[k0 v0] d IH]; simpl.
  - destruct (String.eqb k k') eqn:E; [apply String.eqb_eq in E; congruence | reflexivity].
  - destruct (String.eqb k0 k) eqn:E; simpl.
    + apply String.eqb_eq in E. subst k0.
      destruct (String.eqb k k') eqn:E'; [apply String.eqb_eq in E'; congruence |].
      reflexivity.
    + destruct (String.eqb k0 k'); [reflexivity | exact IH].
Qed.

Lemma dict_has_set {V : Type} (d : list (string * V)) (k k' : string) (v : V) :
  Chan.dict_has d k' = true -> Chan.dict_has (Chan.dict_set d k v) k' = true.
Proof.
  unfold Chan.dict_has. intros H.
  destruct (String.eqb k k') eqn:E.
  - apply String.eqb_eq in E. subst k'. rewrite dict_lookup_set_eq. reflexivity.
  - apply String.eqb_neq in E. rewrite dict_lookup_set_ne by exact E. exact H.
Qed.

Lemma dict_has_In {V : Type} (d : list (string * V)) (k : string) (v : V) :
  In (k, v) d -> Chan.dict_has d k = true.
Proof.
  unfold Chan.dict_has. induction d as [|[k' v'] d IH]; simpl; [tauto |].
  intros [Heq|Hin].
  - injection Heq as -> ->. rewrite String.eqb_refl. reflexivity.
  - destruct (String.eqb k' k); [reflexivity | apply IH; exact Hin].
Qed.

Lemma names_of_resolve (d : list (string * Param)) (m : gmap string string) :
  Chan.names_of d = Ok m -> names_resolve m d.
Proof.
  unfold Chan.names_of.
  assert (G : forall (l : list (string * Param)) (acc : result (gmap string string)) m,
            fold_left
              (fun acc kp =>
                 bind acc (fun m =>
                 match name (snd kp) with
                 | VStr s => Ok (<[s := fst kp]> m)
                 | VSeq _ | VRef _ => Raise TypeError
                 | _ => Ok m
                 end)) l acc = Ok m ->
            exists m0, acc = Ok m0 /\
              forall nm pid, m !! nm = Some pid ->
                m0 !! nm = Some pid \/ exists p, In (pid, p) l).
  { induction l as [|[k p] l IH]; intros acc m' H; simpl in H.
    - exists m'. split; [exact H | auto].
    - apply IH in H as [m1 [H1 H2]].
      apply bind_Ok_inv in H1 as [m0 [-> H1]]. exists m0. split; [reflexivity |].
      intros nm pid Hm. destruct (H2 nm pid Hm) as [Hin|[q Hq]].
      + cbn [snd fst] in H1.
        destruct (name p); try (injection H1 as <-; auto); try discriminate H1.
        destruct (decide (s = nm)) as [->|Hne].
        * rewrite lookup_insert_eq in Hin. injection Hin as <-.
          right. exists p. left. reflexivity.
        * rewrite lookup_insert_ne in Hin by exact Hne. auto.
      + right. exists q. right. exact Hq. }
  intros H nm pid Hm. apply G in H as [m0 [Hm0 H]]. injection Hm0 as <-.
  destruct (H nm pid Hm) as [He|[p Hp]].
  - rewrite lookup_empty in He. discriminate He.
  - eapply dict_has_In; exact Hp.
Qed.

Lemma _store_param_dict_registered (self c : Chan.Channel) :
  Chan._store_param_dict self = Ok c -> registered c.
Proof.
  unfold Chan._store_param_dict. intros H.
  apply bind_Ok_inv in H as [pd [_ H]].
  apply bind_Ok_inv in H as [dd0 [_ H]].
  apply bind_Ok_inv in H as [dd1 [_ H]].
  apply bind_Ok_inv in H as [dd2 [_ H]].
  apply bind_Ok_inv in H as [dd3 [_ H]].
  apply bind_Ok_inv in H as [pn [Hpn H]].
  apply bind_Ok_inv in H as [dn [Hdn H]].
  injection H as <-. split; cbn.
  - apply names_of_resolve. exact Hpn.
  - apply names_of_resolve. exact Hdn.
Qed.

Lemma change_in_keys (d d' : list (string * Param)) (pid : string) (v : pyval)
    (b : bool) :
  Chan.change_in d pid v = Ok (b, d') ->
  forall k, Chan.dict_has d k = true -> Chan.dict_has d' k = true.
Proof.
  unfold Chan.change_in. intros H k Hk.
  apply bind_Ok_inv in H as [p [_ H]].
  apply bind_Ok_inv in H as [r [_ H]].
  injection H as _ <-. apply dict_has_set. exact Hk.
Qed.

(** ** Changing a parameter of the channel *)

(** X17: in the channel that [_store_param_dict] returns every display
    name stands for a key of its dict; on such a channel [change_param] by
    the display name of a channel parameter is [change_param] by its key; a
    label that is neither a key nor a display name changes nothing and does
    not return; and a call that returns leaves the names standing for
    keys. *)
Theorem change_param_by_name_is_by_key (self : Chan.Channel) (v : pyval) :
  (forall c0, Chan._store_param_dict c0 = Ok self -> registered self)
  /\ (registered self ->
      (forall nm pid,
          Chan.dict_has (Chan._param_dict self) nm = false ->
          Chan.dict_has (Chan.det_dict self) nm = false ->
          Chan._param_names self !! nm = Some pid ->
          Chan.change_param self nm v = Chan.change_param self pid v)
      /\ (forall nm,
            Chan.dict_has (Chan._param_dict self) nm = false ->
            Chan.dict_has (Chan.det_dict self) nm = false ->
            Chan._param_names self !! nm = None ->
            Chan._det_param_names self !! nm = None ->
            forall b c, Chan.change_param self nm v <> Ok (b, c))
      /\ (forall x b c, Chan.change_param self x v = Ok (b, c) -> registered c)).
Proof.
  split; [intros c0 H; eapply _store_param_dict_registered; exact H |].
  intros [Rp Rd]. split; [| split].
  - intros nm pid H1 H2 Hnm. unfold Chan.change_param.
    rewrite H1, H2, Hnm. cbn [negb andb].
    rewrite (Rp nm pid Hnm). cbn [negb andb]. reflexivity.
  - intros nm H1 H2 H3 H4 b c H. unfold Chan.change_param in H.
    rewrite H1, H2, H3, H4 in H. cbn [negb andb] in H.
    apply bind_Ok_inv in H as [? [_ H]]. discriminate H.
  - intros x b c H. unfold Chan.change_param in H.
    apply bind_Ok_inv in H as [? [_ H]].
    repeat match type of H with
    | (if ?c then _ else _) = Ok _ => destruct c eqn:?
    | match ?c with _ => _ end = Ok _ => destruct c eqn:?
    end; try discriminate H;
    apply bind_Ok_inv in H as [[? ?] [? H]]; cbn [fst snd] in H;
    injection H as <- <-.
    all: split; cbn; try exact Rp; try exact Rd.
    all: intros nm pid Hnm.
    all: first [ eapply change_in_keys; [eassumption | eapply Rp; exact Hnm]
               | eapply change_in_keys; [eassumption | eapply Rd; exact Hnm] ].
Qed.

Lemma change_in_single_band_med (d d' : list (string * Param)) (pid : string)
    (v : pyval) (b : bool) (k : string) (p : Param) :
  Chan.change_in d pid v = Ok (b, d') ->
  Chan.dict_lookup d k = Some p ->
  _mult_bands p = Some false ->
  exists p', Chan.dict_lookup d' k = Some p' /\ get_med p' 1 = get_med p 1.
Proof.
  unfold Chan.change_in, Chan.dict_get. intros H Hk Hmb.
  destruct (Chan.dict_lookup d pid) as [q|] eqn:Hq; [cbn [bind] in H | discriminate H].
  apply bind_Ok_inv in H as [[b' q'] [Hch H]]. cbn [fst snd] in H.
  injection H as _ <-.
  destruct (decide (pid = k)) as [->|Hne].
  - rewrite dict_lookup_set_eq. exists q'. split; [reflexivity |].
    rewrite Hk in Hq. injection Hq as <-.
    eapply change_single_band_fetch_med; eauto.
  - rewrite dict_lookup_set_ne by exact Hne. exists p. auto.
Qed.

(** X18: [change_param] assigns none of the evaluated values, so [param]
    answers after it what it answered before; and [get_param], the median,
    of every single-band channel parameter is what it was, the changed one
    included. *)
Theorem change_param_leaves_values_and_medians (self c : Chan.Channel)
    (x : string) (v : pyval) (b : bool) :
  Chan.change_param self x v = Ok (b, c) ->
  (forall y, Chan.param c y = Chan.param self y)
  /\ (forall k p, Chan.dict_lookup (Chan._param_dict self) k = Some p ->
        _mult_bands p = Some false ->
        Chan.get_param c k = Chan.get_param self k).
Proof.
  intros H. unfold Chan.change_param in H.
  apply bind_Ok_inv in H as [nm [_ H]].
  assert (Hsame : forall k p, Chan.dict_lookup (Chan._param_dict self) k = Some p ->
            _mult_bands p = Some false ->
            Chan._param_dict c = Chan._param_dict self ->
            Chan.get_param c k = Chan.get_param self k).
  { intros k p _ _ Heq. unfold Chan.get_param. rewrite Heq. reflexivity. }
  assert (Hchg : forall pid d' k p,
            Chan.change_in (Chan._param_dict self) pid v = Ok (b, d') ->
            Chan._param_dict c = d' ->
            Chan.dict_lookup (Chan._param_dict self) k = Some p ->
            _mult_bands p = Some false ->
            Chan.get_param c k = Chan.get_param self k).
  { intros pid d' k p Hc Heq Hk Hmb. unfold Chan.get_param, Chan.dict_get.
    rewrite Heq.
    destruct (change_in_single_band_med _ _ _ _ _ _ _ Hc Hk Hmb) as [p' [Hp' Hm]].
    rewrite Hp', Hk. cbn [bind]. exact Hm. }
  repeat match type of H with
  | (if ?c then _ else _) = Ok _ => destruct c eqn:?
  | match ?c with _ => _ end = Ok _ => destruct c eqn:?
  end; try discriminate H;
  apply bind_Ok_inv in H as [[b' d'] [Hc H]]; cbn [fst snd] in H;
  injection H as -> <-; (split; [reflexivity |]); intros k p Hk Hmb.
  all: first [ eapply Hchg; [exact Hc | reflexivity | exact Hk | exact Hmb]
             | eapply Hsame; [exact Hk | exact Hmb | reflexivity] ].
Qed.

(** ** The evaluated values *)

(** X19: after [set_param(x, v)], [param(x)] is [v] and [param] of any
    other name is what it was, the camera being asked only for a name that
    was never set; the Parameter objects are not touched; and before the
    channel is evaluated [set_param], [param] and [change_param] raise
    AttributeError, there being no [_param_vals]. *)
Theorem set_param_then_param (self c : Chan.Channel) (x : string) (v : pyval) :
  (Chan.set_param self x v = Ok c ->
     Chan.param c x = Ok v
     /\ (forall y, y <> x -> Chan.param c y = Chan.param self y)
     /\ Chan._param_dict c = Chan._param_dict self
     /\ Chan.det_dict c = Chan.det_dict self)
  /\ (Chan._param_vals self = None ->
        Chan.set_param self x v = Raise (AttributeError "_param_vals")
        /\ Chan.param self x = Raise (AttributeError "_param_vals")
        /\ Chan.change_param self x v = Raise (AttributeError "_param_vals")).
Proof.
  split.
  - unfold Chan.set_param, Chan.get_param_vals. intros H.
    destruct (Chan._param_vals self) as [vals|] eqn:Hv; [| discriminate H].
    injection H as <-. unfold Chan.param, Chan.get_param_vals. cbn.
    rewrite Hv. cbn. rewrite lookup_insert_eq. repeat split.
    intros y Hy. rewrite lookup_insert_ne by congruence. reflexivity.
  - intros Hv. unfold Chan.set_param, Chan.change_param, Chan.param, Chan.get_param_vals.
    rewrite Hv. repeat split.
Qed.

(** ** Labels *)

Lemma map_chars_remove_blanks (f : ascii -> ascii) (s : string) :
  (forall c, Ascii.eqb (f c) " " = Ascii.eqb c " ") ->
  Chan.remove_blanks (PyStr.map_chars f s) = PyStr.map_chars f (Chan.remove_blanks s).
Proof.
  intros Hf. induction s as [|c s IH]; simpl; [reflexivity |].
  rewrite Hf. destruct (Ascii.eqb c " "); simpl; rewrite IH; reflexivity.
Qed.

Lemma map_chars_lstrip (f : ascii -> ascii) (s : string) :
  (forall c, PyStr.is_space (f c) = PyStr.is_space c) ->
  PyStr.lstrip (PyStr.map_chars f s) = PyStr.map_chars f (PyStr.lstrip s).
Proof.
  intros Hf. induction s as [|c s IH]; simpl; [reflexivity |].
  rewrite Hf. destruct (PyStr.is_space c); [exact IH | reflexivity].
Qed.

Lemma map_chars_rev_onto (f : ascii -> ascii) (s acc : string) :
  PyStr.rev_onto (PyStr.map_chars f s) (PyStr.map_chars f acc)
  = PyStr.map_chars f (PyStr.rev_onto s acc).
Proof.
  revert acc. induction s as [|c s IH]; intros acc; simpl; [reflexivity |].
  rewrite <- IH. reflexivity.
Qed.

Lemma map_chars_strip (f : ascii -> ascii) (s : string) :
  (forall c, PyStr.is_space (f c) = PyStr.is_space c) ->
  PyStr.strip (PyStr.map_chars f s) = PyStr.map_chars f (PyStr.strip s).
Proof.
  intros Hf. unfold PyStr.strip, PyStr.rstrip, PyStr.rev.
  rewrite (map_chars_lstrip f s Hf).
  change EmptyString with (PyStr.map_chars f EmptyString).
  rewrite map_chars_rev_onto. rewrite (map_chars_lstrip f _ Hf).
  rewrite map_chars_rev_onto. reflexivity.
Qed.

Lemma map_chars_compose (f g : ascii -> ascii) (s : string) :
  PyStr.map_chars f (PyStr.map_chars g s) = PyStr.map_chars (fun c => f (g c)) s.
Proof.
  induction s as [|c s IH]; simpl; [reflexivity | rewrite IH; reflexivity].
Qed.

Lemma map_chars_ext (f g : ascii -> ascii) (s : string) :
  (forall c, f c = g c) -> PyStr.map_chars f s = PyStr.map_chars g s.
Proof.
  intros H. induction s as [|c s IH]; simpl; [reflexivity | rewrite H, IH; reflexivity].
Qed.

Lemma remove_blanks_app (a b : string) :
  Chan.remove_blanks (a ++ b) = (Chan.remove_blanks a ++ Chan.remove_blanks b)%string.
Proof.
  induction a as [|c a IH]; simpl; [reflexivity |].
  destruct (Ascii.eqb c " "); simpl; rewrite IH; reflexivity.
Qed.

Lemma cap_name_of_case (f : ascii -> ascii) (s : string) :
  (forall c, Ascii.eqb (f c) " " = Ascii.eqb c " ") ->
  (forall c, PyStr.is_space (f c) = PyStr.is_space c) ->
  (forall c, PyStr.upper_char (f c) = PyStr.upper_char c) ->
  Chan.cap_name (PyStr.map_chars f s) = Chan.cap_name s.
Proof.
  intros H1 H2 H3. unfold Chan.cap_name, PyStr.upper.
  rewrite (map_chars_remove_blanks f s H1), (map_chars_strip f _ H2).
  rewrite map_chars_compose. apply map_chars_ext. exact H3.
Qed.

(** X20: [_store_param] reads a label without its spaces and without the
    case of its letters: a space more, the label in lower case or in upper
    case give the same Parameter or the same exception; and a label that
    is a standard parameter but whose capital key the input dict lacks
    raises KeyError on that key. *)
Theorem label_is_read_without_blanks_and_case (self : Chan.Channel) :
  (forall a b : string,
      Chan._store_param self (a ++ " " ++ b) = Chan._store_param self (a ++ b))
  /\ (forall s, Chan._store_param self (PyStr.lower s) = Chan._store_param self s)
  /\ (forall s, Chan._store_param self (PyStr.upper s) = Chan._store_param self s)
  /\ (forall s sp, Chan._std_params self !! Chan.cap_name s = Some sp ->
        Chan._inp_dict self !! Chan.cap_name s = None ->
        Chan._store_param self s = Raise (KeyError (Chan.cap_name s))).
Proof.
  split; [| split; [| split]].
  - intros a b. unfold Chan._store_param.
    assert (H : Chan.cap_name (a ++ " " ++ b) = Chan.cap_name (a ++ b)).
    { unfold Chan.cap_name. rewrite !remove_blanks_app. reflexivity. }
    rewrite H. reflexivity.
  - intros s. unfold Chan._store_param.
    assert (H : Chan.cap_name (PyStr.lower s) = Chan.cap_name s).
    { apply cap_name_of_case; intros c;
        destruct c as [[] [] [] [] [] [] [] []]; reflexivity. }
    rewrite H. reflexivity.
  - intros s. unfold Chan._store_param.
    assert (H : Chan.cap_name (PyStr.upper s) = Chan.cap_name s).
    { apply cap_name_of_case; intros c;
        destruct c as [[] [] [] [] [] [] [] []]; reflexivity. }
    rewrite H. reflexivity.
  - intros s sp Hsp Hinp. unfold Chan._store_param. rewrite Hsp, Hinp. reflexivity.
Qed.

(** ** The parameters added later to the input format *)

Lemma store_newer_sets (self : Chan.Channel) (d d' : list (string * Param))
    (key label : string) :
  Chan.store_newer self d key label = Ok d' ->
  exists p, d' = Chan.dict_set d key p
    /\ (Chan._inp_dict self !! label = None -> Chan.not_available label = Ok p)
    /\ (is_Some (Chan._inp_dict self !! label) ->
          Chan._store_param self label = Ok p).
Proof.
  unfold Chan.store_newer. intros H.
  destruct (Chan._inp_dict self !! label) as [x|].
  - apply bind_Ok_inv in H as [p [Hp H]]. injection H as <-.
    exists p. split; [reflexivity |]. split; [discriminate | auto].
  - apply bind_Ok_inv in H as [p [Hp H]]. injection H as <-.
    exists p. split; [reflexivity |]. split; [auto |].
    intros [? Hx]. discriminate Hx.
Qed.

Lemma _store_param_reads_capital (self : Chan.Channel) (label : string) (p : Param) :
  Chan._store_param self label = Ok p ->
  exists sp inp,
    Chan._std_params self !! Chan.cap_name label = Some sp
    /\ Chan._inp_dict self !! Chan.cap_name label = Some inp
    /\ __init__ (mkInitArgs inp (Some sp) VNone None VNone VNone TFloat None) = Ok p.
Proof.
  unfold Chan._store_param. intros H.
  destruct (Chan._std_params self !! Chan.cap_name label) as [sp|]; [| discriminate H].
  destruct (Chan._inp_dict self !! Chan.cap_name label) as [inp|]; [| discriminate H].
  cbn [bind] in H. eauto.
Qed.

(** X21: [_store_param_dict] tests the input dict for the labels Flink and
    Responsivity Factor as written, and reads the value under the capital
    key: when the dict it returns was built without the label as written,
    the detector parameter is the not-available one, whatever stands under
    the capital key; with it, the value was read under FLINK, or
    RESPONSIVITYFACTOR, which must be there too. *)
Theorem newer_parameters_are_read_by_capital_key (self c : Chan.Channel) :
  Chan._store_param_dict self = Ok c ->
  (Chan._inp_dict self !! "Flink" = None ->
     exists p, Chan.not_available "Flink" = Ok p
               /\ Chan.dict_lookup (Chan.det_dict c) "flink" = Some p)
  /\ (is_Some (Chan._inp_dict self !! "Flink") ->
      exists sp inp p,
        Chan._std_params self !! "FLINK" = Some sp
        /\ Chan._inp_dict self !! "FLINK" = Some inp
        /\ __init__ (mkInitArgs inp (Some sp) VNone None VNone VNone TFloat None) = Ok p
        /\ Chan.dict_lookup (Chan.det_dict c) "flink" = Some p)
  /\ (Chan._inp_dict self !! "Responsivity Factor" = None ->
     exists p, Chan.not_available "Responsivity Factor" = Ok p
               /\ Chan.dict_lookup (Chan.det_dict c) "sfact" = Some p)
  /\ (is_Some (Chan._inp_dict self !! "Responsivity Factor") ->
      exists sp inp p,
        Chan._std_params self !! "RESPONSIVITYFACTOR" = Some sp
        /\ Chan._inp_dict self !! "RESPONSIVITYFACTOR" = Some inp
        /\ __init__ (mkInitArgs inp (Some sp) VNone None VNone VNone TFloat None) = Ok p
        /\ Chan.dict_lookup (Chan.det_dict c) "sfact" = Some p).
Proof.
  unfold Chan._store_param_dict. intros H.
  apply bind_Ok_inv in H as [pd [_ H]].
  apply bind_Ok_inv in H as [dd0 [_ H]].
  apply bind_Ok_inv in H as [dd1 [H1 H]].
  apply bind_Ok_inv in H as [dd2 [H2 H]].
  apply bind_Ok_inv in H as [dd3 [H3 H]].
  apply bind_Ok_inv in H as [pn [_ H]].
  apply bind_Ok_inv in H as [dn [_ H]].
  injection H as <-. cbn [Chan.det_dict Chan.set_names Chan.set_det_dict].
  apply store_newer_sets in H1 as [p1 [-> [N1 S1]]].
  apply store_newer_sets in H2 as [p2 [-> [_ _]]].
  apply store_newer_sets in H3 as [p3 [-> [N3 S3]]].
  cbn [Chan._inp_dict Chan.set_param_dict] in *.
  assert (Hflink : Chan.dict_lookup
            (Chan.dict_set (Chan.dict_set (Chan.dict_set dd0 "flink" p1) "g" p2) "sfact" p3)
            "flink" = Some p1).
  { rewrite !dict_lookup_set_ne by discriminate. apply dict_lookup_set_eq. }
  assert (Hsfact : Chan.dict_lookup
            (Chan.dict_set (Chan.dict_set (Chan.dict_set dd0 "flink" p1) "g" p2) "sfact" p3)
            "sfact" = Some p3) by apply dict_lookup_set_eq.
  split; [| split; [| split]].
  - intros Hn. exists p1. split; [apply N1; exact Hn | exact Hflink].
  - intros Hs. apply S1 in Hs. apply _store_param_reads_capital in Hs
      as [sp [inp [Hsp [Hinp Hinit]]]].
    exists sp, inp, p1. repeat split; assumption.
  - intros Hn. exists p3. split; [apply N3; exact Hn | exact Hsfact].
  - intros Hs. apply S3 in Hs. apply _store_param_reads_capital in Hs
      as [sp [inp [Hsp [Hinp Hinit]]]].
    exists sp, inp, p3. repeat split; assumption.
Qed.

(** ** Sampling for the channel *)

(** X22: for a float Parameter built from a text without the spread
    delimiter, [_param_samp] gives the average of the band of the channel
    whatever the number of experiments is. *)
Theorem param_samp_of_a_text_without_spread (self : Chan.Channel) (a : init_args)
    (p : Param) (s : string) :
  declared_kind a = TFloat ->
  arg_inp a = InVal (VStr s) ->
  PyStr.contains _spread_delim s = false ->
  __init__ a = Ok p ->
  Chan._param_samp self p =
    bind (Chan.param self "band_id") (fun b =>
    bind (Chan.band_of b) (fun band_id =>
    bind (get_avg p band_id) (fun v => Ok (v, p)))).
Proof.
  intros Hk Hinp Hd Hinit. unfold Chan._param_samp.
  destruct (Chan.param self "band_id") as [b|]; [cbn [bind] | reflexivity].
  destruct (Chan.band_of b) as [band_id|]; [cbn [bind] | reflexivity].
  destruct (Chan._nexp self =? 1)%Z; [reflexivity |].
  apply (sample_spreadless a p s Hk Hinp Hd Hinit).
Qed.

End ChannelFacts.

Lemma toy_chan_registered : registered toy_chan.
Proof.
  split; intros nm pid H.
  - simpl in H. apply lookup_singleton_Some in H as [_ <-]. reflexivity.
  - simpl in H. rewrite lookup_empty in H. discriminate H.
Qed.

(** X17, for the toy channel: the parameter "p" stands under the key
    "ot". *)
Lemma change_param_by_name_on_toy_chan :
  @Chan.change_param Ref.runtime toy_chan "p" (VFloat 1000)
  = @Chan.change_param Ref.runtime toy_chan "ot" (VFloat 1000).
Proof.
  destruct (@change_param_by_name_is_by_key Ref.runtime toy_chan (VFloat 1000))
    as [_ H].
  destruct (H toy_chan_registered) as [Hname _].
  apply Hname; reflexivity.
Defined.

(** X18, for the toy channel: the average goes to 1000, and [get_param]
    still answers 100. *)
Lemma get_param_after_change_param :
  exists c,
    @Chan.change_param Ref.runtime toy_chan "ot" (VFloat 1000) = Ok (true, c)
    /\ Chan.get_param c "ot" = Ok (VFloat 100).
Proof.
  destruct (@Chan.change_param Ref.runtime toy_chan "ot" (VFloat 1000))
    as [[b c]|e] eqn:Hc; [| vm_compute in Hc; discriminate Hc].
  assert (Hb : b = true).
  { vm_compute in Hc. injection Hc as <- _. reflexivity. }
  subst b. exists c. split; [reflexivity |].
  destruct (@change_param_leaves_values_and_medians Ref.runtime toy_chan c "ot"
              (VFloat 1000) true Hc) as [_ H].
  rewrite (H "ot"%string gaussian_100_10); reflexivity.
Defined.

(** X19, for the toy channel. *)
Lemma set_param_on_toy_chan :
  exists c,
    Chan.set_param toy_chan "ndet" (VInt 7) = Ok c
    /\ Chan.param c "ndet" = Ok (VInt 7)
    /\ Chan.param c "ch_name" = Ok (VStr "cam1").
Proof.
  destruct (Chan.set_param toy_chan "ndet" (VInt 7)) as [c|e] eqn:Hc;
    [| vm_compute in Hc; discriminate Hc].
  exists c. split; [reflexivity |].
  destruct (@set_param_then_param Ref.runtime toy_chan c "ndet" (VInt 7)) as [H _].
  destruct (H Hc) as [H1 [H2 _]]. split; [exact H1 |].
  rewrite H2 by discriminate. reflexivity.
Defined.

(** X20, for a label of the channel file in lower case, and for a label
    whose capital key the input dict lacks. *)
Lemma label_in_lower_case :
  @Chan._store_param Ref.runtime unbuilt_chan "num det per wafer"
  = @Chan._store_param Ref.runtime unbuilt_chan "Num Det per Wafer"
  /\ @Chan._store_param Ref.runtime
       (Chan.mkChannel ∅ toy_std_params 1 (fun x => Raise (KeyError x)) [] [] ∅ ∅ None)
       "Tc Fraction"
     = Raise (KeyError "TCFRACTION").
Proof.
  destruct (@label_is_read_without_blanks_and_case Ref.runtime unbuilt_chan)
    as [_ [Hl _]].
  destruct (@label_is_read_without_blanks_and_case Ref.runtime
              (Chan.mkChannel ∅ toy_std_params 1 (fun x => Raise (KeyError x))
                 [] [] ∅ ∅ None)) as [_ [_ [_ Hk]]].
  split.
  - exact (Hl "Num Det per Wafer"%string).
  - eapply (Hk "Tc Fraction"%string); vm_compute; reflexivity.
Defined.

(** X21, for the toy inputs, which have no entry Flink: the channel is
    built, and its parameter flink is the not-available one. *)
Lemma flink_of_the_toy_inputs :
  exists c p,
    @Chan._store_param_dict Ref.runtime unbuilt_chan = Ok c
    /\ @Chan.not_available Ref.runtime "Flink" = Ok p
    /\ Chan.dict_lookup (Chan.det_dict c) "flink" = Some p.
Proof.
  destruct (@Chan._store_param_dict Ref.runtime unbuilt_chan) as [c|e] eqn:Hc;
    [| vm_compute in Hc; discriminate Hc].
  destruct (@newer_parameters_are_read_by_capital_key Ref.runtime unbuilt_chan c Hc)
    as [H _].
  destruct H as [p [Hp Hl]]; [vm_compute; reflexivity |].
  exists c, p. split; [reflexivity |]. split; assumption.
Defined.

(** X22, for the literal 5 and the toy channel, which has two
    experiments. *)
Lemma param_samp_of_the_literal_5 :
  @Chan._param_samp Ref.runtime toy_chan bounded_5 = Ok (VFloat 5, bounded_5).
Proof.
  rewrite (@param_samp_of_a_text_without_spread Ref.runtime toy_chan
             (bounded_literal "5") bounded_5 "5").
  - reflexivity.
  - reflexivity.
  - reflexivity.
  - vm_compute. reflexivity.
  - exact bounded_5_constructed.
Defined.
